(** * The user-level Click driver and the SetTXPower element

    A shallow embedding of [userlevel/click.cc] (handler reporting,
    hot-swapping, configuration switching, signal handling, the tail of
    [main]) and of the [power] write handler of
    [elements/wifi/settxpower.cc], together with the properties the
    specification states about them.

    Objects the driver reaches through pointers ([Router *], [Element *])
    live in an explicit store; the library routines the driver calls but
    does not define (the configuration parser, [Router::initialize], the
    [cp_*] parsers, [glob_match]) are section variables. *)

From Stdlib Require Import ZArith String Ascii List Bool Lia Sorted.
From stdpp Require Import base option list strings gmap pretty.

Local Open Scope string_scope.
Local Open Scope list_scope.
Local Open Scope Z_scope.

(** ** Strings as the driver uses them *)

Module Str.

Definition LF : ascii := "010"%char.

(** [String::back()]: the last character ([None] on the empty string, where
    the driver never asks). *)
Fixpoint back (s : string) : option ascii :=
  match s with
  | EmptyString => None
  | String c EmptyString => Some c
  | String _ rest => back rest
  end.

(** A [String] in a boolean context is true when it is not empty. *)
Definition nonempty (s : string) : bool :=
  match s with EmptyString => false | String _ _ => true end.

(** [find(s, c)] followed by the two [substring] calls of
    [call_read_handlers]: the text before the first [c] and the text after
    it, or [None] when [c] does not occur ([find] returned [s.end()]). *)
Fixpoint split_at (c : ascii) (s : string) : option (string * string) :=
  match s with
  | EmptyString => None
  | String a rest =>
      if Ascii.eqb a c then Some (EmptyString, rest)
      else match split_at c rest with
           | Some (pre, post) => Some (String a pre, post)
           | None => None
           end
  end.

(** [s.c_str()] as a C function reads it: the characters before the first
    NUL byte, all of [s] when it has none. *)
Fixpoint c_str (s : string) : string :=
  match s with
  | EmptyString => EmptyString
  | String a rest =>
      if Ascii.eqb a Ascii.zero then EmptyString else String a (c_str rest)
  end.

(** Does [c] occur in [s]? *)
Fixpoint mem (c : ascii) (s : string) : bool :=
  match s with
  | EmptyString => false
  | String a rest => Ascii.eqb a c || mem c rest
  end.

(** The scan of [expand_handler_elements] for a glob character. *)
Fixpoint has_glob_char (s : string) : bool :=
  match s with
  | EmptyString => false
  | String a rest =>
      if Ascii.eqb a "?" || Ascii.eqb a "*" || Ascii.eqb a "[" then true
      else has_glob_char rest
  end.

End Str.

(** ** Error handlers *)

(** [errno.h]: EINVAL. *)
Definition EINVAL : Z := 22.

Module Errh.

(** What the driver observes of an [ErrorHandler]: the messages reported as
    errors (their number is [nerrors()]) and as warnings. *)
Record t := mk { errors : list string; warnings : list string }.

Definition empty : t := mk [] [].

Definition nerrors (eh : t) : Z := Z.of_nat (length (errors eh)).

(** Modelled from the spec: [ErrorHandler::error] is declared in
    click/error.hh, which is not among the sources; section 7 has errors
    accumulate in the error handler, and the driver uses the returned value
    as a negative status. *)
Definition error (msg : string) (eh : t) : Z * t :=
  (- EINVAL, mk (errors eh ++ [msg]) (warnings eh)).

Definition warning (msg : string) (eh : t) : t :=
  mk (errors eh) (warnings eh ++ [msg]).

(** Reporting a batch of messages, as a library routine that was handed the
    error handler does. *)
Definition report (msgs : list string) (eh : t) : t :=
  mk (errors eh ++ msgs) (warnings eh).

End Errh.

(** ** Handlers, elements, routers *)

(** The hooks a write handler can carry; the driver registers one of its
    own. *)
Inductive WriteHook :=
  | hook_hotconfig_handler
  | hook_element (tag : nat).

(** A handler as the driver sees it: its flag word, the text its read hook
    returns for its element, and its write hook. *)
Record Handler := mkHandler {
  h_flags : Z;
  h_call_read : string;
  h_write_hook : option WriteHook
}.

(** An element: instance name, the class names its [cast] answers to, and
    its handler table. *)
Record Element := mkElement {
  e_name : string;
  e_cast : string -> bool;
  e_configuration : string;
  e_handlers : gmap string Handler
}.

(** An [Element *] seen from a router: the root element or the element at
    an index. *)
Inductive ElementRef :=
  | ERoot
  | EIdx (i : nat).

(** Lifecycle states of section 4.6. *)
Inductive RouterState :=
  | parsed | configured | initialized | running | stopping | stopped.

Definition addr := nat.

Record Router := mkRouter {
  r_master : nat;
  r_state : RouterState;
  r_refcount : Z;
  r_runcount : Z;
  r_elements : list Element;
  r_hotswap_router : option addr
}.

(** What the driver writes: standard output and the error handler. *)
Record Out := mkOut { stdout : string; out_errh : Errh.t }.

Module RouterOps.

Definition nelements (R : Router) : nat := length (r_elements R).

Definition ename (R : Router) (i : nat) : string :=
  match r_elements R !! i with Some el => e_name el | None => "" end.

(** Modelled from the spec: [Router::find] is declared in click/router.hh,
    which is not among the sources; instance names are unique within a
    router and [find] returns the element of that name. *)
Fixpoint find_from (i : nat) (els : list Element) (name : string) : option nat :=
  match els with
  | [] => None
  | el :: rest =>
      if String.eqb (e_name el) name then Some i
      else find_from (S i) rest name
  end.

Definition find (R : Router) (name : string) : option nat :=
  find_from 0 (r_elements R) name.

Definition set_state (s : RouterState) (R : Router) : Router :=
  mkRouter (r_master R) s (r_refcount R) (r_runcount R) (r_elements R)
           (r_hotswap_router R).

Definition set_refcount (n : Z) (R : Router) : Router :=
  mkRouter (r_master R) (r_state R) n (r_runcount R) (r_elements R)
           (r_hotswap_router R).

Definition set_runcount (n : Z) (R : Router) : Router :=
  mkRouter (r_master R) (r_state R) (r_refcount R) n (r_elements R)
           (r_hotswap_router R).

Definition set_hotswap_router (a : option addr) (R : Router) : Router :=
  mkRouter (r_master R) (r_state R) (r_refcount R) (r_runcount R)
           (r_elements R) a.

(** [add_element(e, name, conf, ...)]: the element joins the router under
    the given instance name and configuration string. *)
Definition add_element (el : Element) (name conf : string) (R : Router) : Router :=
  mkRouter (r_master R) (r_state R) (r_refcount R) (r_runcount R)
           (r_elements R ++ [mkElement name (e_cast el) conf (e_handlers el)])
           (r_hotswap_router R).

(** Modelled from the spec: [Router::initialized] is not among the sources;
    by section 4.6 a router is initialized from the state of that name on,
    until it is destroyed. *)
Definition is_initialized (R : Router) : bool :=
  match r_state R with
  | parsed | configured => false
  | initialized | running | stopping | stopped => true
  end.

(** Modelled from the spec: [Router::activate] is not among the sources;
    section 4.6 has it publish the router, after which its tasks may run. *)
Definition activate (R : Router) : Router := set_state running R.

End RouterOps.

(** ** The driver's state *)

Inductive Signal := SIGINT | SIGTERM | SIGPIPE | SIGIO.

Inductive SigHandler := fn_stop_signal_handler | fn_ignore_signal_handler.

(** What [click_signal] installs for a signal: the default action, ignoring
    it, or a handler together with the reset-on-delivery flag. *)
Inductive Disposition :=
  | SIG_DFL
  | SIG_IGN
  | SIG_CATCH (h : SigHandler) (resethand : bool).

#[global] Instance Signal_eq_dec : EqDecision Signal.
Proof. solve_decision. Defined.

(** The file-scope variables of click.cc, the store of [Router] objects
    they point into, the process's signal table with the log of
    [click_signal] calls, the signals the process sent itself with [kill],
    the signal whose default action ended the process (if any), and the
    number of [Master] objects created. *)
Record Driver := mkDriver {
  heap : gmap addr Router;
  router : option addr;
  hotswap_router : option addr;
  hotswap_task_scheduled : bool;
  started : bool;
  global_handlers : gmap string Handler;
  sig_disposition : Signal -> Disposition;
  click_signal_calls : list (Signal * Disposition);
  self_signals : list Signal;
  terminated_by : option Signal;
  nmasters : nat
}.

Definition upd_heap (f : gmap addr Router -> gmap addr Router) (st : Driver) : Driver :=
  mkDriver (f (heap st)) (router st) (hotswap_router st)
           (hotswap_task_scheduled st) (started st) (global_handlers st)
           (sig_disposition st) (click_signal_calls st) (self_signals st)
           (terminated_by st) (nmasters st).

Definition upd_router (a : option addr) (st : Driver) : Driver :=
  mkDriver (heap st) (a) (hotswap_router st)
           (hotswap_task_scheduled st) (started st) (global_handlers st)
           (sig_disposition st) (click_signal_calls st) (self_signals st)
           (terminated_by st) (nmasters st).

Definition upd_hotswap_router (a : option addr) (st : Driver) : Driver :=
  mkDriver (heap st) (router st) (a)
           (hotswap_task_scheduled st) (started st) (global_handlers st)
           (sig_disposition st) (click_signal_calls st) (self_signals st)
           (terminated_by st) (nmasters st).

Definition upd_hotswap_task (b : bool) (st : Driver) : Driver :=
  mkDriver (heap st) (router st) (hotswap_router st)
           (b) (started st) (global_handlers st)
           (sig_disposition st) (click_signal_calls st) (self_signals st)
           (terminated_by st) (nmasters st).

Definition upd_started (b : bool) (st : Driver) : Driver :=
  mkDriver (heap st) (router st) (hotswap_router st)
           (hotswap_task_scheduled st) (b) (global_handlers st)
           (sig_disposition st) (click_signal_calls st) (self_signals st)
           (terminated_by st) (nmasters st).

Definition upd_global_handlers (g : gmap string Handler) (st : Driver) : Driver :=
  mkDriver (heap st) (router st) (hotswap_router st)
           (hotswap_task_scheduled st) (started st) (g)
           (sig_disposition st) (click_signal_calls st) (self_signals st)
           (terminated_by st) (nmasters st).

Definition upd_disposition (sig : Signal) (d : Disposition) (st : Driver) : Driver :=
  mkDriver (heap st) (router st) (hotswap_router st)
           (hotswap_task_scheduled st) (started st) (global_handlers st)
           (fun s => if decide (s = sig) then d else sig_disposition st s) (click_signal_calls st) (self_signals st)
           (terminated_by st) (nmasters st).

Definition log_click_signal (sig : Signal) (d : Disposition) (st : Driver) : Driver :=
  mkDriver (heap st) (router st) (hotswap_router st)
           (hotswap_task_scheduled st) (started st) (global_handlers st)
           (sig_disposition st) (click_signal_calls st ++ [(sig, d)]) (self_signals st)
           (terminated_by st) (nmasters st).

Definition upd_self_signals (l : list Signal) (st : Driver) : Driver :=
  mkDriver (heap st) (router st) (hotswap_router st)
           (hotswap_task_scheduled st) (started st) (global_handlers st)
           (sig_disposition st) (click_signal_calls st) (l)
           (terminated_by st) (nmasters st).

Definition upd_terminated_by (sig : option Signal) (st : Driver) : Driver :=
  mkDriver (heap st) (router st) (hotswap_router st)
           (hotswap_task_scheduled st) (started st) (global_handlers st)
           (sig_disposition st) (click_signal_calls st) (self_signals st)
           (sig) (nmasters st).

Definition upd_nmasters (n : nat) (st : Driver) : Driver :=
  mkDriver (heap st) (router st) (hotswap_router st)
           (hotswap_task_scheduled st) (started st) (global_handlers st)
           (sig_disposition st) (click_signal_calls st) (self_signals st)
           (terminated_by st) (n).

(** The state the process starts in: no router, nothing scheduled, every
    signal at its default action, and the router-scope handlers the core
    itself provides. *)
Definition initial_driver (builtin : gmap string Handler) : Driver :=
  mkDriver ∅ None None false false builtin (fun _ => SIG_DFL) [] [] None 0.

(** ** Ethernet addresses *)

Module EtherAddress.

(** [uint16_t _data[3]]. *)
Record t := mk { _data0 : Z; _data1 : Z; _data2 : Z }.

(** Every word is a [uint16_t]. *)
Definition wf (a : t) : Prop :=
  0 <= _data0 a < 65536 /\ 0 <= _data1 a < 65536 /\ 0 <= _data2 a < 65536.

Section ByteOrder.

(** The byte order of the host: [data()] and the constructor from bytes
    see the three words as the six bytes they occupy in memory. *)
Variable big_endian : bool.

(** Byte [k] (0 or 1) of the word [w] in memory. *)
Definition byte_of (w : Z) (k : nat) : Z :=
  let high := Z.shiftr w 8 in
  let low := Z.land w 255 in
  match k with
  | O => if big_endian then high else low
  | _ => if big_endian then low else high
  end.

(** The word whose bytes in memory are [b0], [b1]. *)
Definition word_of (b0 b1 : Z) : Z :=
  if big_endian then Z.lor (Z.shiftl b0 8) b1 else Z.lor (Z.shiftl b1 8) b0.

(** [EtherAddress()]. *)
Definition default : t := mk 0 0 0.

(** [EtherAddress(const unsigned char *data)]: [memcpy(_data, data, 6)]. *)
Definition of_data (data : nat -> Z) : t :=
  mk (word_of (data 0%nat) (data 1%nat))
     (word_of (data 2%nat) (data 3%nat))
     (word_of (data 4%nat) (data 5%nat)).

(** The private [EtherAddress(uint16_t m)]. *)
Definition of_uint16 (m : Z) : t := mk m m m.

Definition make_broadcast : t := of_uint16 65535.

(** [operator unspecified_bool_type]. *)
Definition to_bool (a : t) : bool :=
  negb (_data0 a =? 0) || negb (_data1 a =? 0) || negb (_data2 a =? 0).

Definition sdata (a : t) (k : nat) : Z :=
  match k with
  | 0%nat => _data0 a
  | 1%nat => _data1 a
  | _ => _data2 a
  end.

(** [data()[i]], for the six bytes [i] = 0, ..., 5 of the array. *)
Definition data (a : t) (i : nat) : Z :=
  byte_of (sdata a (i / 2)) (i mod 2).

Definition is_group (a : t) : bool := negb (Z.land (data a 0) 1 =? 0).

Definition is_local (a : t) : bool := negb (Z.land (data a 0) 2 =? 0).

Definition is_broadcast (a : t) : bool :=
  (_data0 a =? 65535) && (_data1 a =? 65535) && (_data2 a =? 65535).

(** The value stays below 2^32: no [size_t] cuts it. *)
Definition hashcode (a : t) : Z :=
  Z.lxor (Z.lor (_data2 a) (Z.shiftl (_data1 a) 16)) (Z.shiftl (_data0 a) 9).

(** [operator==] and [operator!=]. *)
Definition eqb (a b : t) : bool :=
  (sdata a 0 =? sdata b 0) && (sdata a 1 =? sdata b 1) && (sdata a 2 =? sdata b 2).

Definition neqb (a b : t) : bool := negb (eqb a b).

End ByteOrder.

End EtherAddress.

(** ** Reporting handler results *)

Section ClickDriver.

#[local] Set Default Proof Using "Type".

(** The flag bits of [Handler] (click/handler.hh is not among the sources;
    their values are left open). *)
Variables OP_READ OP_WRITE RAW NONEXCLUSIVE : Z.

(** [glob_match(str, pattern)] of click/userutils.hh. *)
Variable glob_match : string -> string -> bool.

Definition flag_set (h : Handler) (mask : Z) : bool :=
  negb (Z.land (h_flags h) mask =? 0).

(** Modelled from the spec: the flag tests of [Handler] are declared in
    click/handler.hh, which is not among the sources; section 3 lists the
    flags [read_visible], [write_visible] and [raw], and a handler is
    visible when it can be read or written. *)
Definition read_visible (h : Handler) : bool := flag_set h OP_READ.
Definition write_visible (h : Handler) : bool := flag_set h OP_WRITE.
Definition visible (h : Handler) : bool := flag_set h (Z.lor OP_READ OP_WRITE).
Definition raw (h : Handler) : bool := flag_set h RAW.

(** Modelled from the spec: [Router::handler] and [Handler::unparse_name]
    are not among the sources; by section 4.7 handlers are looked up by
    (element, name), or by (router, name) when the element is the root, and
    by section 6 a handler is addressed as [element_name.handler_name], the
    root element by omitting the dotted prefix. *)
Definition Router_handler (G : gmap string Handler) (R : Router)
    (e : ElementRef) (hname : string) : option Handler :=
  match e with
  | ERoot => G !! hname
  | EIdx i =>
      match r_elements R !! i with
      | Some el => e_handlers el !! hname
      | None => None
      end
  end.

Definition unparse_name (R : Router) (e : ElementRef) (hname : string) : string :=
  match e with
  | ERoot => hname
  | EIdx i => RouterOps.ename R i +:+ "." +:+ hname
  end.

(** Writing the C string [s] to standard output, as [fputs] and [fprintf]
    do; and writing all the bytes of [s], as [fwrite] with the length of [s]
    does. *)
Definition fputs (s : string) (o : Out) : Out :=
  mkOut (stdout o +:+ s) (out_errh o).

Definition fwrite (s : string) (o : Out) : Out :=
  mkOut (stdout o +:+ s) (out_errh o).

Definition errh_error (msg : string) (o : Out) : Z * Out :=
  let '(rc, eh) := Errh.error msg (out_errh o) in (rc, mkOut (stdout o) eh).

(** The [String] that [call_read_handler] makes of a handler result: the
    newline is appended when the handler is not raw and the result is not
    empty and does not already end in one. *)
Definition read_body (rh : Handler) : string :=
  let result := h_call_read rh in
  if negb (raw rh) && Str.nonempty result
     && negb (bool_decide (Str.back result = Some Str.LF))
  then result +:+ String Str.LF EmptyString
  else result.

(** The result is printed by [fputs(result.c_str(), stdout)], which ends at
    the first NUL byte of the result.  The name is made of an element name
    of the configuration and a handler name of the command line, which hold
    no NUL byte. *)
Definition call_read_handler (G : gmap string Handler) (R : Router)
    (e : ElementRef) (handler_name : string) (print_name : bool) (o : Out)
    : Z * Out :=
  let full_name := unparse_name R e handler_name in
  match Router_handler G R e handler_name with
  | None => errh_error ("no '" +:+ full_name +:+ "' handler") o
  | Some rh =>
      if negb (visible rh) then
        errh_error ("no '" +:+ full_name +:+ "' handler") o
      else if negb (read_visible rh) then
        errh_error ("'" +:+ full_name +:+ "' is a write handler") o
      else
        let o1 := if print_name
                  then fputs (full_name +:+ ":" +:+ String Str.LF EmptyString) o
                  else o in
        let o2 := fputs (Str.c_str (read_body rh)) o1 in
        let o3 := if print_name then fputs (String Str.LF EmptyString) o2 else o2 in
        (0, o3)
  end.

(** The test of the scan loop of [expand_handler_elements] at index [i]. *)
Definition element_matches (R : Router) (is_pattern : bool) (pattern : string)
    (i : nat) : bool :=
  if is_pattern then glob_match (RouterOps.ename R i) pattern
  else match r_elements R !! i with
       | Some el => e_cast el pattern
       | None => false
       end.

Definition has_read_handler (G : gmap string Handler) (R : Router)
    (handler_name : string) (i : nat) : bool :=
  match Router_handler G R (EIdx i) handler_name with
  | Some h => read_visible h
  | None => false
  end.

(** One iteration of the scan loop: the state is the flag [any] and the
    vector [elements]. *)
Definition expand_step (G : gmap string Handler) (R : Router)
    (is_pattern : bool) (pattern handler_name : string)
    (acc : bool * list ElementRef) (i : nat) : bool * list ElementRef :=
  if element_matches R is_pattern pattern i then
    (true, if has_read_handler G R handler_name i
           then snd acc ++ [EIdx i] else snd acc)
  else acc.

Definition expand_handler_elements (G : gmap string Handler) (R : Router)
    (pattern handler_name : string) (elements : list ElementRef) (o : Out)
    : Z * list ElementRef * Out :=
  match RouterOps.find R pattern with
  | Some i => (1, elements ++ [EIdx i], o)
  | None =>
      let is_pattern := Str.has_glob_char pattern in
      let '(any, elements') :=
        fold_left (expand_step G R is_pattern pattern handler_name)
                  (seq 0 (RouterOps.nelements R)) (false, elements) in
      if negb any then
        let '(rc, o') :=
          errh_error (if is_pattern
                      then "no element matching '" +:+ pattern +:+ "'"
                      else "no element '" +:+ pattern +:+ "'") o in
        (rc, elements', o')
      else (2, elements', o)
  end.

(** The inner loop of [call_read_handlers] over the expanded elements. *)
Definition call_each (G : gmap string Handler) (R : Router)
    (handler_name : string) (print_name : bool) (elements : list ElementRef)
    (o : Out) : Out :=
  fold_left (fun o' e => snd (call_read_handler G R e handler_name print_name o'))
            elements o.

(** One iteration of the outer loop of [call_read_handlers]. *)
Definition call_read_handlers_step (G : gmap string Handler) (R : Router)
    (print_names : bool) (o : Out) (h : string) : Out :=
  match Str.split_at "." h with
  | None => snd (call_read_handler G R ERoot h print_names o)
  | Some (element_name, handler_name) =>
      let '(retval, elements, o1) :=
        expand_handler_elements G R element_name handler_name [] o in
      if 0 <=? retval then
        call_each G R handler_name (print_names || (1 <? retval)) elements o1
      else o1
  end.

(** [main] is the only caller and passes the file-scope [errh], the error
    handler [expand_handler_elements] reports to: one error handler serves
    both. *)
Definition call_read_handlers (G : gmap string Handler) (R : Router)
    (handlers : list string) (o : Out) : Z * Out :=
  let print_names := (1 <? length handlers)%nat in
  let before := Errh.nerrors (out_errh o) in
  let o' := fold_left (call_read_handlers_step G R print_names) handlers o in
  (if Errh.nerrors (out_errh o') =? before then 0 else -1, o').


(** ** Use counts *)

(** Modelled from the spec: [Router::use] and [Router::unuse] are declared
    in click/router.hh, which is not among the sources; by section 4.6
    decrementing a router's use count causes its teardown when the count
    reaches zero.  [None] is a dereference of a pointer to no live router. *)
Definition Router_use (a : addr) (st : Driver) : option Driver :=
  R ← heap st !! a;
  Some (upd_heap <[a := RouterOps.set_refcount (r_refcount R + 1) R]> st).

Definition Router_unuse (a : addr) (st : Driver) : option Driver :=
  R ← heap st !! a;
  if r_refcount R - 1 =? 0 then Some (upd_heap (delete a) st)
  else Some (upd_heap <[a := RouterOps.set_refcount (r_refcount R - 1) R]> st).

(** ** Signals *)

(** [Router::STOP_RUNCOUNT] (click/router.hh is not among the sources). *)
Variable STOP_RUNCOUNT : Z.

(** Configuration macros of click/config.h. *)
Variables HAVE_SIGACTION HAVE_MULTITHREAD : bool.

Definition stop_signal_handler (sig : Signal) (st : Driver) : option Driver :=
  let st1 := if HAVE_SIGACTION then st else upd_disposition sig SIG_DFL st in
  if negb (started st1) then
    (* kill(getpid(), sig) *)
    Some (upd_self_signals (self_signals st1 ++ [sig]) st1)
  else
    a ← router st1;
    R ← heap st1 !! a;
    Some (upd_heap <[a := RouterOps.set_runcount STOP_RUNCOUNT R]> st1).

Definition ignore_signal_handler (sig : Signal) (st : Driver) : Driver :=
  if HAVE_SIGACTION then st
  else upd_disposition sig (SIG_CATCH fn_ignore_signal_handler false) st.

(** Modelled from the spec: [click_signal] is declared in
    click/userutils.hh, which is not among the sources; it installs the
    given action for the signal, with reset-on-delivery when its last
    argument is true (section 5: a second stop signal forces immediate
    process exit).  The call is logged. *)
Definition click_signal (sig : Signal) (d : Disposition) (st : Driver) : Driver :=
  log_click_signal sig d (upd_disposition sig d st).

(** The operating system delivering a signal to the process: the default
    action of the four signals ends the process, an ignored signal does
    nothing, a caught one runs its handler. *)
Definition deliver_signal (sig : Signal) (st : Driver) : option Driver :=
  match sig_disposition st sig with
  | SIG_DFL => Some (upd_terminated_by (Some sig) st)
  | SIG_IGN => Some st
  | SIG_CATCH h resethand =>
      let st1 := if resethand then upd_disposition sig SIG_DFL st else st in
      match h with
      | fn_stop_signal_handler => stop_signal_handler sig st1
      | fn_ignore_signal_handler => Some (ignore_signal_handler sig st1)
      end
  end.

(** ** Hot-swapping *)

Definition hotswap_hook (st : Driver) : option (bool * Driver) :=
  (* hotswap_router->activate(ErrorHandler::default_handler()); *)
  q ← hotswap_router st;
  Rq ← heap st !! q;
  let st1 := upd_heap <[q := RouterOps.activate Rq]> st in
  (* router->unuse(); *)
  old ← router st1;
  st2 ← Router_unuse old st1;
  (* router = hotswap_router; router->use(); *)
  let st3 := upd_router (hotswap_router st2) st2 in
  r ← router st3;
  st4 ← Router_use r st3;
  (* hotswap_router = 0; *)
  Some (true, upd_hotswap_router None st4).

(** The scheduler running [hotswap_task] if it is scheduled.  The task is
    one-shot: it leaves the run queue when selected and its hook does not
    reschedule it. *)
Definition run_hotswap_task (st : Driver) : option Driver :=
  if hotswap_task_scheduled st then
    '(_, st') ← hotswap_hook (upd_hotswap_task false st);
    Some st'
  else Some st.

(** ** Switching configurations *)

(** The static vectors [cs_ports] and [cs_unix_sockets]. *)
Record ControlSockets := mkControlSockets {
  cs_ports : list string;
  cs_unix_sockets : list string
}.

(** The configuration parser and the router's own initialization act on
    the router they build or are called on: [click_read_router] returns the
    new router (or null) and [Router::initialize] a status and the router
    as it left it, both with the error messages they reported. *)
Variable click_read_router : string -> bool -> nat -> option Router * list string.
Variable Router_initialize : Router -> Z * Router * list string.

(** A [ControlSocket] element as [new ControlSocket] makes it, and
    [cp_quote] of click/confparse.hh. *)
Variable ControlSocket : Element.
Variable cp_quote : string -> string.

Definition click_driver_control_socket_name (number : nat) : string :=
  match number with
  | O => "click_driver@@ControlSocket"
  | _ => "click_driver@@ControlSocket@" +:+ pretty number
  end.

(** The two loops that add the driver's control sockets: [confs] are the
    configuration strings, numbered from [number] on. *)
Fixpoint add_control_sockets (number : nat) (confs : list string) (R : Router) : Router :=
  match confs with
  | [] => R
  | conf :: rest =>
      add_control_sockets (S number) rest
        (RouterOps.add_element ControlSocket
           (click_driver_control_socket_name number) conf R)
  end.

Definition install_signal_handlers (st : Driver) : Driver :=
  let st1 := click_signal SIGINT (SIG_CATCH fn_stop_signal_handler true) st in
  let st2 := click_signal SIGTERM (SIG_CATCH fn_stop_signal_handler true) st1 in
  let st3 := click_signal SIGPIPE SIG_IGN st2 in
  if HAVE_MULTITHREAD
  then click_signal SIGIO (SIG_CATCH fn_ignore_signal_handler false) st3
  else st3.

(** The new router as [parse_configuration] hands it to
    [Router::initialize]: the parsed router with the control sockets added
    and the hot-swap router registered. *)
Definition staged_router (cs : ControlSockets) (hotswap : bool)
    (hotswap_from : option addr) (R0 : Router) : Router :=
  let retries := if hotswap then ", RETRIES 1, RETRY_WARNINGS false" else "" in
  let R1 := add_control_sockets 0
              (map (fun p => "tcp, " +:+ p +:+ retries) (cs_ports cs)) R0 in
  let R2 := add_control_sockets (length (cs_ports cs))
              (map (fun u => "unix, " +:+ cp_quote u +:+ retries)
                   (cs_unix_sockets cs)) R1 in
  match hotswap_from with
  | Some old => RouterOps.set_hotswap_router (Some old) R2
  | None => R2
  end.

(** The new [Router] object lives at a fresh address of the store from the
    moment the parser returns it; [delete r] takes it out again. *)
Definition parse_configuration (cs : ControlSockets) (text : string)
    (text_is_expr hotswap : bool) (errh : Errh.t) (st : Driver)
    : option (option addr * Errh.t * Driver) :=
  '(master, st0) ← match router st with
                   | Some a => R ← heap st !! a; Some (r_master R, st)
                   | None => Some (nmasters st, upd_nmasters (S (nmasters st)) st)
                   end;
  let '(parsed_router, msgs) := click_read_router text text_is_expr master in
  let errh1 := Errh.report msgs errh in
  match parsed_router with
  | None => Some (None, errh1, st0)
  | Some R0 =>
      let r := fresh (dom (heap st0)) in
      let st1 := upd_heap <[r := R0]> st0 in
      (* add new ControlSockets *)
      let retries := if hotswap then ", RETRIES 1, RETRY_WARNINGS false" else "" in
      let st2 :=
        upd_heap (alter (add_control_sockets 0
                           (map (fun p => "tcp, " +:+ p +:+ retries) (cs_ports cs))) r)
                 st1 in
      let st3 :=
        upd_heap (alter (add_control_sockets (length (cs_ports cs))
                           (map (fun u => "unix, " +:+ cp_quote u +:+ retries)
                                (cs_unix_sockets cs))) r)
                 st2 in
      (* catch signals (only need to do the first time) *)
      let st4 := if negb hotswap then install_signal_handlers st3 else st3 in
      (* register hotswap router on new router *)
      st5 ← (if hotswap then
               match router st4 with
               | Some old =>
                   Rold ← heap st4 !! old;
                   Some (if RouterOps.is_initialized Rold
                         then upd_heap (alter (RouterOps.set_hotswap_router (Some old)) r) st4
                         else st4)
               | None => Some st4
               end
             else Some st4);
      if 0 <? Errh.nerrors errh1 then
        Some (None, errh1, upd_heap (delete r) st5)
      else
        Rr ← heap st5 !! r;
        let '(status, Rr', msgs') := Router_initialize Rr in
        let errh2 := Errh.report msgs' errh1 in
        let st6 := upd_heap <[r := Rr']> st5 in
        if status <? 0 then Some (None, errh2, upd_heap (delete r) st6)
        else Some (Some r, errh2, st6)
  end.

Definition hotconfig_handler (cs : ControlSockets) (text : string)
    (errh : Errh.t) (st : Driver) : option (Z * Errh.t * Driver) :=
  '(q, errh', st1) ← parse_configuration cs text true true errh st;
  match q with
  | Some q =>
      (* if (hotswap_router) hotswap_router->unuse(); *)
      st2 ← match hotswap_router st1 with
            | Some pending => Router_unuse pending st1
            | None => Some st1
            end;
      Some (0, errh', upd_hotswap_task true (upd_hotswap_router (Some q) st2))
  | None => Some (- EINVAL, errh', st1)
  end.

(** ** Router-scope write handlers *)

(** Modelled from the spec: [Router::add_write_handler] is not among the
    sources; called with a null element it registers a router-scope
    handler of the given name that can be written, carrying the given hook
    and flags (section 4.7). *)
Definition add_write_handler (name : string) (hook : WriteHook) (flags : Z)
    (st : Driver) : Driver :=
  upd_global_handlers
    (<[name := mkHandler (Z.lor OP_WRITE flags) "" (Some hook)]> (global_handlers st))
    st.

(** Write hooks of elements are not the driver's: they return a status and
    report errors, and leave the driver's own variables alone. *)
Variable element_write_hook : nat -> string -> Errh.t -> Z * Errh.t.

Definition call_write (cs : ControlSockets) (h : Handler) (text : string)
    (errh : Errh.t) (st : Driver) : option (Z * Errh.t * Driver) :=
  match h_write_hook h with
  | Some hook_hotconfig_handler => hotconfig_handler cs text errh st
  | Some (hook_element tag) => Some (element_write_hook tag text errh, st)
  | None => Some (Errh.error "not writable" errh, st)
  end.

(** Modelled from the spec: the control socket's write path is not among
    the sources; by sections 4.7 and 7 a write looks the handler up by name,
    surfaces a missing handler or one that cannot be written to the caller,
    and otherwise invokes the write function with the given text. *)
Definition write_global_handler (cs : ControlSockets) (name text : string)
    (errh : Errh.t) (st : Driver) : option (Z * Errh.t * Driver) :=
  match global_handlers st !! name with
  | Some h =>
      if write_visible h then call_write cs h text errh st
      else Some (Errh.error ("no '" +:+ name +:+ "' write handler") errh, st)
  | None => Some (Errh.error ("no '" +:+ name +:+ "' write handler") errh, st)
  end.

(** ** The running driver *)

(** What happens to the driver while its threads run: a signal arrives, a
    control socket writes a router-scope handler, or the scheduler selects
    the hot-swap task. *)
Inductive Event :=
  | ev_signal (sig : Signal)
  | ev_write (name text : string) (errh : Errh.t)
  | ev_task.

Definition driver_event (cs : ControlSockets) (st : Driver) (ev : Event)
    : option Driver :=
  match terminated_by st with
  | Some _ => Some st
  | None =>
      match ev with
      | ev_signal sig => deliver_signal sig st
      | ev_write name text errh =>
          '(_, _, st') ← write_global_handler cs name text errh st;
          Some st'
      | ev_task => run_hotswap_task st
      end
  end.

Fixpoint driver_run (cs : ControlSockets) (evs : list Event) (st : Driver)
    : option Driver :=
  match evs with
  | [] => Some st
  | ev :: rest => st' ← driver_event cs st ev; driver_run cs rest st'
  end.

(** ** main: the command line *)

(** The options as [Clp_Next] returns them, with their values. *)
Inductive Clp_option :=
  | ROUTER_OPT (vstr : string)
  | EXPRESSION_OPT (vstr : string)
  | Clp_NotOption (vstr : string)
  | OUTPUT_OPT (vstr : string)
  | HANDLER_OPT (vstr : string)
  | EXIT_HANDLER_OPT (vstr : string)
  | PORT_OPT (vstr : string)
  | UNIX_SOCKET_OPT (vstr : string)
  | ALLOW_RECONFIG_OPT (negated : bool)
  | QUIT_OPT
  | TIME_OPT
  | WARNINGS_OPT (negated : bool)
  | NO_WARNINGS_OPT (negated : bool)
  | THREADS_OPT (i : Z)
  | CLICKPATH_OPT (vstr : string)
  | HELP_OPT
  | VERSION_OPT
  | Clp_BadOption.

(** The locals of [main] that the option loop sets, the static variables
    [cs_ports], [cs_unix_sockets], [warnings] and [nthreads], and the
    parameters defined in the lexer's global scope. *)
Record Options := mkOptions {
  router_file : option string;
  file_is_expr : bool;
  output_file : option string;
  quit_immediately : bool;
  report_time : bool;
  allow_reconfigure : bool;
  handlers : list string;
  exit_handler : string;
  sockets : ControlSockets;
  warnings : bool;
  nthreads : Z;
  parameters : list (string * string)
}.

Definition set_router_file (f : string) (is_expr : bool) (o : Options) : Options :=
  mkOptions (Some f) (is_expr) (output_file o) (quit_immediately o)
            (report_time o) (allow_reconfigure o) (handlers o) (exit_handler o)
            (sockets o) (warnings o) (nthreads o) (parameters o).

Definition set_output_file (f : string) (o : Options) : Options :=
  mkOptions (router_file o) (file_is_expr o) (Some f) (quit_immediately o)
            (report_time o) (allow_reconfigure o) (handlers o) (exit_handler o)
            (sockets o) (warnings o) (nthreads o) (parameters o).

Definition set_quit_immediately (b : bool) (o : Options) : Options :=
  mkOptions (router_file o) (file_is_expr o) (output_file o) (b)
            (report_time o) (allow_reconfigure o) (handlers o) (exit_handler o)
            (sockets o) (warnings o) (nthreads o) (parameters o).

Definition set_report_time (b : bool) (o : Options) : Options :=
  mkOptions (router_file o) (file_is_expr o) (output_file o) (quit_immediately o)
            (b) (allow_reconfigure o) (handlers o) (exit_handler o)
            (sockets o) (warnings o) (nthreads o) (parameters o).

Definition set_allow_reconfigure (b : bool) (o : Options) : Options :=
  mkOptions (router_file o) (file_is_expr o) (output_file o) (quit_immediately o)
            (report_time o) (b) (handlers o) (exit_handler o)
            (sockets o) (warnings o) (nthreads o) (parameters o).

Definition push_handler (h : string) (o : Options) : Options :=
  mkOptions (router_file o) (file_is_expr o) (output_file o) (quit_immediately o)
            (report_time o) (allow_reconfigure o) (handlers o ++ [h]) (exit_handler o)
            (sockets o) (warnings o) (nthreads o) (parameters o).

Definition set_exit_handler (h : string) (o : Options) : Options :=
  mkOptions (router_file o) (file_is_expr o) (output_file o) (quit_immediately o)
            (report_time o) (allow_reconfigure o) (handlers o) (h)
            (sockets o) (warnings o) (nthreads o) (parameters o).

Definition push_cs_port (p : string) (o : Options) : Options :=
  mkOptions (router_file o) (file_is_expr o) (output_file o) (quit_immediately o)
            (report_time o) (allow_reconfigure o) (handlers o) (exit_handler o)
            (mkControlSockets (cs_ports (sockets o) ++ [p]) (cs_unix_sockets (sockets o))) (warnings o) (nthreads o) (parameters o).

Definition push_cs_unix_socket (u : string) (o : Options) : Options :=
  mkOptions (router_file o) (file_is_expr o) (output_file o) (quit_immediately o)
            (report_time o) (allow_reconfigure o) (handlers o) (exit_handler o)
            (mkControlSockets (cs_ports (sockets o)) (cs_unix_sockets (sockets o) ++ [u])) (warnings o) (nthreads o) (parameters o).

Definition set_warnings (b : bool) (o : Options) : Options :=
  mkOptions (router_file o) (file_is_expr o) (output_file o) (quit_immediately o)
            (report_time o) (allow_reconfigure o) (handlers o) (exit_handler o)
            (sockets o) (b) (nthreads o) (parameters o).

Definition set_nthreads (n : Z) (o : Options) : Options :=
  mkOptions (router_file o) (file_is_expr o) (output_file o) (quit_immediately o)
            (report_time o) (allow_reconfigure o) (handlers o) (exit_handler o)
            (sockets o) (warnings o) (n) (parameters o).

Definition define_parameter (name value : string) (o : Options) : Options :=
  mkOptions (router_file o) (file_is_expr o) (output_file o) (quit_immediately o)
            (report_time o) (allow_reconfigure o) (handlers o) (exit_handler o)
            (sockets o) (warnings o) (nthreads o) (parameters o ++ [(name, value)]).

Definition default_options : Options :=
  mkOptions None false None false false false [] "" (mkControlSockets [] [])
            true 1 [].

(** Parsers of click/confparse.hh: each returns the parsed value, or
    [None] where the C++ function returns false. *)
Variable cp_uncomment : string -> string.
Variable cp_integer : string -> option Z.
Variable cp_integer_base : string -> Z -> option Z.
Variable cp_bool : string -> option bool.
Variable cp_tcpudp_port : string -> option Z.

(** [isalnum] in the C locale. *)
Definition isalnum (c : ascii) : bool :=
  let n := nat_of_ascii c in
  ((48 <=? n) && (n <=? 57) || (65 <=? n) && (n <=? 90)
   || (97 <=? n) && (n <=? 122))%nat.

(** The scan of a non-option argument for [NAME=VALUE]; [name] is the text
    already passed. *)
Fixpoint scan_parameter (name s : string) : option (string * string) :=
  match s with
  | EmptyString => None
  | String c rest =>
      if Ascii.eqb c "=" && Str.nonempty name then Some (name, rest)
      else if negb (isalnum c) && negb (Ascii.eqb c "_") then None
      else scan_parameter (name +:+ String c EmptyString) rest
  end.

(** [vstr.substring(0, -1)]: all but the last character. *)
Fixpoint drop_last (s : string) : string :=
  match s with
  | EmptyString => EmptyString
  | String _ EmptyString => EmptyString
  | String c rest => String c (drop_last rest)
  end.

(** The label [router_file] of the option switch. *)
Definition router_file_case (is_expr : bool) (vstr : string) (o : Options)
    (eh : Errh.t) : Options * Errh.t + Z * Errh.t :=
  match router_file o with
  | Some _ => inr (1, snd (Errh.error "router configuration specified twice" eh))
  | None => inl (set_router_file vstr is_expr o, eh)
  end.

(** One turn of the option loop: the options and error handler to go on
    with, or the status the process exits with.  The usage texts written on
    the way out and [set_clickpath] are left out. *)
Definition option_step (o : Options) (eh : Errh.t) (opt : Clp_option)
    : Options * Errh.t + Z * Errh.t :=
  match opt with
  | ROUTER_OPT vstr => router_file_case false vstr o eh
  | EXPRESSION_OPT vstr => router_file_case true vstr o eh
  | Clp_NotOption vstr =>
      match scan_parameter "" vstr with
      | Some (name, value) =>
          if existsb (fun p => String.eqb (fst p) name) (parameters o)
          then inl (o, snd (Errh.error ("parameter '" +:+ name +:+ "' multiply defined") eh))
          else inl (define_parameter name value o, eh)
      | None => router_file_case false vstr o eh
      end
  | OUTPUT_OPT vstr =>
      match output_file o with
      | Some _ => inr (1, snd (Errh.error "output file specified twice" eh))
      | None => inl (set_output_file vstr o, eh)
      end
  | HANDLER_OPT vstr => inl (push_handler vstr o, eh)
  | EXIT_HANDLER_OPT vstr =>
      if Str.nonempty (exit_handler o)
      then inr (1, snd (Errh.error "--exit-handler specified twice" eh))
      else inl (set_exit_handler vstr o, eh)
  | PORT_OPT vstr =>
      match cp_tcpudp_port vstr with
      | Some portno => inl (push_cs_port (pretty portno) o, eh)
      | None =>
          match (if Str.nonempty vstr && bool_decide (Str.back vstr = Some "+"%char)
                 then cp_integer_base (drop_last vstr) 0 else None) with
          | Some portno_int =>
              if (0 <? portno_int) && (portno_int <? 65536)
              then inl (push_cs_port (pretty portno_int +:+ "+") o, eh)
              else inr (1, eh)
          | None => inr (1, eh)
          end
      end
  | UNIX_SOCKET_OPT vstr => inl (push_cs_unix_socket vstr o, eh)
  | ALLOW_RECONFIG_OPT negated => inl (set_allow_reconfigure (negb negated) o, eh)
  | QUIT_OPT => inl (set_quit_immediately true o, eh)
  | TIME_OPT => inl (set_report_time true o, eh)
  | WARNINGS_OPT negated => inl (set_warnings (negb negated) o, eh)
  | NO_WARNINGS_OPT negated => inl (set_warnings negated o, eh)
  | THREADS_OPT i =>
      if HAVE_MULTITHREAD
      then inl (set_nthreads (if i <=? 1 then 1 else i) o, eh)
      else inr (1, eh)
  | CLICKPATH_OPT _ => inl (o, eh)
  | HELP_OPT => inr (0, eh)
  | VERSION_OPT => inr (0, eh)
  | Clp_BadOption => inr (1, eh)
  end.

(** The option loop, up to [Clp_Done] (the end of the list). *)
Fixpoint option_loop (argv : list Clp_option) (o : Options) (eh : Errh.t)
    : Options * Errh.t + Z * Errh.t :=
  match argv with
  | [] => inl (o, eh)
  | opt :: rest =>
      match option_step o eh opt with
      | inl (o', eh') => option_loop rest o' eh'
      | inr e => inr e
      end
  end.

(** ** main: installing, running, reporting *)

(** [provide hotconfig handler if asked]. *)
Definition provide_hotconfig (o : Options) (st : Driver) : Driver :=
  if allow_reconfigure o
  then add_write_handler "hotconfig" hook_hotconfig_handler
                         (Z.lor RAW NONEXCLUSIVE) st
  else st.

(** The label [done] up to [router->use()]: the [hotconfig] handler is
    provided if asked, the configuration is parsed and installed.  [inr]
    is [exit(1)]. *)
Definition main_install (o : Options) (eh : Errh.t) (st : Driver)
    : option (Errh.t * Driver + Z * Errh.t) :=
  let st1 := provide_hotconfig o st in
  '(r, eh', st2) ← parse_configuration (sockets o) (default "" (router_file o))
                      (file_is_expr o) false eh st1;
  match r with
  | None => Some (inr (1, eh'))
  | Some r =>
      st3 ← Router_use r (upd_router (Some r) st2);
      Some (inl (eh', st3))
  end.

(** [HandlerCall::call_read(name, root, errh)] of click/handlercall.hh: the
    text read and the errors reported. *)
Variable HandlerCall_call_read :
  string -> gmap string Handler -> Router -> string * list string.

(** The sections [call handlers] and [call exit handler] of [main]:
    [exit_value] is the status reached before them. *)
Definition main_report (o : Options) (G : gmap string Handler) (R : Router)
    (exit_value : Z) (out : Out) : Z * Out :=
  let '(exit_value1, out1) :=
    if negb (Nat.eqb (length (handlers o)) 0) then
      let '(rc, out') :=
        call_read_handlers G R (handlers o) out in
      (if rc <? 0 then 1 else exit_value, out')
    else (exit_value, out) in
  if Str.nonempty (exit_handler o) then
    let before := Errh.nerrors (out_errh out1) in
    let '(exit_string, msgs) := HandlerCall_call_read (exit_handler o) G R in
    let out2 := mkOut (stdout out1) (Errh.report msgs (out_errh out1)) in
    if negb (Errh.nerrors (out_errh out2) =? before) then (-1, out2)
    else
      match cp_integer (cp_uncomment exit_string) with
      | Some n => (n, out2)
      | None =>
          match cp_bool (cp_uncomment exit_string) with
          | Some b => (if b then 0 else 1, out2)
          | None =>
              (-1, snd (errh_error "exit handler value should be integer" out2))
          end
      end
  else (exit_value1, out1).

(** How the process ends: it exits with a status, or a signal's default
    action ends it. *)
Inductive ProcessEnd :=
  | Exited (status : Z) (out : Out)
  | Signalled (sig : Signal).

(** [filename_landmark] of click/userutils.hh and the line the timing
    report prints. *)
Variable filename_landmark : option string -> bool -> string.
Variable time_report : string.

(** The section [output flat configuration]: [fopen_error] is the
    [strerror] text when [fopen] fails.  What goes to a file other than
    standard output is not kept. *)
Definition main_output (o : Options) (G : gmap string Handler)
    (fopen_error : option string) (out : Out) : option (Z * Out) :=
  match output_file o with
  | None => Some (0, out)
  | Some f =>
      if String.eqb f "-" then
        h ← G !! "flatconfig";
        Some (0, fwrite (h_call_read h) out)
      else
        match fopen_error with
        | Some msg => Some (1, snd (errh_error (f +:+ ": " +:+ msg) out))
        | None => h ← G !! "flatconfig"; Some (0, out)
        end
  end.

(** The section [run driver]: [events] is what happens while the threads
    run.  The thunk router that hosts [hotswap_task] is represented by the
    task's scheduled flag alone. *)
Definition main_run (o : Options) (events : list Event) (st : Driver)
    (out : Out) : option (Driver * Out) :=
  a ← router st;
  R ← heap st !! a;
  if negb (quit_immediately o) && negb (Nat.eqb (RouterOps.nelements R) 0) then
    let st1 := upd_started true st in
    let st2 := upd_heap <[a := RouterOps.activate R]> st1 in
    st3 ← driver_run (sockets o) events st2;
    Some (st3, out)
  else if negb (quit_immediately o) && warnings o then
    Some (st, mkOut (stdout out)
                (Errh.warning (filename_landmark (router_file o) (file_is_expr o)
                               +:+ ": configuration has no elements, exiting")
                              (out_errh out)))
  else Some (st, out).

Definition main (builtin : gmap string Handler) (argv : list Clp_option)
    (fopen_error : option string) (events : list Event) : option ProcessEnd :=
  match option_loop argv default_options Errh.empty with
  | inr (status, eh) => Some (Exited status (mkOut "" eh))
  | inl (o, eh) =>
      installed ← main_install o eh (initial_driver builtin);
      match installed with
      | inr (status, eh') => Some (Exited status (mkOut "" eh'))
      | inl (eh1, st) =>
          '(exit_value, out1) ← main_output o (global_handlers st) fopen_error
                                  (mkOut "" eh1);
          '(st', out2) ← main_run o events st out1;
          match terminated_by st' with
          | Some sig => Some (Signalled sig)
          | None =>
              let out3 := if report_time o then fputs time_report out2 else out2 in
              a ← router st';
              R ← heap st' !! a;
              let '(status, out4) :=
                main_report o (global_handlers st') R exit_value out3 in
              Some (Exited status out4)
          end
      end
  end.

(** ** Reporting the time *)

(** [struct timeval]. *)
Record timeval := mkTimeval { tv_sec : Z; tv_usec : Z }.

(** [round_timeval]: the division is C's, which truncates.  For a
    normalized [timeval] and the dividers [main] passes the values stay far
    from the ends of their types. *)
Definition round_timeval (tv : timeval) (usec_divider : Z) : timeval :=
  let usec := (tv_usec tv + usec_divider ÷ 2) ÷ usec_divider in
  if 1000000 ÷ usec_divider <=? usec
  then mkTimeval (tv_sec tv + 1) 0
  else mkTimeval (tv_sec tv) usec.

(** ** The SetTXPower element *)

Record SetTXPower := mkSetTXPower { _power : Z }.

Definition H_POWER : Z := 0.

(** [cp_unsigned] of click/confparse.hh. *)
Variable cp_unsigned : string -> option Z.

Definition SetTXPower_read_param (td : SetTXPower) (thunk : Z) : string :=
  if thunk =? H_POWER then pretty (_power td) +:+ String Str.LF EmptyString
  else "".

Definition SetTXPower_write_param (in_s : string) (f : SetTXPower) (vparam : Z)
    (errh : Errh.t) : Z * SetTXPower * Errh.t :=
  let s := cp_uncomment in_s in
  if vparam =? H_POWER then
    match cp_unsigned s with
    | None =>
        let '(rc, errh') := Errh.error "power parameter must be unsigned" errh in
        (rc, f, errh')
    | Some m => (0, mkSetTXPower m, errh)
    end
  else (0, f, errh).

(** [add_handlers] registers both [power] handlers with [H_POWER]. *)
Definition power_read_handler (td : SetTXPower) : string :=
  SetTXPower_read_param td H_POWER.

Definition power_write_handler (in_s : string) (f : SetTXPower) (errh : Errh.t)
    : Z * SetTXPower * Errh.t :=
  SetTXPower_write_param in_s f H_POWER errh.

(** * Properties *)

(** ** Strings *)

Lemma append_nil_l (t : string) : "" +:+ t = t.
Proof. reflexivity. Qed.

Lemma append_cons (c : ascii) (s t : string) :
  String c s +:+ t = String c (s +:+ t).
Proof. reflexivity. Qed.

Lemma append_assoc (s t u : string) : (s +:+ t) +:+ u = s +:+ (t +:+ u).
Proof.
  induction s as [|c s IH]; [reflexivity|].
  rewrite !append_cons, IH. reflexivity.
Qed.

Lemma append_empty_r (s : string) : s +:+ "" = s.
Proof.
  induction s as [|c s IH]; [reflexivity|].
  rewrite append_cons, IH. reflexivity.
Qed.

Lemma c_str_append (s t : string) :
  Str.c_str s = s -> Str.c_str (s +:+ t) = s +:+ Str.c_str t.
Proof.
  induction s as [|c s IH]; [reflexivity|].
  rewrite !append_cons. simpl.
  destruct (Ascii.eqb c Ascii.zero); [discriminate|].
  intros [= H]. now rewrite (IH H).
Qed.

Lemma back_append_char (s : string) (c : ascii) :
  Str.back (s +:+ String c EmptyString) = Some c.
Proof.
  induction s as [|a s IH]; [reflexivity|].
  rewrite append_cons. simpl.
  destruct (s +:+ String c EmptyString) eqn:E; [|exact IH].
  destruct s; discriminate.
Qed.

Lemma split_at_append (c : ascii) (pre post : string) :
  Str.mem c pre = false ->
  Str.split_at c (pre +:+ String c post) = Some (pre, post).
Proof.
  induction pre as [|a pre IH]; intros Hm.
  - rewrite append_nil_l. simpl. now rewrite Ascii.eqb_refl.
  - simpl in Hm. apply orb_false_iff in Hm as [Ha Hp].
    rewrite append_cons. simpl. rewrite Ha, (IH Hp). reflexivity.
Qed.

(** ** The SetTXPower power handler *)

(** C10: the [power] write handler of SetTXPower. For every input that does
    not parse as an unsigned integer (after [cp_uncomment]) the handler
    returns a negative status, reports exactly the error
    "power parameter must be unsigned" and leaves the stored power as it
    was; for every input that parses, the stored power becomes the parsed
    value, the status is 0 and nothing is reported. *)
Theorem power_write_handler_spec (in_s : string) (f : SetTXPower) (errh : Errh.t) :
  match cp_unsigned (cp_uncomment in_s) with
  | None =>
      exists rc,
        power_write_handler in_s f errh
        = (rc, f, Errh.mk (Errh.errors errh ++ ["power parameter must be unsigned"])
                          (Errh.warnings errh))
        /\ rc < 0
  | Some m =>
      power_write_handler in_s f errh = (0, mkSetTXPower m, errh)
      /\ _power (snd (fst (power_write_handler in_s f errh))) = m
  end.
Proof.
  unfold power_write_handler, SetTXPower_write_param.
  rewrite Z.eqb_refl.
  destruct (cp_unsigned (cp_uncomment in_s)) as [m|]; simpl.
  - split; reflexivity.
  - exists (- EINVAL). split; [reflexivity | unfold EINVAL; lia].
Qed.

(** After a successful write the read handler shows the value written. *)
Lemma power_write_then_read (in_s : string) (f f' : SetTXPower)
    (errh errh' : Errh.t) (m : Z) :
  cp_unsigned (cp_uncomment in_s) = Some m ->
  power_write_handler in_s f errh = (0, f', errh') ->
  power_read_handler f' = pretty m +:+ String Str.LF EmptyString.
Proof.
  intros Hm. unfold power_write_handler, SetTXPower_write_param.
  rewrite Z.eqb_refl, Hm. intros [= <- _]. reflexivity.
Qed.

(** ** Reading one handler *)

Lemma read_visible_visible (h : Handler) :
  read_visible h = true -> visible h = true.
Proof.
  unfold read_visible, visible, flag_set.
  rewrite !negb_true_iff, !Z.eqb_neq. intros Hr Hv. apply Hr.
  apply Z.bits_inj'. intros n Hn.
  apply (f_equal (fun z => Z.testbit z n)) in Hv.
  rewrite Z.land_spec, Z.lor_spec, Z.bits_0 in Hv.
  rewrite Z.land_spec, Z.bits_0.
  destruct (Z.testbit (h_flags h) n), (Z.testbit OP_READ n); simpl in *; congruence.
Qed.

(** What [call_read_handler] does once it found a readable handler. *)
Lemma call_read_handler_found (G : gmap string Handler) (R : Router)
    (e : ElementRef) (hname : string) (print_name : bool) (o : Out) (rh : Handler) :
  Router_handler G R e hname = Some rh ->
  read_visible rh = true ->
  call_read_handler G R e hname print_name o
  = (0, if print_name
        then fputs (String Str.LF EmptyString)
               (fputs (Str.c_str (read_body rh))
                  (fputs (unparse_name R e hname +:+ ":" +:+ String Str.LF EmptyString) o))
        else fputs (Str.c_str (read_body rh)) o).
Proof.
  intros Hh Hr. unfold call_read_handler. rewrite Hh.
  rewrite (read_visible_visible _ Hr), Hr. simpl.
  destruct print_name; reflexivity.
Qed.

(** C4 (as amended): for every driver read-handler invocation that finds a
    visible read handler, with or without the name printed, the body text
    printed to stdout is the handler's result string, to which a newline is
    first appended exactly when the handler is not raw, the result is not
    empty and the result does not already end in a newline, and which is
    then printed as a C string, that is up to its first NUL byte if it has
    one.  With [print_name] the body is preceded by the line of the name
    and followed by an empty line; nothing is reported and the status is
    0. *)
Theorem call_read_handler_body (G : gmap string Handler) (R : Router)
    (e : ElementRef) (hname : string) (print_name : bool) (o : Out)
    (rh : Handler) :
  Router_handler G R e hname = Some rh ->
  visible rh = true ->
  read_visible rh = true ->
  let result := h_call_read rh in
  let newline := String Str.LF EmptyString in
  let name := unparse_name R e hname in
  exists text,
    call_read_handler G R e hname print_name o
    = (0, mkOut (stdout o
                 +:+ ((if print_name then name +:+ ":" +:+ newline else "")
                      +:+ Str.c_str text
                      +:+ (if print_name then newline else "")))
                (out_errh o))
    /\ (raw rh = true -> text = result)
    /\ (result = "" -> text = "")
    /\ (Str.back result = Some Str.LF -> text = result)
    /\ (raw rh = false -> result <> "" -> Str.back result <> Some Str.LF ->
        text = result +:+ newline)
    /\ (raw rh = false -> result <> "" -> Str.back text = Some Str.LF)
    /\ (Str.c_str result = result -> Str.c_str text = text).
Proof.
  intros Hh _ Hr result newline name. exists (read_body rh).
  split.
  { rewrite (call_read_handler_found _ _ _ _ print_name o _ Hh Hr).
    fold name. fold newline. unfold fputs.
    destruct print_name; cbn [stdout out_errh].
    - now rewrite !append_assoc.
    - now rewrite append_nil_l, append_empty_r. }
  unfold read_body. fold result. fold newline.
  repeat split.
  - intros ->. reflexivity.
  - intros ->. simpl. now rewrite andb_false_r.
  - intros Hb. rewrite (bool_decide_eq_true_2 _ Hb). simpl.
    now rewrite andb_false_r.
  - intros -> Hne Hb. rewrite (bool_decide_eq_false_2 _ Hb).
    destruct result; [congruence | reflexivity].
  - intros -> Hne. destruct result as [|c s]; [congruence|]. simpl Str.nonempty.
    simpl negb at 1. rewrite !andb_true_l.
    case_bool_decide as Hb; simpl negb; cbv iota.
    + exact Hb.
    + apply back_append_char.
  - intros Hc.
    destruct (negb (raw rh) && Str.nonempty result
              && negb (bool_decide (Str.back result = Some Str.LF)));
      [|exact Hc].
    now rewrite (c_str_append _ _ Hc).
Qed.

(** ** The exit handler *)

(** How [main] gets to an exit status once the configuration is installed:
    the flat configuration is written, the driver has run and returned
    without a signal ending the process, and the status is the one
    [main_report] gives for the router then current. *)
Lemma main_exited (builtin : gmap string Handler) (argv : list Clp_option)
    (fopen_error : option string) (events : list Event) (o : Options)
    (eh eh1 : Errh.t) (st : Driver) (status : Z) (out : Out) :
  option_loop argv default_options Errh.empty = inl (o, eh) ->
  main_install o eh (initial_driver builtin) = Some (inl (eh1, st)) ->
  main builtin argv fopen_error events = Some (Exited status out) ->
  exists exit_value out1 st' out2 a R,
    main_output o (global_handlers st) fopen_error (mkOut "" eh1)
    = Some (exit_value, out1)
    /\ main_run o events st out1 = Some (st', out2)
    /\ terminated_by st' = None
    /\ router st' = Some a
    /\ heap st' !! a = Some R
    /\ main_report o (global_handlers st') R exit_value
         (if report_time o then fputs time_report out2 else out2)
       = (status, out).
Proof.
  intros Hloop Hinst H. unfold main in H. rewrite Hloop, Hinst in H.
  cbn [mbind option_bind] in H.
  destruct (main_output o (global_handlers st) fopen_error (mkOut "" eh1))
    as [[exit_value out1]|] eqn:Hout; [|discriminate].
  cbn [mbind option_bind] in H.
  destruct (main_run o events st out1) as [[st' out2]|] eqn:Hrun; [|discriminate].
  cbn [mbind option_bind] in H.
  destruct (terminated_by st') eqn:Ht; [discriminate|].
  destruct (router st') as [a|] eqn:Hr; [|discriminate].
  cbn [mbind option_bind] in H.
  destruct (heap st' !! a) as [R|] eqn:HR; [|discriminate].
  cbn [mbind option_bind] in H.
  destruct (main_report _ _ _ _ _) as [s out4] eqn:Hrep.
  injection H as <- <-.
  exists exit_value, out1, st', out2, a, R.
  repeat (split; [first [reflexivity | assumption]|]). exact Hrep.
Qed.

(** The exit handler in [main_report]: when its read reports no error, the
    status is the handler's text parsed as an integer if that parses;
    otherwise 0 or 1 as the text parses as the boolean true or false;
    otherwise -1, with the error "exit handler value should be integer"
    reported. In each case the status does not depend on the exit status
    reached before the exit handler was called, nor on what the read
    handlers did. *)
Lemma main_report_exit_handler (o : Options) (G : gmap string Handler) (R : Router)
    (exit_value : Z) (out : Out) (exit_string : string) :
  Str.nonempty (exit_handler o) = true ->
  HandlerCall_call_read (exit_handler o) G R = (exit_string, []) ->
  let text := cp_uncomment exit_string in
  let status := fst (main_report o G R exit_value out) in
  let errs := Errh.errors (out_errh (snd (main_report o G R exit_value out))) in
  (forall n, cp_integer text = Some n -> status = n)
  /\ (cp_integer text = None -> cp_bool text = Some true -> status = 0)
  /\ (cp_integer text = None -> cp_bool text = Some false -> status = 1)
  /\ (cp_integer text = None -> cp_bool text = None ->
      status = -1 /\ last errs = Some "exit handler value should be integer")
  /\ (forall exit_value', fst (main_report o G R exit_value' out) = status).
Proof.
  intros Hx Hread text status errs.
  assert (Hnerr : forall eh : Errh.t,
             (Errh.nerrors (Errh.report [] eh) =? Errh.nerrors eh) = true).
  { intros eh. unfold Errh.nerrors, Errh.report. simpl.
    rewrite app_nil_r. apply Z.eqb_refl. }
  assert (Hshape : forall ev,
    exists out2,
      main_report o G R ev out
      = match cp_integer text with
        | Some n => (n, out2)
        | None =>
            match cp_bool text with
            | Some b => (if b then 0 else 1, out2)
            | None => (-1, snd (errh_error "exit handler value should be integer" out2))
            end
        end).
  { intros ev. unfold main_report.
    destruct (negb (length (handlers o) =? 0)%nat).
    - destruct (call_read_handlers G R (handlers o) out) as [rc out'].
      rewrite Hx, Hread. simpl out_errh. rewrite Hnerr. simpl negb. cbv iota.
      eexists. reflexivity.
    - rewrite Hx, Hread. simpl out_errh. rewrite Hnerr. simpl negb. cbv iota.
      eexists. reflexivity. }
  subst status errs.
  destruct (Hshape exit_value) as [out2 E]. rewrite E.
  repeat split.
  - intros n ->. reflexivity.
  - intros -> ->. reflexivity.
  - intros -> ->. reflexivity.
  - rewrite H, H0. reflexivity.
  - rewrite H, H0. unfold errh_error, Errh.error. simpl. apply last_snoc.
  - intros ev'. destruct (Hshape ev') as [out2' E']. rewrite E'.
    destruct (cp_integer text); [reflexivity|].
    destruct (cp_bool text); reflexivity.
Qed.

(** An exit handler whose read reports an error gives the status -1. *)
Lemma main_report_exit_handler_failed (o : Options) (G : gmap string Handler)
    (R : Router) (exit_value : Z) (out : Out) (exit_string : string)
    (msgs : list string) :
  Str.nonempty (exit_handler o) = true ->
  HandlerCall_call_read (exit_handler o) G R = (exit_string, msgs) ->
  msgs <> [] ->
  fst (main_report o G R exit_value out) = -1.
Proof.
  intros Hx Hread Hmsgs.
  assert (Hnerr : forall eh : Errh.t,
             (Errh.nerrors (Errh.report msgs eh) =? Errh.nerrors eh) = false).
  { intros eh. unfold Errh.nerrors, Errh.report. simpl.
    rewrite length_app. apply Z.eqb_neq.
    destruct msgs; [congruence | simpl; lia]. }
  unfold main_report.
  destruct (negb (length (handlers o) =? 0)%nat).
  - destruct (call_read_handlers G R (handlers o) out) as [rc out'].
    rewrite Hx, Hread. simpl out_errh. rewrite Hnerr. reflexivity.
  - rewrite Hx, Hread. simpl out_errh. rewrite Hnerr. reflexivity.
Qed.

(** C3: when the command line gives an exit handler and the process gets to
    an exit status after installing the configuration, that status is the
    one the exit handler gives, read on the router current when the driver
    returned: if the read reports no error, the handler's text parsed as an
    integer if that parses; otherwise 0 or 1 as the text parses as the
    boolean true or false; otherwise -1, with the error "exit handler value
    should be integer" reported last. The status reached before
    ([exit_value]: the flat configuration could not be written, a read
    handler failed) plays no part, whatever it is: the exit handler
    overrides it.  A read that reports an error gives -1. *)
Theorem exit_handler_status (builtin : gmap string Handler)
    (argv : list Clp_option) (fopen_error : option string)
    (events : list Event) (o : Options) (eh eh1 : Errh.t) (st : Driver)
    (status : Z) (out : Out) :
  option_loop argv default_options Errh.empty = inl (o, eh) ->
  Str.nonempty (exit_handler o) = true ->
  main_install o eh (initial_driver builtin) = Some (inl (eh1, st)) ->
  main builtin argv fopen_error events = Some (Exited status out) ->
  exists exit_value out1 st' out2 a R exit_string msgs,
    main_output o (global_handlers st) fopen_error (mkOut "" eh1)
    = Some (exit_value, out1)
    /\ main_run o events st out1 = Some (st', out2)
    /\ router st' = Some a
    /\ heap st' !! a = Some R
    /\ HandlerCall_call_read (exit_handler o) (global_handlers st') R
       = (exit_string, msgs)
    /\ (msgs <> [] -> status = -1)
    /\ (msgs = [] ->
        (forall n, cp_integer (cp_uncomment exit_string) = Some n -> status = n)
        /\ (cp_integer (cp_uncomment exit_string) = None ->
            cp_bool (cp_uncomment exit_string) = Some true -> status = 0)
        /\ (cp_integer (cp_uncomment exit_string) = None ->
            cp_bool (cp_uncomment exit_string) = Some false -> status = 1)
        /\ (cp_integer (cp_uncomment exit_string) = None ->
            cp_bool (cp_uncomment exit_string) = None ->
            status = -1
            /\ last (Errh.errors (out_errh out))
               = Some "exit handler value should be integer")
        /\ (forall exit_value',
              fst (main_report o (global_handlers st') R exit_value'
                     (if report_time o then fputs time_report out2 else out2))
              = status)).
Proof.
  intros Hloop Hx Hinst Hmain.
  destruct (main_exited _ _ _ _ _ _ _ _ _ _ Hloop Hinst Hmain)
    as (exit_value & out1 & st' & out2 & a & R & Hout & Hrun & _ & Hr & HR & Hrep).
  destruct (HandlerCall_call_read (exit_handler o) (global_handlers st') R)
    as [exit_string msgs] eqn:Hread.
  exists exit_value, out1, st', out2, a, R, exit_string, msgs.
  repeat (split; [assumption || reflexivity|]).
  split.
  - intros Hmsgs.
    pose proof (main_report_exit_handler_failed o _ R exit_value
                  (if report_time o then fputs time_report out2 else out2)
                  exit_string msgs Hx Hread Hmsgs) as Hf.
    now rewrite Hrep in Hf.
  - intros ->.
    pose proof (main_report_exit_handler o _ R exit_value
                  (if report_time o then fputs time_report out2 else out2)
                  exit_string Hx Hread) as Hok.
    cbv zeta in Hok. rewrite Hrep in Hok. cbn [fst snd] in Hok.
    destruct Hok as (H1 & H2 & H3 & H4 & H5).
    repeat split; auto; apply H4; assumption.
Qed.

(** ** Expanding handler patterns *)

Lemma find_from_Some (k : nat) (els : list Element) (name : string) (i : nat) :
  RouterOps.find_from k els name = Some i ->
  exists el, (k <= i)%nat /\ els !! (i - k)%nat = Some el /\ e_name el = name.
Proof.
  revert k. induction els as [|el els IH]; intros k; simpl; [discriminate|].
  destruct (String.eqb (e_name el) name) eqn:E.
  - intros [= <-]. exists el. rewrite Nat.sub_diag.
    apply String.eqb_eq in E. auto.
  - intros Hf. destruct (IH _ Hf) as (el' & Hle & Hl & Hn).
    exists el'. split; [lia|]. split; [|exact Hn].
    replace (i - k)%nat with (S (i - S k)) by lia. exact Hl.
Qed.

Lemma find_Some (R : Router) (name : string) (i : nat) :
  RouterOps.find R name = Some i ->
  exists el, r_elements R !! i = Some el /\ e_name el = name
             /\ RouterOps.ename R i = name.
Proof.
  intros Hf. destruct (find_from_Some _ _ _ _ Hf) as (el & _ & Hl & Hn).
  rewrite Nat.sub_0_r in Hl. exists el. unfold RouterOps.ename.
  rewrite Hl. auto.
Qed.

(** The scan loop in closed form: [any] records whether some index matched,
    and the vector grows by the matching indices that have a readable
    handler, in the order of the scan. *)
Lemma expand_fold (G : gmap string Handler) (R : Router) (is_pattern : bool)
    (pattern hname : string) (l : list nat) (any : bool) (els : list ElementRef) :
  fold_left (expand_step G R is_pattern pattern hname) l (any, els)
  = (any || existsb (element_matches R is_pattern pattern) l,
     els ++ map EIdx
       (List.filter (fun i => element_matches R is_pattern pattern i
                              && has_read_handler G R hname i) l)).
Proof.
  revert any els. induction l as [|i l IH]; intros any els; simpl.
  - now rewrite orb_false_r, app_nil_r.
  - unfold expand_step at 2.
    destruct (element_matches R is_pattern pattern i); simpl.
    + destruct (has_read_handler G R hname i); simpl; rewrite IH.
      * rewrite <- app_assoc, orb_true_r. reflexivity.
      * rewrite orb_true_r. reflexivity.
    + rewrite IH. reflexivity.
Qed.

Lemma filter_seq_sorted (f : nat -> bool) (a n : nat) :
  StronglySorted lt (List.filter f (seq a n)).
Proof.
  revert a. induction n as [|n IH]; intros a; simpl; [constructor|].
  destruct (f a); [|apply IH].
  constructor; [apply IH|].
  apply List.Forall_forall. intros x Hx.
  apply filter_In in Hx as [Hx _]. apply in_seq in Hx. lia.
Qed.

Lemma existsb_seq_true (f : nat -> bool) (n : nat) :
  existsb f (seq 0 n) = true <-> exists i, (i < n)%nat /\ f i = true.
Proof.
  rewrite existsb_exists. split; intros (i & Hi & Hf); exists i.
  - apply in_seq in Hi. split; [lia | exact Hf].
  - split; [apply in_seq; lia | exact Hf].
Qed.

(** [expand_handler_elements] when the pattern names no instance. *)
Lemma expand_not_found (G : gmap string Handler) (R : Router)
    (pattern hname : string) (elements : list ElementRef) (o : Out) :
  RouterOps.find R pattern = None ->
  let is_pattern := Str.has_glob_char pattern in
  let matches := element_matches R is_pattern pattern in
  let invoked :=
    List.filter (fun i => matches i && has_read_handler G R hname i)
                (seq 0 (RouterOps.nelements R)) in
  expand_handler_elements G R pattern hname elements o
  = if existsb matches (seq 0 (RouterOps.nelements R))
    then (2, elements ++ map EIdx invoked, o)
    else (- EINVAL, elements ++ map EIdx invoked,
          mkOut (stdout o)
            (Errh.mk (Errh.errors (out_errh o)
                      ++ [if is_pattern
                          then "no element matching '" +:+ pattern +:+ "'"
                          else "no element '" +:+ pattern +:+ "'"])
                     (Errh.warnings (out_errh o)))).
Proof.
  intros Hf is_pattern matches invoked.
  unfold expand_handler_elements. rewrite Hf.
  fold is_pattern. rewrite expand_fold. simpl orb.
  fold matches. fold invoked.
  destruct (existsb matches (seq 0 (RouterOps.nelements R))); reflexivity.
Qed.

Lemma has_read_handler_true (G : gmap string Handler) (R : Router)
    (hname : string) (i : nat) :
  has_read_handler G R hname i = true <->
  exists h, Router_handler G R (EIdx i) hname = Some h
            /\ visible h = true /\ read_visible h = true.
Proof.
  unfold has_read_handler. split.
  - destruct (Router_handler G R (EIdx i) hname) as [h|]; [|discriminate].
    intros Hr. exists h. auto using read_visible_visible.
  - intros (h & -> & _ & Hr). exact Hr.
Qed.

Lemma element_matches_glob (R : Router) (pattern : string) (i : nat) :
  element_matches R true pattern i = glob_match (RouterOps.ename R i) pattern.
Proof. reflexivity. Qed.

Lemma element_matches_class (R : Router) (pattern : string) (i : nat) :
  element_matches R false pattern i = true <->
  exists el, r_elements R !! i = Some el /\ e_cast el pattern = true.
Proof.
  unfold element_matches. split.
  - destruct (r_elements R !! i) as [el|]; [|discriminate]. eauto.
  - intros (el & -> & H). exact H.
Qed.

(** C6 (as amended): for every handler argument whose element part names no
    instance, the invoked elements are, if the element part contains [?],
    [*] or a left bracket, those whose instance names glob-match the
    pattern and that have a readable handler of the given name, and, if it
    has no wildcard, those whose class matches it by [cast] and that have a
    readable handler of the given name; in both cases they are visited in
    ascending element-index order; if no element matches, an error is
    reported and the status is negative, and if one matches the status is 2
    and nothing is reported. *)
Theorem expand_handler_elements_spec (G : gmap string Handler) (R : Router)
    (pattern hname : string) (o : Out) :
  RouterOps.find R pattern = None ->
  let n := RouterOps.nelements R in
  let is_pattern := Str.has_glob_char pattern in
  exists rc invoked o',
    expand_handler_elements G R pattern hname [] o = (rc, map EIdx invoked, o')
    /\ StronglySorted lt invoked
    /\ (forall i, In i invoked <->
          (i < n)%nat /\ has_read_handler G R hname i = true
          /\ if is_pattern
             then glob_match (RouterOps.ename R i) pattern = true
             else exists el, r_elements R !! i = Some el
                             /\ e_cast el pattern = true)
    /\ ((exists i, (i < n)%nat /\ element_matches R is_pattern pattern i = true) ->
        rc = 2 /\ o' = o)
    /\ ((forall i, (i < n)%nat -> element_matches R is_pattern pattern i = false) ->
        rc < 0 /\ invoked = [] /\ stdout o' = stdout o
        /\ Errh.errors (out_errh o')
           = Errh.errors (out_errh o)
             ++ [if is_pattern
                 then "no element matching '" +:+ pattern +:+ "'"
                 else "no element '" +:+ pattern +:+ "'"]).
Proof.
  intros Hf n is_pattern.
  pose proof (expand_not_found G R pattern hname [] o Hf) as E.
  cbv zeta in E. fold n in E. fold is_pattern in E.
  set (matches := element_matches R is_pattern pattern) in *.
  set (invoked := List.filter (fun i => matches i && has_read_handler G R hname i)
                              (seq 0 n)) in *.
  assert (Hin : forall i, In i invoked <->
            (i < n)%nat /\ has_read_handler G R hname i = true
            /\ if is_pattern
               then glob_match (RouterOps.ename R i) pattern = true
               else exists el, r_elements R !! i = Some el
                               /\ e_cast el pattern = true).
  { intros i. unfold invoked. rewrite filter_In, in_seq, andb_true_iff.
    unfold matches. destruct is_pattern.
    - rewrite element_matches_glob.
      split; [intros [Hi [Ha Hb]] | intros (Hi & Hb & Ha)];
        (split; [lia | split; assumption]).
    - rewrite element_matches_class.
      split; [intros [Hi [Ha Hb]] | intros (Hi & Hb & Ha)];
        (split; [lia | split; assumption]). }
  destruct (existsb matches (seq 0 n)) eqn:Ex.
  - exists 2, invoked, o. split; [exact E|].
    split; [apply filter_seq_sorted|]. split; [exact Hin|]. split; [auto|].
    intros Hnone. apply existsb_seq_true in Ex as (i & Hi & Hm).
    rewrite (Hnone i Hi) in Hm. discriminate.
  - eexists (- EINVAL), invoked, _. split; [exact E|].
    split; [apply filter_seq_sorted|]. split; [exact Hin|]. split.
    + intros Hsome. apply existsb_seq_true in Hsome. congruence.
    + intros _. split; [unfold EINVAL; lia|]. split; [|split; reflexivity].
      unfold invoked.
      destruct (List.filter _ _) as [|i l] eqn:Efil; [reflexivity|].
      assert (Hi : In i (List.filter
                (fun i => matches i && has_read_handler G R hname i) (seq 0 n)))
        by (rewrite Efil; left; reflexivity).
      apply filter_In in Hi as [Hi Hm]. apply andb_true_iff in Hm as [Hm _].
      assert (existsb matches (seq 0 n) = true)
        by (apply existsb_exists; eauto).
      congruence.
Qed.

Lemma call_each_readable (G : gmap string Handler) (R : Router)
    (hname : string) (print_name : bool) (els : list ElementRef) (o : Out) :
  (forall e, In e els ->
     exists h, Router_handler G R e hname = Some h /\ read_visible h = true) ->
  out_errh (call_each G R hname print_name els o) = out_errh o.
Proof.
  unfold call_each. revert o.
  induction els as [|e els IH]; intros o Hall; simpl; [reflexivity|].
  destruct (Hall e (or_introl eq_refl)) as (h & Hh & Hr).
  rewrite (call_read_handler_found _ _ _ _ print_name o _ Hh Hr).
  rewrite IH by (intros e' He'; apply Hall; right; exact He').
  destruct print_name; reflexivity.
Qed.

(** C9: in handler pattern expansion an element part that exactly names an
    existing instance selects that single element, whatever glob or class
    matching would give; otherwise, provided at least one element matched
    by pattern or class, the invoked elements are exactly the matched ones
    that have a visible read handler of the given name, the expansion
    reports no error, and calling the handler on the invoked elements
    reports none either. *)
Theorem expand_exact_name_then_readable (G : gmap string Handler) (R : Router)
    (pattern hname : string) (print_name : bool) (o : Out) :
  (forall i, RouterOps.find R pattern = Some i ->
     expand_handler_elements G R pattern hname [] o = (1, [EIdx i], o)
     /\ RouterOps.ename R i = pattern)
  /\ (RouterOps.find R pattern = None ->
      let n := RouterOps.nelements R in
      let matches := element_matches R (Str.has_glob_char pattern) pattern in
      (exists i, (i < n)%nat /\ matches i = true) ->
      exists els,
        expand_handler_elements G R pattern hname [] o = (2, els, o)
        /\ (forall e, In e els <->
              exists j, e = EIdx j /\ (j < n)%nat /\ matches j = true
                /\ exists h, Router_handler G R (EIdx j) hname = Some h
                             /\ visible h = true /\ read_visible h = true)
        /\ out_errh (call_each G R hname print_name els o) = out_errh o).
Proof.
  split.
  - intros i Hf. unfold expand_handler_elements. rewrite Hf.
    split; [reflexivity|].
    destruct (find_Some _ _ _ Hf) as (el & _ & _ & Hn). exact Hn.
  - intros Hf n matches Hany.
    pose proof (expand_not_found G R pattern hname [] o Hf) as E.
    cbv zeta in E. fold n in E. fold matches in E.
    apply existsb_seq_true in Hany. rewrite Hany in E.
    eexists. split; [exact E|].
    assert (Hin : forall e,
      In e ([] ++ map EIdx (List.filter
                (fun i => matches i && has_read_handler G R hname i) (seq 0 n)))
      <-> exists j, e = EIdx j /\ (j < n)%nat /\ matches j = true
            /\ exists h, Router_handler G R (EIdx j) hname = Some h
                         /\ visible h = true /\ read_visible h = true).
    { intros e. simpl. rewrite in_map_iff. split.
      - intros (j & <- & Hj). apply filter_In in Hj as [Hj Hm].
        apply in_seq in Hj. apply andb_true_iff in Hm as [Hm Hh].
        apply has_read_handler_true in Hh.
        exists j. repeat split; [lia | exact Hm | exact Hh].
      - intros (j & -> & Hj & Hm & Hh). exists j. split; [reflexivity|].
        apply filter_In. split; [apply in_seq; lia|].
        apply andb_true_iff. split; [exact Hm|].
        apply has_read_handler_true. exact Hh. }
    split; [exact Hin|].
    apply call_each_readable. intros e He.
    apply Hin in He as (j & -> & _ & _ & h & Hh & _ & Hr). eauto.
Qed.

(** ** Reading a list of handlers *)

(** Errors are only ever added. *)
Definition errors_extend (o o' : Out) : Prop :=
  exists l, Errh.errors (out_errh o') = Errh.errors (out_errh o) ++ l.

Lemma errors_extend_refl (o : Out) : errors_extend o o.
Proof. exists []. now rewrite app_nil_r. Qed.

Lemma errors_extend_trans (o1 o2 o3 : Out) :
  errors_extend o1 o2 -> errors_extend o2 o3 -> errors_extend o1 o3.
Proof.
  intros [l1 H1] [l2 H2]. exists (l1 ++ l2). now rewrite H2, H1, app_assoc.
Qed.

Lemma errors_extend_error (msg : string) (o : Out) :
  errors_extend o (snd (errh_error msg o)).
Proof. exists [msg]. reflexivity. Qed.

Lemma call_read_handler_extends (G : gmap string Handler) (R : Router)
    (e : ElementRef) (hname : string) (print_name : bool) (o : Out) :
  errors_extend o (snd (call_read_handler G R e hname print_name o)).
Proof.
  unfold call_read_handler.
  destruct (Router_handler G R e hname) as [rh|];
    [|apply errors_extend_error].
  destruct (visible rh); simpl; [|apply errors_extend_error].
  destruct (read_visible rh); simpl; [|apply errors_extend_error].
  destruct print_name; exists []; simpl; now rewrite app_nil_r.
Qed.

Lemma call_each_extends (G : gmap string Handler) (R : Router)
    (hname : string) (print_name : bool) (els : list ElementRef) (o : Out) :
  errors_extend o (call_each G R hname print_name els o).
Proof.
  unfold call_each. revert o.
  induction els as [|e els IH]; intros o; simpl; [apply errors_extend_refl|].
  eapply errors_extend_trans; [apply call_read_handler_extends | apply IH].
Qed.

Lemma expand_extends (G : gmap string Handler) (R : Router)
    (pattern hname : string) (els : list ElementRef) (o : Out) :
  errors_extend o (snd (expand_handler_elements G R pattern hname els o)).
Proof.
  destruct (RouterOps.find R pattern) as [i|] eqn:Hf.
  - unfold expand_handler_elements. rewrite Hf. apply errors_extend_refl.
  - rewrite (expand_not_found _ _ _ _ _ _ Hf).
    destruct (existsb _ _); simpl; [apply errors_extend_refl|].
    eexists. reflexivity.
Qed.

Lemma call_read_handlers_step_extends (G : gmap string Handler) (R : Router)
    (print_names : bool) (o : Out) (h : string) :
  errors_extend o (call_read_handlers_step G R print_names o h).
Proof.
  unfold call_read_handlers_step.
  destruct (Str.split_at "." h) as [[element_name handler_name]|];
    [|apply call_read_handler_extends].
  pose proof (expand_extends G R element_name handler_name [] o) as Hx.
  destruct (expand_handler_elements G R element_name handler_name [] o)
    as [[retval elements] o1]. simpl in Hx.
  destruct (0 <=? retval); [|exact Hx].
  eapply errors_extend_trans; [exact Hx | apply call_each_extends].
Qed.

Lemma call_read_handlers_fold_extends (G : gmap string Handler) (R : Router)
    (print_names : bool) (hs : list string) (o : Out) :
  errors_extend o (fold_left (call_read_handlers_step G R print_names) hs o).
Proof.
  revert o. induction hs as [|h hs IH]; intros o; simpl;
    [apply errors_extend_refl|].
  eapply errors_extend_trans;
    [apply call_read_handlers_step_extends | apply IH].
Qed.

(** A request [E.H] for an instance [E] whose handler [H] cannot be read:
    the one step of the loop reports exactly the error of
    [call_read_handler]. *)
Lemma call_read_handlers_step_unreadable (G : gmap string Handler) (R : Router)
    (print_names : bool) (o : Out) (E H : string) (i : nat) :
  Str.mem "." E = false ->
  RouterOps.find R E = Some i ->
  match Router_handler G R (EIdx i) H with
  | Some h => visible h && read_visible h
  | None => false
  end = false ->
  Errh.errors (out_errh (call_read_handlers_step G R print_names o (E +:+ "." +:+ H)))
  = Errh.errors (out_errh o)
    ++ [match Router_handler G R (EIdx i) H with
        | Some h =>
            if visible h then "'" +:+ (E +:+ "." +:+ H) +:+ "' is a write handler"
            else "no '" +:+ (E +:+ "." +:+ H) +:+ "' handler"
        | None => "no '" +:+ (E +:+ "." +:+ H) +:+ "' handler"
        end].
Proof.
  intros Hdot Hf Hbad. unfold call_read_handlers_step.
  change (E +:+ "." +:+ H) with (E +:+ String "." H) at 1.
  rewrite (split_at_append _ _ _ Hdot).
  unfold expand_handler_elements. rewrite Hf.
  cbn [app fold_left call_each Z.leb Z.compare fst snd].
  unfold call_read_handler, unparse_name.
  destruct (find_Some _ _ _ Hf) as (el & _ & _ & ->).
  destruct (Router_handler G R (EIdx i) H) as [h|]; [|reflexivity].
  destruct (visible h); cbn [negb andb] in *; [|reflexivity].
  rewrite Hbad. reflexivity.
Qed.

(** A read-handler request [E.H] in [call_read_handlers], where [E] names an
    instance: if the element has no visible handler named [H] the error
    no 'E.H' handler is reported, and if the handler is visible but not
    readable the error 'E.H' is a write handler is reported; in either case
    [call_read_handlers] returns -1 to [main], and without an exit handler
    [main_report] gives the status 1, whatever it was before. *)
Lemma call_read_handlers_unreadable (o : Options) (G : gmap string Handler)
    (R : Router) (E H : string) (i : nat) (exit_value : Z) (out : Out) :
  In (E +:+ "." +:+ H) (handlers o) ->
  Str.mem "." E = false ->
  RouterOps.find R E = Some i ->
  exit_handler o = "" ->
  let rh := Router_handler G R (EIdx i) H in
  let result := call_read_handlers G R (handlers o) out in
  let errs := Errh.errors (out_errh (snd result)) in
  let status := fst (main_report o G R exit_value out) in
  ((rh = None \/ exists h, rh = Some h /\ visible h = false) ->
   In ("no '" +:+ (E +:+ "." +:+ H) +:+ "' handler") errs
   /\ fst result = -1 /\ status = 1)
  /\ ((exists h, rh = Some h /\ visible h = true /\ read_visible h = false) ->
      In ("'" +:+ (E +:+ "." +:+ H) +:+ "' is a write handler") errs
      /\ fst result = -1 /\ status = 1).
Proof.
  intros Hin Hdot Hf Hx rh result errs status.
  assert (Hcore : forall msg,
    match rh with
    | Some h => visible h && read_visible h
    | None => false
    end = false ->
    match rh with
    | Some h =>
        if visible h then "'" +:+ (E +:+ "." +:+ H) +:+ "' is a write handler"
        else "no '" +:+ (E +:+ "." +:+ H) +:+ "' handler"
    | None => "no '" +:+ (E +:+ "." +:+ H) +:+ "' handler"
    end = msg ->
    In msg errs /\ fst result = -1 /\ status = 1).
  { intros msg Hbad Hmsg.
    destruct (in_split _ _ Hin) as (l1 & l2 & Hl).
    set (pn := (1 <? length (handlers o))%nat).
    assert (Hfold : exists la lb,
      Errh.errors (out_errh (fold_left (call_read_handlers_step G R pn)
                                       (handlers o) out))
      = Errh.errors (out_errh out) ++ la ++ [msg] ++ lb).
    { rewrite Hl, fold_left_app. simpl fold_left.
      destruct (call_read_handlers_fold_extends G R pn l1 out) as [la Ha].
      set (oa := fold_left (call_read_handlers_step G R pn) l1 out) in *.
      pose proof (call_read_handlers_step_unreadable G R pn oa E H i
                    Hdot Hf Hbad) as Hs.
      fold rh in Hs. rewrite Hmsg in Hs.
      destruct (call_read_handlers_fold_extends G R pn l2
                  (call_read_handlers_step G R pn oa (E +:+ "." +:+ H)))
        as [lb Hb].
      exists la, lb. rewrite Hb, Hs, Ha. now rewrite <- !app_assoc. }
    destruct Hfold as (la & lb & Hfold).
    assert (Hres : result
                   = (-1, fold_left (call_read_handlers_step G R pn)
                                    (handlers o) out)).
    { unfold result, call_read_handlers. fold pn. f_equal.
      unfold Errh.nerrors. rewrite Hfold.
      destruct (Z.eqb_spec
                  (Z.of_nat (length (Errh.errors (out_errh out)
                                     ++ la ++ [msg] ++ lb)))
                  (Z.of_nat (length (Errh.errors (out_errh out)))))
        as [Heq|]; [|reflexivity].
      apply Nat2Z.inj in Heq. rewrite !length_app in Heq. simpl in Heq. lia. }
    split; [|split].
    - unfold errs. rewrite Hres. simpl snd. rewrite Hfold.
      apply in_or_app. right. apply in_or_app. right. left. reflexivity.
    - now rewrite Hres.
    - unfold status, main_report. fold result. rewrite Hres.
      rewrite Hl at 1. rewrite length_app. simpl length.
      replace (length l1 + S (length l2) =? 0)%nat with false
        by (symmetry; apply Nat.eqb_neq; lia).
      simpl negb. cbv iota. rewrite Hx. reflexivity. }
  split.
  - intros Hnone. apply Hcore.
    + destruct Hnone as [-> | (h & -> & Hv)]; [reflexivity | now rewrite Hv].
    + destruct Hnone as [-> | (h & -> & Hv)]; [reflexivity | now rewrite Hv].
  - intros (h & Hh & Hv & Hr). apply Hcore; rewrite Hh, Hv.
    + now rewrite Hr.
    + reflexivity.
Qed.

(** Without an exit handler what [main_report] leaves written is what
    [call_read_handlers] left. *)
Lemma main_report_no_exit_handler_out (o : Options) (G : gmap string Handler)
    (R : Router) (exit_value : Z) (out : Out) :
  exit_handler o = "" ->
  handlers o <> [] ->
  snd (main_report o G R exit_value out)
  = snd (call_read_handlers G R (handlers o) out).
Proof.
  intros Hx Hne. unfold main_report. rewrite Hx.
  destruct (handlers o) as [|h hs]; [congruence|].
  cbn [length Nat.eqb negb].
  destruct (call_read_handlers G R (h :: hs) out) as [rc out'].
  reflexivity.
Qed.

(** C5: for every read-handler request [E.H] of the command line, where [E]
    names an instance of the router current when the driver returned: if
    that element has no visible handler named [H] the error
    no 'E.H' handler is reported, and if the handler is visible but not
    readable the error 'E.H' is a write handler is reported; in either case
    the error is among those the process has reported when it exits,
    [call_read_handlers] returns -1 to [main], and without an exit handler
    the exit status of the process is 1. *)
Theorem unreadable_handler_reported (builtin : gmap string Handler)
    (argv : list Clp_option) (fopen_error : option string)
    (events : list Event) (o : Options) (eh eh1 : Errh.t) (st : Driver)
    (status : Z) (out : Out) (E H : string) :
  option_loop argv default_options Errh.empty = inl (o, eh) ->
  exit_handler o = "" ->
  In (E +:+ "." +:+ H) (handlers o) ->
  Str.mem "." E = false ->
  main_install o eh (initial_driver builtin) = Some (inl (eh1, st)) ->
  main builtin argv fopen_error events = Some (Exited status out) ->
  exists exit_value out1 st' out2 a R,
    main_output o (global_handlers st) fopen_error (mkOut "" eh1)
    = Some (exit_value, out1)
    /\ main_run o events st out1 = Some (st', out2)
    /\ router st' = Some a
    /\ heap st' !! a = Some R
    /\ forall i,
         RouterOps.find R E = Some i ->
         let rh := Router_handler (global_handlers st') R (EIdx i) H in
         let result :=
           call_read_handlers (global_handlers st') R (handlers o)
             (if report_time o then fputs time_report out2 else out2) in
         ((rh = None \/ exists h, rh = Some h /\ visible h = false) ->
          In ("no '" +:+ (E +:+ "." +:+ H) +:+ "' handler")
             (Errh.errors (out_errh out))
          /\ fst result = -1 /\ status = 1)
         /\ ((exists h, rh = Some h /\ visible h = true /\ read_visible h = false) ->
             In ("'" +:+ (E +:+ "." +:+ H) +:+ "' is a write handler")
                (Errh.errors (out_errh out))
             /\ fst result = -1 /\ status = 1).
Proof.
  intros Hloop Hx Hin Hdot Hinst Hmain.
  destruct (main_exited _ _ _ _ _ _ _ _ _ _ Hloop Hinst Hmain)
    as (exit_value & out1 & st' & out2 & a & R & Hout & Hrun & _ & Hr & HR & Hrep).
  exists exit_value, out1, st', out2, a, R.
  repeat (split; [assumption|]).
  intros i Hfind rh result.
  pose proof (call_read_handlers_unreadable o (global_handlers st') R E H i
                exit_value
                (if report_time o then fputs time_report out2 else out2)
                Hin Hdot Hfind Hx) as Hcore.
  cbv zeta in Hcore. fold rh in Hcore. fold result in Hcore.
  assert (Hne : handlers o <> []) by (intros E0; rewrite E0 in Hin; destruct Hin).
  pose proof (main_report_no_exit_handler_out o (global_handlers st') R
                exit_value
                (if report_time o then fputs time_report out2 else out2)
                Hx Hne) as Hsnd.
  fold result in Hsnd. rewrite Hrep in Hsnd, Hcore. cbn [fst snd] in Hsnd, Hcore.
  rewrite <- Hsnd in Hcore. exact Hcore.
Qed.

(** ** Hot-swapping *)

Lemma fresh_not_live (st : Driver) : heap st !! fresh (dom (heap st)) = None.
Proof. apply not_elem_of_dom, is_fresh. Qed.

(** [parse_configuration] for a hot-swap, while a router is installed: the
    store is touched only at a fresh address, and only kept touched when
    the new router is returned. *)
Lemma parse_configuration_hotswap (cs : ControlSockets) (text : string)
    (errh : Errh.t) (st : Driver) (old : addr) (Rold : Router) :
  router st = Some old ->
  heap st !! old = Some Rold ->
  parse_configuration cs text true true errh st
  = let '(parsed_router, msgs) := click_read_router text true (r_master Rold) in
    let errh1 := Errh.report msgs errh in
    match parsed_router with
    | None => Some (None, errh1, st)
    | Some R0 =>
        if 0 <? Errh.nerrors errh1 then Some (None, errh1, st)
        else
          let '(status, R', msgs') :=
            Router_initialize
              (staged_router cs true
                 (if RouterOps.is_initialized Rold then Some old else None) R0) in
          let errh2 := Errh.report msgs' errh1 in
          if status <? 0 then Some (None, errh2, st)
          else Some (Some (fresh (dom (heap st))), errh2,
                     upd_heap <[fresh (dom (heap st)) := R']> st)
    end.
Proof.
  intros Hr Hold.
  pose proof (fresh_not_live st) as Hfresh.
  destruct st as [h rt hs ts sd g sg lg ss tb nm]. simpl in Hr, Hold, Hfresh.
  subst rt. unfold parse_configuration, staged_router. simpl.
  rewrite Hold. simpl.
  destruct (click_read_router text true (r_master Rold)) as [[R0|] msgs];
    [|reflexivity].
  set (r := fresh (dom h)) in *.
  assert (Hne : r <> old) by (intros ->; congruence).
  unfold upd_heap. simpl.
  rewrite !alter_insert_eq, (lookup_insert_ne _ _ _ _ Hne), Hold. simpl.
  destruct (RouterOps.is_initialized Rold); simpl;
    rewrite ?alter_insert_eq, ?delete_insert_id by exact Hfresh;
    (destruct (0 <? Errh.nerrors (Errh.report msgs errh)); [reflexivity|]);
    rewrite lookup_insert_eq; simpl;
    destruct (Router_initialize _) as [[status R'] msgs'];
    rewrite insert_insert_eq;
    (destruct (status <? 0); [|reflexivity]);
    now rewrite delete_insert_id by exact Hfresh.
Qed.

(** C1: if a configuration text written to [hotconfig] fails parsing (the
    parser returns no router), configuration (errors were reported), or
    resolution or initialization ([Router::initialize] returns a negative
    status), then the handler returns the negative status -EINVAL to its
    writer together with the errors reported, and the driver is exactly as
    before: the same current router, the same store (so the running router
    is not deactivated and not torn down), nothing staged and no task
    scheduled. *)
Theorem hotconfig_rejected (cs : ControlSockets) (text : string) (errh : Errh.t)
    (st : Driver) (old : addr) (Rold : Router) :
  router st = Some old ->
  heap st !! old = Some Rold ->
  let parsed := click_read_router text true (r_master Rold) in
  let errh1 := Errh.report (snd parsed) errh in
  let failed :=
    match fst parsed with
    | None => true
    | Some R0 =>
        (0 <? Errh.nerrors errh1)
        || (fst (fst (Router_initialize
                        (staged_router cs true
                           (if RouterOps.is_initialized Rold then Some old else None)
                           R0))) <? 0)
    end in
  failed = true ->
  exists msgs,
    hotconfig_handler cs text errh st = Some (- EINVAL, Errh.report msgs errh, st)
    /\ - EINVAL < 0.
Proof.
  intros Hr Hold parsed errh1 failed Hfail.
  unfold hotconfig_handler.
  rewrite (parse_configuration_hotswap cs text errh st old Rold Hr Hold).
  subst failed errh1 parsed.
  destruct (click_read_router text true (r_master Rold)) as [[R0|] msgs];
    simpl in Hfail |- *.
  - destruct (0 <? Errh.nerrors (Errh.report msgs errh)); simpl in Hfail |- *.
    + exists msgs. split; [reflexivity | unfold EINVAL; lia].
    + destruct (Router_initialize _) as [[status R'] msgs']. simpl in Hfail.
      rewrite Hfail. simpl. exists (msgs ++ msgs').
      split; [|unfold EINVAL; lia].
      unfold Errh.report. simpl. now rewrite app_assoc.
  - exists msgs. split; [reflexivity | unfold EINVAL; lia].
Qed.

(** Closes a goal whose hypothesis [H] equates a rejection with status
    -EINVAL with a success of status 0. *)
Ltac not_rejected H :=
  exfalso; injection H; unfold EINVAL; intros; lia.

(** What [hotswap_hook] does when a new router is staged. *)
Lemma hotswap_hook_staged (st : Driver) (old q : addr) (Rold Rq : Router) :
  router st = Some old ->
  hotswap_router st = Some q ->
  q <> old ->
  heap st !! old = Some Rold ->
  heap st !! q = Some Rq ->
  exists st2,
    hotswap_hook st = Some (true, st2)
    /\ router st2 = Some q
    /\ hotswap_router st2 = None
    /\ hotswap_task_scheduled st2 = hotswap_task_scheduled st
    /\ click_signal_calls st2 = click_signal_calls st
    /\ heap st2 !! q
       = Some (RouterOps.set_refcount (r_refcount Rq + 1) (RouterOps.activate Rq))
    /\ heap st2 !! old
       = (if r_refcount Rold - 1 =? 0 then None
          else Some (RouterOps.set_refcount (r_refcount Rold - 1) Rold)).
Proof.
  intros Hr Hq Hne Hold Hnew.
  destruct st as [h rt hs ts sd g sg lg ss tb nm]. simpl in *. subst rt hs.
  unfold hotswap_hook, Router_unuse, Router_use. simpl.
  rewrite Hnew. simpl.
  rewrite (lookup_insert_ne _ _ _ _ Hne), Hold. simpl.
  destruct (r_refcount Rold - 1 =? 0); simpl.
  - rewrite lookup_delete_ne by congruence. rewrite lookup_insert_eq. simpl.
    eexists. split; [reflexivity|]. simpl.
    rewrite lookup_insert_eq, lookup_insert_ne, lookup_delete_eq by exact Hne.
    repeat split.
  - rewrite lookup_insert_ne by congruence. rewrite lookup_insert_eq. simpl.
    eexists. split; [reflexivity|]. simpl.
    rewrite lookup_insert_eq, lookup_insert_ne, lookup_insert_eq by exact Hne.
    repeat split.
Qed.

(** C2: on a successful write to [hotconfig] the hot-swap task is scheduled
    with the new router staged, the current router still being the old
    one; when the task runs it activates the new router, makes it the
    driver's current router and takes a use of it, and decrements the old
    router's use count, the old router being torn down (gone from the
    store) exactly when the count reaches zero. The task is one-shot: it is
    no longer scheduled, and selecting it again does nothing. *)
Theorem hotconfig_swaps (cs : ControlSockets) (text : string) (errh errh' : Errh.t)
    (st st1 : Driver) (old : addr) (Rold : Router) :
  router st = Some old ->
  heap st !! old = Some Rold ->
  match hotswap_router st with
  | Some pending => pending <> old /\ is_Some (heap st !! pending)
  | None => True
  end ->
  hotconfig_handler cs text errh st = Some (0, errh', st1) ->
  exists q Rq,
    hotswap_task_scheduled st1 = true
    /\ hotswap_router st1 = Some q
    /\ router st1 = Some old
    /\ q <> old
    /\ heap st1 !! q = Some Rq
    /\ heap st1 !! old = Some Rold
    /\ exists st2,
         run_hotswap_task st1 = Some st2
         /\ router st2 = Some q
         /\ heap st2 !! q
            = Some (RouterOps.set_refcount (r_refcount Rq + 1)
                                           (RouterOps.activate Rq))
         /\ r_state (RouterOps.activate Rq) = running
         /\ heap st2 !! old
            = (if r_refcount Rold - 1 =? 0 then None
               else Some (RouterOps.set_refcount (r_refcount Rold - 1) Rold))
         /\ hotswap_router st2 = None
         /\ hotswap_task_scheduled st2 = false
         /\ run_hotswap_task st2 = Some st2.
Proof.
  intros Hr Hold Hpending Hw.
  unfold hotconfig_handler in Hw.
  rewrite (parse_configuration_hotswap cs text errh st old Rold Hr Hold) in Hw.
  pose proof (fresh_not_live st) as Hfresh.
  set (q := fresh (dom (heap st))) in *.
  assert (Hqold : q <> old) by (intros ->; congruence).
  destruct (click_read_router text true (r_master Rold)) as [[R0|] msgs];
    simpl in Hw; [|not_rejected Hw].
  destruct (0 <? Errh.nerrors (Errh.report msgs errh));
    simpl in Hw; [not_rejected Hw|].
  destruct (Router_initialize _) as [[status Rq] msgs'].
  destruct (status <? 0); simpl in Hw; [not_rejected Hw|].
  assert (Hst1 : exists hp,
    st1 = upd_hotswap_task true (upd_hotswap_router (Some q) (upd_heap (fun _ => hp) st))
    /\ hp !! q = Some Rq /\ hp !! old = Some Rold).
  { destruct (hotswap_router st) as [p|] eqn:Hp.
    - destruct Hpending as [Hpold [Rp HRp]].
      assert (Hpq : p <> q) by (intros ->; congruence).
      unfold Router_unuse in Hw. simpl in Hw.
      rewrite lookup_insert_ne, HRp in Hw by congruence. simpl in Hw.
      destruct (r_refcount Rp - 1 =? 0); simpl in Hw;
        injection Hw as _ <-; eexists; (split; [reflexivity|]).
      + simpl. rewrite !lookup_delete_ne, lookup_insert_eq, lookup_insert_ne
          by congruence.
        auto.
      + simpl. rewrite (lookup_insert_ne _ p q), lookup_insert_eq by congruence.
        rewrite !lookup_insert_ne by congruence. auto.
    - simpl in Hw. injection Hw as _ <-.
      eexists. split; [reflexivity|]. simpl.
      rewrite lookup_insert_eq, lookup_insert_ne by congruence. auto. }
  destruct Hst1 as (hp & -> & Hq & Ho).
  exists q, Rq. simpl. rewrite Hr. repeat (split; [done|]).
  destruct (hotswap_hook_staged
              (upd_hotswap_task false
                 (upd_hotswap_task true
                    (upd_hotswap_router (Some q) (upd_heap (fun _ => hp) st))))
              old q Rold Rq) as (st2 & Hhook & H1 & H2 & H3 & _ & H5 & H6);
    try done.
  exists st2. unfold run_hotswap_task at 1. simpl hotswap_task_scheduled. cbv iota.
  rewrite Hhook. simpl. simpl in H3.
  repeat (split; [done|]).
  unfold run_hotswap_task. now rewrite H3.
Qed.

(** ** What installing and swapping leave alone *)

(** The part of the driver that only [main] and signal delivery write. *)
Definition same_globals (st st' : Driver) : Prop :=
  global_handlers st' = global_handlers st
  /\ click_signal_calls st' = click_signal_calls st
  /\ started st' = started st.

Lemma same_globals_refl (st : Driver) : same_globals st st.
Proof. repeat split. Qed.

Lemma same_globals_trans (st1 st2 st3 : Driver) :
  same_globals st1 st2 -> same_globals st2 st3 -> same_globals st1 st3.
Proof. unfold same_globals. intros (-> & -> & ->) (-> & -> & ->). auto. Qed.

Lemma Router_unuse_globals (a : addr) (st st' : Driver) :
  Router_unuse a st = Some st' -> same_globals st st'.
Proof.
  unfold Router_unuse. destruct (heap st !! a) as [R|]; simpl; [|discriminate].
  destruct (r_refcount R - 1 =? 0); intros [= <-]; repeat split.
Qed.

Lemma Router_use_globals (a : addr) (st st' : Driver) :
  Router_use a st = Some st' -> same_globals st st'.
Proof.
  unfold Router_use. destruct (heap st !! a) as [R|]; simpl; [|discriminate].
  intros [= <-]. repeat split.
Qed.

Lemma parse_configuration_hotswap_globals (cs : ControlSockets) (text : string)
    (text_is_expr : bool) (errh errh' : Errh.t) (st st' : Driver) (r : option addr) :
  parse_configuration cs text text_is_expr true errh st = Some (r, errh', st') ->
  same_globals st st'.
Proof.
  unfold parse_configuration. intros H.
  repeat (simplify_option_eq || case_match); repeat split.
Qed.

Lemma parse_configuration_global_handlers (cs : ControlSockets) (text : string)
    (text_is_expr hotswap : bool) (errh errh' : Errh.t) (st st' : Driver)
    (r : option addr) :
  parse_configuration cs text text_is_expr hotswap errh st = Some (r, errh', st') ->
  global_handlers st' = global_handlers st /\ started st' = started st.
Proof.
  unfold parse_configuration. intros H.
  destruct (match router st with
            | Some a => heap st !! a ≫= λ R, Some (r_master R, st)
            | None => Some (nmasters st, upd_nmasters (S (nmasters st)) st)
            end) as [[master st0]|] eqn:Hm; simpl in H; [|discriminate].
  assert (H0 : global_handlers st0 = global_handlers st
               /\ started st0 = started st).
  { destruct (router st) as [a|].
    - destruct (heap st !! a); simpl in Hm; [|discriminate].
      injection Hm as _ <-. auto.
    - injection Hm as _ <-. auto. }
  clear Hm. destruct H0 as [<- <-].
  destruct (click_read_router text text_is_expr master) as [[R0|] msgs];
    [|injection H as _ _ <-; auto].
  set (r0 := fresh (dom (heap st0))) in *.
  set (st3 := upd_heap _ (upd_heap _ (upd_heap <[r0:=R0]> st0))) in *.
  set (st4 := if negb hotswap then install_signal_handlers st3 else st3) in *.
  assert (H4 : global_handlers st4 = global_handlers st0
               /\ started st4 = started st0).
  { unfold st4, install_signal_handlers.
    destruct hotswap, HAVE_MULTITHREAD; auto. }
  clearbody st4. clear st3. destruct H4 as [<- <-].
  destruct (if hotswap then _ else _) as [st5|] eqn:H5; simpl in H; [|discriminate].
  assert (H5' : global_handlers st5 = global_handlers st4
                /\ started st5 = started st4).
  { destruct hotswap; [|injection H5 as <-; auto].
    destruct (router st4) as [old|]; [|injection H5 as <-; auto].
    destruct (heap st4 !! old) as [Rold|]; simpl in H5; [|discriminate].
    injection H5 as <-. destruct (RouterOps.is_initialized Rold); auto. }
  clear H5. destruct H5' as [<- <-].
  destruct (0 <? Errh.nerrors (Errh.report msgs errh));
    [injection H as _ _ <-; auto|].
  destruct (heap st5 !! r0) as [Rr|]; simpl in H; [|discriminate].
  destruct (Router_initialize Rr) as [[status R'] msgs'].
  destruct (status <? 0); injection H as _ _ <-; auto.
Qed.

Lemma hotconfig_handler_globals (cs : ControlSockets) (text : string)
    (errh errh' : Errh.t) (st st' : Driver) (rc : Z) :
  hotconfig_handler cs text errh st = Some (rc, errh', st') ->
  same_globals st st'.
Proof.
  unfold hotconfig_handler. intros H.
  destruct (parse_configuration cs text true true errh st)
    as [[[q e1] st1]|] eqn:Hp; simpl in H; [|discriminate].
  apply parse_configuration_hotswap_globals in Hp.
  destruct q as [q|]; [|injection H as _ _ <-; exact Hp].
  destruct (hotswap_router st1) as [p|]; simpl in H.
  - destruct (Router_unuse p st1) as [st2|] eqn:Hu; simpl in H; [|discriminate].
    apply Router_unuse_globals in Hu. injection H as _ _ <-.
    eapply same_globals_trans; [exact Hp|].
    eapply same_globals_trans; [exact Hu|]. repeat split.
  - injection H as _ _ <-. eapply same_globals_trans; [exact Hp|]. repeat split.
Qed.

Lemma hotswap_hook_globals (st st' : Driver) (b : bool) :
  hotswap_hook st = Some (b, st') -> same_globals st st'.
Proof.
  unfold hotswap_hook. intros H.
  destruct (hotswap_router st) as [q|]; simpl in H; [|discriminate].
  destruct (heap st !! q) as [Rq|]; simpl in H; [|discriminate].
  destruct (router st) as [old|]; simpl in H; [|discriminate].
  destruct (Router_unuse old _) as [st2|] eqn:Hu; simpl in H; [|discriminate].
  apply Router_unuse_globals in Hu.
  destruct (hotswap_router st2) as [r|]; simpl in H; [|discriminate].
  destruct (Router_use r _) as [st4|] eqn:Hus; simpl in H; [|discriminate].
  apply Router_use_globals in Hus. injection H as _ <-.
  destruct Hu as (Hu1 & Hu2 & Hu3). destruct Hus as (Hs1 & Hs2 & Hs3).
  unfold same_globals. simpl in *. repeat split; congruence.
Qed.

Lemma stop_signal_handler_globals (sig : Signal) (st st' : Driver) :
  stop_signal_handler sig st = Some st' -> same_globals st st'.
Proof.
  unfold stop_signal_handler. intros H.
  destruct HAVE_SIGACTION; simpl in H.
  - destruct (started st); simpl in H; [|injection H as <-; repeat split].
    destruct (router st) as [a|]; simpl in H; [|discriminate].
    destruct (heap st !! a) as [R|]; simpl in H; [|discriminate].
    injection H as <-. repeat split.
  - destruct (started st); simpl in H; [|injection H as <-; repeat split].
    destruct (router st) as [a|]; simpl in H; [|discriminate].
    destruct (heap st !! a) as [R|]; simpl in H; [|discriminate].
    injection H as <-. repeat split.
Qed.

Lemma deliver_signal_globals (sig : Signal) (st st' : Driver) :
  deliver_signal sig st = Some st' -> same_globals st st'.
Proof.
  unfold deliver_signal. intros H.
  destruct (sig_disposition st sig) as [| |[|] reset].
  - injection H as <-. repeat split.
  - injection H as <-. repeat split.
  - apply stop_signal_handler_globals in H.
    eapply same_globals_trans; [|exact H]. destruct reset; repeat split.
  - unfold ignore_signal_handler in H. injection H as <-.
    destruct HAVE_SIGACTION, reset; repeat split.
Qed.

Lemma driver_event_globals (cs : ControlSockets) (st st' : Driver) (ev : Event) :
  driver_event cs st ev = Some st' -> same_globals st st'.
Proof.
  unfold driver_event. intros H.
  destruct (terminated_by st); [injection H as <-; apply same_globals_refl|].
  destruct ev as [sig|name text errh|].
  - exact (deliver_signal_globals _ _ _ H).
  - unfold write_global_handler, call_write in H.
    destruct (global_handlers st !! name) as [h|];
      [|injection H as <-; apply same_globals_refl].
    destruct (write_visible h); [|injection H as <-; apply same_globals_refl].
    destruct (h_write_hook h) as [[|tag]|].
    + destruct (hotconfig_handler cs text errh st) as [[[rc e1] st1]|] eqn:Hh;
        simpl in H; [|discriminate].
      injection H as <-. exact (hotconfig_handler_globals _ _ _ _ _ _ _ Hh).
    + destruct (element_write_hook tag text errh).
      injection H as <-. apply same_globals_refl.
    + injection H as <-. apply same_globals_refl.
  - unfold run_hotswap_task in H.
    destruct (hotswap_task_scheduled st);
      [|injection H as <-; apply same_globals_refl].
    destruct (hotswap_hook _) as [[b st1]|] eqn:Hh; simpl in H; [|discriminate].
    injection H as <-. apply hotswap_hook_globals in Hh.
    eapply same_globals_trans; [|exact Hh]. repeat split.
Qed.

Lemma driver_run_globals (cs : ControlSockets) (evs : list Event) (st st' : Driver) :
  driver_run cs evs st = Some st' -> same_globals st st'.
Proof.
  revert st. induction evs as [|ev evs IH]; intros st; simpl.
  - intros [= <-]. apply same_globals_refl.
  - destruct (driver_event cs st ev) as [st1|] eqn:He; simpl; [|discriminate].
    intros H. eapply same_globals_trans;
      [exact (driver_event_globals _ _ _ _ He) | exact (IH _ H)].
Qed.

(** ** The hotconfig handler *)

(** Whether the command line leaves reconfiguration enabled: the last
    [--allow-reconfigure] or [--no-allow-reconfigure] decides. *)
Fixpoint reconfigure_requested (argv : list Clp_option) (enabled : bool) : bool :=
  match argv with
  | [] => enabled
  | ALLOW_RECONFIG_OPT negated :: rest => reconfigure_requested rest (negb negated)
  | _ :: rest => reconfigure_requested rest enabled
  end.

Lemma option_loop_allow_reconfigure (argv : list Clp_option) (o o' : Options)
    (eh eh' : Errh.t) :
  option_loop argv o eh = inl (o', eh') ->
  allow_reconfigure o' = reconfigure_requested argv (allow_reconfigure o).
Proof.
  revert o eh. induction argv as [|opt argv IH]; intros o eh; simpl.
  - intros [= <- _]. reflexivity.
  - destruct (option_step o eh opt) as [[o1 eh1]|] eqn:Hs; [|discriminate].
    intros H. rewrite (IH _ _ H). clear IH H.
    destruct opt; simpl in Hs; unfold router_file_case in Hs;
      repeat case_match; simplify_eq; reflexivity.
Qed.

(** A write of a configuration that parses and initializes: the handler
    returns 0 with the new router staged at a fresh address and the task
    scheduled, and the task then makes the new router the current one. *)
Lemma hotconfig_handler_accepts (cs : ControlSockets) (text : string)
    (errh : Errh.t) (st : Driver) (old : addr) (Rold R0 Rq : Router)
    (msgs msgs' : list string) (status : Z) :
  router st = Some old ->
  heap st !! old = Some Rold ->
  match hotswap_router st with
  | Some pending => pending <> old /\ is_Some (heap st !! pending)
  | None => True
  end ->
  click_read_router text true (r_master Rold) = (Some R0, msgs) ->
  Errh.nerrors (Errh.report msgs errh) = 0 ->
  Router_initialize
    (staged_router cs true
       (if RouterOps.is_initialized Rold then Some old else None) R0)
  = (status, Rq, msgs') ->
  0 <= status ->
  exists q st2 st3,
    hotconfig_handler cs text errh st
    = Some (0, Errh.report msgs' (Errh.report msgs errh), st2)
    /\ q <> old
    /\ heap st !! q = None
    /\ hotswap_task_scheduled st2 = true
    /\ hotswap_router st2 = Some q
    /\ router st2 = Some old
    /\ heap st2 !! q = Some Rq
    /\ run_hotswap_task st2 = Some st3
    /\ router st3 = Some q
    /\ heap st3 !! q
       = Some (RouterOps.set_refcount (r_refcount Rq + 1) (RouterOps.activate Rq))
    /\ hotswap_router st3 = None
    /\ hotswap_task_scheduled st3 = false.
Proof.
  intros Hr Hold Hpending Hparse Hnerr Hinit Hstatus.
  pose proof (fresh_not_live st) as Hfresh.
  set (q := fresh (dom (heap st))) in *.
  assert (Hqold : q <> old) by (intros ->; congruence).
  assert (Hst2 : exists hp,
    hotconfig_handler cs text errh st
    = Some (0, Errh.report msgs' (Errh.report msgs errh),
            upd_hotswap_task true
              (upd_hotswap_router (Some q) (upd_heap (fun _ => hp) st)))
    /\ hp !! q = Some Rq /\ hp !! old = Some Rold).
  { unfold hotconfig_handler.
    rewrite (parse_configuration_hotswap cs text errh st old Rold Hr Hold).
    rewrite Hparse. cbv zeta. cbn beta iota.
    replace (0 <? Errh.nerrors (Errh.report msgs errh)) with false
      by (symmetry; apply Z.ltb_ge; lia).
    rewrite Hinit.
    replace (status <? 0) with false by (symmetry; apply Z.ltb_ge; lia).
    fold q. cbn [mbind option_bind].
    destruct (hotswap_router st) as [p|] eqn:Hp.
    - destruct Hpending as [Hpold [Rp HRp]].
      assert (Hpq : p <> q) by (intros ->; congruence).
      cbn [hotswap_router upd_heap]. rewrite Hp.
      unfold Router_unuse. cbn [heap upd_heap].
      rewrite lookup_insert_ne, HRp by congruence. cbn [mbind option_bind].
      destruct (r_refcount Rp - 1 =? 0); cbn [mbind option_bind];
        eexists; (split; [reflexivity|]).
      + simpl. rewrite !lookup_delete_ne, lookup_insert_eq, lookup_insert_ne
          by congruence.
        auto.
      + simpl. rewrite (lookup_insert_ne _ p q), lookup_insert_eq by congruence.
        rewrite !lookup_insert_ne by congruence. auto.
    - cbn [hotswap_router upd_heap]. rewrite Hp. cbn [mbind option_bind].
      eexists. split; [reflexivity|]. simpl.
      rewrite lookup_insert_eq, lookup_insert_ne by congruence. auto. }
  destruct Hst2 as (hp & Hw & Hq & Ho).
  destruct (hotswap_hook_staged
              (upd_hotswap_task false
                 (upd_hotswap_task true
                    (upd_hotswap_router (Some q) (upd_heap (fun _ => hp) st))))
              old q Rold Rq) as (st3 & Hhook & H1 & H2 & H3 & _ & H5 & _);
    try done.
  exists q, (upd_hotswap_task true
               (upd_hotswap_router (Some q) (upd_heap (fun _ => hp) st))), st3.
  split; [exact Hw|].
  split; [exact Hqold|]. split; [exact Hfresh|].
  split; [reflexivity|]. split; [reflexivity|]. split; [exact Hr|].
  split; [exact Hq|].
  split.
  { unfold run_hotswap_task. cbn [hotswap_task_scheduled upd_hotswap_task].
    rewrite Hhook. reflexivity. }
  split; [exact H1|]. split; [exact H5|]. split; [exact H2|]. exact H3.
Qed.

(** C7: the router-scope [hotconfig] handler is registered if and only if
    the command line enabled reconfiguration; when registered it carries
    the write, [raw] and [nonexclusive] flag bits and its write function is
    [hotconfig_handler]; a write to it triggers the hot-swap: whenever the
    driver runs a router and the text written parses and initializes, the
    write returns 0 with the new router staged at a fresh address beside
    the running one and the hot-swap task scheduled, and when the task runs
    the new router is activated and becomes the driver's current router.
    The registration is still there once the configuration is
    installed. *)
Theorem hotconfig_registered_iff_enabled (builtin : gmap string Handler)
    (argv : list Clp_option) (o : Options) (eh : Errh.t) :
  builtin !! "hotconfig" = None ->
  option_loop argv default_options Errh.empty = inl (o, eh) ->
  let st := provide_hotconfig o (initial_driver builtin) in
  (is_Some (global_handlers st !! "hotconfig")
   <-> reconfigure_requested argv false = true)
  /\ (forall h, global_handlers st !! "hotconfig" = Some h ->
        Z.land (h_flags h) OP_WRITE = OP_WRITE
        /\ Z.land (h_flags h) RAW = RAW
        /\ Z.land (h_flags h) NONEXCLUSIVE = NONEXCLUSIVE
        /\ (forall cs text errh st',
              call_write cs h text errh st' = hotconfig_handler cs text errh st')
        /\ (OP_WRITE <> 0 ->
            forall cs text errh st',
              global_handlers st' !! "hotconfig" = Some h ->
              write_global_handler cs "hotconfig" text errh st'
              = call_write cs h text errh st')
        /\ (forall cs text errh st1 old Rold R0 Rq msgs msgs' status,
              router st1 = Some old ->
              heap st1 !! old = Some Rold ->
              match hotswap_router st1 with
              | Some pending => pending <> old /\ is_Some (heap st1 !! pending)
              | None => True
              end ->
              click_read_router text true (r_master Rold) = (Some R0, msgs) ->
              Errh.nerrors (Errh.report msgs errh) = 0 ->
              Router_initialize
                (staged_router cs true
                   (if RouterOps.is_initialized Rold then Some old else None) R0)
              = (status, Rq, msgs') ->
              0 <= status ->
              exists q st2 st3,
                call_write cs h text errh st1
                = Some (0, Errh.report msgs' (Errh.report msgs errh), st2)
                /\ q <> old
                /\ heap st1 !! q = None
                /\ hotswap_task_scheduled st2 = true
                /\ hotswap_router st2 = Some q
                /\ router st2 = Some old
                /\ heap st2 !! q = Some Rq
                /\ run_hotswap_task st2 = Some st3
                /\ router st3 = Some q
                /\ heap st3 !! q
                   = Some (RouterOps.set_refcount (r_refcount Rq + 1)
                                                  (RouterOps.activate Rq))
                /\ r_state (RouterOps.activate Rq) = running
                /\ hotswap_router st3 = None
                /\ hotswap_task_scheduled st3 = false))
  /\ (forall eh' st', main_install o eh (initial_driver builtin) = Some (inl (eh', st')) ->
        global_handlers st' = global_handlers st).
Proof.
  intros Hb Hloop st.
  pose proof (option_loop_allow_reconfigure _ _ _ _ _ Hloop) as Hallow.
  simpl in Hallow. rewrite <- Hallow.
  subst st. unfold provide_hotconfig, add_write_handler.
  split; [|split].
  - destruct (allow_reconfigure o); simpl.
    + rewrite lookup_insert_eq. split; [reflexivity | eauto].
    + rewrite Hb. split; [intros [? ?]; discriminate | discriminate].
  - intros h. destruct (allow_reconfigure o); simpl; [|congruence].
    rewrite lookup_insert_eq. intros [= <-]. simpl.
    repeat split.
    + apply Z.bits_inj'. intros n _.
      rewrite Z.land_spec, !Z.lor_spec.
      destruct (Z.testbit OP_WRITE n), (Z.testbit RAW n),
               (Z.testbit NONEXCLUSIVE n); reflexivity.
    + apply Z.bits_inj'. intros n _.
      rewrite Z.land_spec, !Z.lor_spec.
      destruct (Z.testbit OP_WRITE n), (Z.testbit RAW n),
               (Z.testbit NONEXCLUSIVE n); reflexivity.
    + apply Z.bits_inj'. intros n _.
      rewrite Z.land_spec, !Z.lor_spec.
      destruct (Z.testbit OP_WRITE n), (Z.testbit RAW n),
               (Z.testbit NONEXCLUSIVE n); reflexivity.
    + intros Hw cs text errh st' Hreg.
      unfold write_global_handler. rewrite Hreg.
      unfold write_visible, flag_set. cbn [h_flags].
      replace (Z.land (Z.lor OP_WRITE (Z.lor RAW NONEXCLUSIVE)) OP_WRITE)
        with OP_WRITE.
      * apply Z.eqb_neq in Hw. rewrite Hw. reflexivity.
      * apply Z.bits_inj'. intros n _.
        rewrite Z.land_spec, !Z.lor_spec.
        destruct (Z.testbit OP_WRITE n), (Z.testbit RAW n),
                 (Z.testbit NONEXCLUSIVE n); reflexivity.
    + intros cs text errh st1 old Rold R0 Rq msgs msgs' status
        Hr Hold Hpending Hparse Hnerr Hinit Hstatus.
      destruct (hotconfig_handler_accepts cs text errh st1 old Rold R0 Rq
                  msgs msgs' status Hr Hold Hpending Hparse Hnerr Hinit Hstatus)
        as (q & st2 & st3 & H1 & H2 & H3 & H4 & H5 & H6 & H7 & H8 & H9 & H10
            & H11 & H12).
      exists q, st2, st3. unfold call_write. cbn [h_write_hook].
      repeat (split; [assumption|]).
      split; [reflexivity|]. split; assumption.
  - intros eh' st' Hi. unfold main_install in Hi.
    fold (provide_hotconfig o (initial_driver builtin)) in Hi.
    destruct (parse_configuration _ _ _ _ _ _) as [[[r e1] st2]|] eqn:Hp;
      simpl in Hi; [|discriminate].
    destruct r as [r|]; [|discriminate].
    destruct (Router_use r _) as [st3|] eqn:Hu; simpl in Hi; [|discriminate].
    injection Hi as _ <-.
    apply Router_use_globals in Hu. destruct Hu as [Hu _]. rewrite Hu. simpl.
    apply parse_configuration_global_handlers in Hp. apply Hp.
Qed.

(** ** Signals *)

Lemma install_signal_handlers_upd_heap
    (f : gmap addr Router -> gmap addr Router) (st : Driver) :
  install_signal_handlers (upd_heap f st)
  = upd_heap f (install_signal_handlers st).
Proof. unfold install_signal_handlers. destruct HAVE_MULTITHREAD; reflexivity. Qed.

Lemma upd_heap_ext (f g : gmap addr Router -> gmap addr Router) (st : Driver) :
  f (heap st) = g (heap st) -> upd_heap f st = upd_heap g st.
Proof. unfold upd_heap. intros ->. reflexivity. Qed.

(** The first installation: no router is installed yet, the parser and the
    initialization succeed. The new router is stored at a fresh address and
    the signal handlers are installed. *)
Lemma parse_configuration_first (cs : ControlSockets) (text : string)
    (text_is_expr : bool) (errh errh' : Errh.t) (st st' : Driver) (r : addr) :
  router st = None ->
  parse_configuration cs text text_is_expr false errh st = Some (Some r, errh', st') ->
  exists R',
    st' = upd_heap <[r := R']>
            (install_signal_handlers (upd_nmasters (S (nmasters st)) st)).
Proof.
  intros Hr H.
  unfold parse_configuration in H. rewrite Hr in H.
  cbn [mbind option_bind negb] in H.
  destruct (click_read_router text text_is_expr (nmasters st)) as [[R0|] msgs];
    [|discriminate].
  rewrite !install_signal_handlers_upd_heap in H.
  cbn [mbind option_bind negb] in H.
  destruct (0 <? Errh.nerrors (Errh.report msgs errh)); [discriminate|].
  destruct (heap _ !! fresh _) as [Rr|]; cbn [mbind option_bind] in H;
    [|discriminate].
  destruct (Router_initialize Rr) as [[status R'] msgs'].
  destruct (status <? 0); [discriminate|].
  injection H as <- _ <-. exists R'.
  set (st0 := install_signal_handlers (upd_nmasters (S (nmasters st)) st)).
  apply (upd_heap_ext
           (fun hp => <[_ := R']> (alter _ _ (alter _ _ (<[_ := R0]> hp))))
           <[_ := R']> st0).
  now rewrite !alter_insert_eq, insert_insert_eq.
Qed.

(** The signal handlers [parse_configuration] installs. *)
Definition installed_handlers : list (Signal * Disposition) :=
  [(SIGINT, SIG_CATCH fn_stop_signal_handler true);
   (SIGTERM, SIG_CATCH fn_stop_signal_handler true);
   (SIGPIPE, SIG_IGN)]
  ++ (if HAVE_MULTITHREAD
      then [(SIGIO, SIG_CATCH fn_ignore_signal_handler false)] else []).

Lemma install_signal_handlers_spec (st : Driver) :
  let st' := install_signal_handlers st in
  sig_disposition st' SIGINT = SIG_CATCH fn_stop_signal_handler true
  /\ sig_disposition st' SIGTERM = SIG_CATCH fn_stop_signal_handler true
  /\ sig_disposition st' SIGPIPE = SIG_IGN
  /\ click_signal_calls st' = click_signal_calls st ++ installed_handlers
  /\ router st' = router st
  /\ started st' = started st.
Proof.
  unfold install_signal_handlers, installed_handlers.
  destruct HAVE_MULTITHREAD; simpl; rewrite <- ?app_assoc; repeat split.
Qed.

(** [started = true] writes that variable only. *)
Lemma upd_started_frame (b : bool) (st : Driver) :
  started (upd_started b st) = b
  /\ router (upd_started b st) = router st
  /\ heap (upd_started b st) = heap st
  /\ sig_disposition (upd_started b st) = sig_disposition st.
Proof. repeat split. Qed.

(** A stop signal caught while the driver runs. *)
Lemma deliver_stop_signal (sig : Signal) (st : Driver) (reset : bool)
    (a : addr) (R : Router) :
  sig_disposition st sig = SIG_CATCH fn_stop_signal_handler reset ->
  started st = true ->
  router st = Some a ->
  heap st !! a = Some R ->
  exists st',
    deliver_signal sig st = Some st'
    /\ router st' = Some a
    /\ heap st' !! a = Some (RouterOps.set_runcount STOP_RUNCOUNT R).
Proof.
  intros Hd Hs Hr Ha. unfold deliver_signal, stop_signal_handler. rewrite Hd.
  destruct reset, HAVE_SIGACTION; simpl; rewrite Hs, Hr; simpl; rewrite Ha; simpl;
    (eexists; split; [reflexivity|]); simpl; rewrite lookup_insert_eq; auto.
Qed.

(** A stop signal caught before the driver runs: the process sends itself
    the signal again and no router is touched. *)
Lemma deliver_stop_signal_early (sig : Signal) (st : Driver) (reset : bool) :
  sig_disposition st sig = SIG_CATCH fn_stop_signal_handler reset ->
  started st = false ->
  exists st',
    deliver_signal sig st = Some st'
    /\ self_signals st' = self_signals st ++ [sig]
    /\ heap st' = heap st.
Proof.
  intros Hd Hs. unfold deliver_signal, stop_signal_handler. rewrite Hd.
  destruct reset, HAVE_SIGACTION; simpl; rewrite Hs; simpl;
    (eexists; split; [reflexivity|]); auto.
Qed.

(** C8: once the first router is installed, the interrupt and terminate
    signals are caught by [stop_signal_handler] and broken-pipe is ignored;
    while these actions are in place, delivering an interrupt or terminate
    signal once the driver has started running sets the runcount of the
    router that is current at that moment to STOP_RUNCOUNT (before the
    driver has started, the handler sends the signal again instead), and a
    broken-pipe signal changes nothing; the handlers were installed by
    exactly one [click_signal] call each, at this first installation, and
    whatever happens while the driver runs, hot-swap installations
    included, no further [click_signal] call is made. *)
Theorem signal_handlers_installed_once (builtin : gmap string Handler)
    (o : Options) (eh eh' : Errh.t) (st : Driver) :
  main_install o eh (initial_driver builtin) = Some (inl (eh', st)) ->
  (sig_disposition st SIGINT = SIG_CATCH fn_stop_signal_handler true
   /\ sig_disposition st SIGTERM = SIG_CATCH fn_stop_signal_handler true
   /\ sig_disposition st SIGPIPE = SIG_IGN)
  /\ click_signal_calls st = installed_handlers
  /\ (exists a R, router st = Some a /\ heap st !! a = Some R)
  /\ (forall sig s a R,
        sig = SIGINT \/ sig = SIGTERM ->
        sig_disposition s sig = sig_disposition st sig ->
        started s = true ->
        router s = Some a ->
        heap s !! a = Some R ->
        exists s',
          deliver_signal sig s = Some s'
          /\ router s' = Some a
          /\ heap s' !! a = Some (RouterOps.set_runcount STOP_RUNCOUNT R)
          /\ r_runcount (RouterOps.set_runcount STOP_RUNCOUNT R) = STOP_RUNCOUNT)
  /\ (forall sig s,
        sig = SIGINT \/ sig = SIGTERM ->
        sig_disposition s sig = sig_disposition st sig ->
        started s = false ->
        exists s',
          deliver_signal sig s = Some s'
          /\ self_signals s' = self_signals s ++ [sig]
          /\ heap s' = heap s)
  /\ (forall s,
        sig_disposition s SIGPIPE = sig_disposition st SIGPIPE ->
        deliver_signal SIGPIPE s = Some s)
  /\ (forall cs events st',
        driver_run cs events (upd_started true st) = Some st' ->
        click_signal_calls st' = installed_handlers).
Proof.
  intros Hi. unfold main_install in Hi.
  destruct (parse_configuration _ _ _ _ _ _) as [[[r e1] st2]|] eqn:Hp;
    cbn [mbind option_bind] in Hi; [|discriminate].
  destruct r as [r|]; [|discriminate].
  assert (Hnone : router (provide_hotconfig o (initial_driver builtin)) = None)
    by (unfold provide_hotconfig; destruct (allow_reconfigure o); reflexivity).
  assert (Hempty : click_signal_calls (provide_hotconfig o (initial_driver builtin)) = [])
    by (unfold provide_hotconfig; destruct (allow_reconfigure o); reflexivity).
  apply parse_configuration_first in Hp; [|exact Hnone].
  destruct Hp as [R' ->].
  set (st0 := upd_nmasters _ _) in *.
  destruct (install_signal_handlers_spec st0)
    as (Hint & Hterm & Hpipe & Hlog & _ & _).
  cbv zeta in Hint, Hterm, Hpipe, Hlog.
  assert (Hlog' : click_signal_calls (install_signal_handlers st0)
                  = installed_handlers)
    by (rewrite Hlog; unfold st0; simpl; now rewrite Hempty).
  set (st1 := install_signal_handlers st0) in *.
  unfold Router_use in Hi. cbn [heap upd_heap upd_router] in Hi.
  rewrite lookup_insert_eq in Hi. cbn [mbind option_bind] in Hi.
  injection Hi as _ <-.
  assert (Hstop : forall sig, sig = SIGINT \/ sig = SIGTERM ->
            sig_disposition st1 sig = SIG_CATCH fn_stop_signal_handler true)
    by (intros sig [-> | ->]; assumption).
  split; [|split; [|split; [|split; [|split; [|split]]]]].
  - simpl. auto.
  - exact Hlog'.
  - eexists r, _. simpl. rewrite lookup_insert_eq. auto.
  - intros sig s a R Hsig Hd Hs Hr Ha. simpl in Hd. rewrite (Hstop sig Hsig) in Hd.
    destruct (deliver_stop_signal sig s true a R Hd Hs Hr Ha)
      as (s' & Hdel & Hr' & Hh').
    exists s'. auto.
  - intros sig s Hsig Hd Hs. simpl in Hd. rewrite (Hstop sig Hsig) in Hd.
    exact (deliver_stop_signal_early sig s true Hd Hs).
  - intros s Hd. simpl in Hd. rewrite Hpipe in Hd.
    unfold deliver_signal. now rewrite Hd.
  - intros cs events st' Hrun.
    apply driver_run_globals in Hrun. destruct Hrun as (_ & -> & _).
    exact Hlog'.
Qed.

(** * Further properties of the driver *)

(** ** The command line *)

Fixpoint string_forallb (p : ascii -> bool) (s : string) : bool :=
  match s with
  | EmptyString => true
  | String c rest => p c && string_forallb p rest
  end.

(** The characters a parameter name is made of. *)
Definition name_char (c : ascii) : bool := isalnum c || Ascii.eqb c "_".

Lemma name_char_not_equals (c : ascii) : name_char c = true -> Ascii.eqb c "=" = false.
Proof.
  destruct (Ascii.eqb c "=") eqn:E; [|reflexivity].
  apply Ascii.eqb_eq in E. subst c. vm_compute. discriminate.
Qed.

Lemma nonempty_append (s t : string) :
  Str.nonempty (s +:+ t) = Str.nonempty s || Str.nonempty t.
Proof. destruct s; [reflexivity|]. reflexivity. Qed.

Lemma scan_parameter_Some (s acc n v : string) :
  scan_parameter acc s = Some (n, v) <->
  exists n', n = acc +:+ n' /\ s = n' +:+ String "=" v
             /\ string_forallb name_char n' = true /\ Str.nonempty n = true.
Proof.
  revert acc. induction s as [|c s IH]; intros acc; simpl.
  - split; [discriminate|].
    intros (n' & _ & Hs & _). destruct n'; discriminate.
  - destruct (Ascii.eqb c "=" && Str.nonempty acc) eqn:E1.
    + apply andb_true_iff in E1 as [Hc Hacc]. apply Ascii.eqb_eq in Hc. subst c.
      split.
      * intros [= <- <-]. exists "". rewrite append_empty_r. auto.
      * intros (n' & -> & Hs & Hall & _). destruct n' as [|a n'].
        -- rewrite append_nil_l in Hs. injection Hs as <-.
           now rewrite append_empty_r.
        -- rewrite append_cons in Hs. injection Hs as <- _.
           simpl in Hall. discriminate.
    + rewrite <- negb_orb. fold (name_char c).
      destruct (name_char c) eqn:E2; simpl.
      * rewrite IH. split.
        -- intros (n' & -> & -> & Hall & Hne). exists (String c n').
           rewrite append_assoc in *. simpl. rewrite E2. auto.
        -- intros (n' & -> & Hs & Hall & Hne). destruct n' as [|a n'].
           ++ rewrite append_nil_l in Hs. injection Hs as -> _.
              rewrite append_empty_r in Hne. rewrite Hne in E1. discriminate.
           ++ rewrite append_cons in Hs. injection Hs as <- ->.
              simpl in Hall. apply andb_true_iff in Hall as [_ Hall].
              exists n'. rewrite append_assoc. auto.
      * split; [discriminate|].
        intros (n' & -> & Hs & Hall & Hne). destruct n' as [|a n'].
        -- rewrite append_nil_l in Hs. injection Hs as -> _.
           rewrite append_empty_r in Hne. rewrite Hne in E1. discriminate.
        -- rewrite append_cons in Hs. injection Hs as <- _.
           simpl in Hall. rewrite E2 in Hall. discriminate.
Qed.

(** X1: a non-option argument is taken as a parameter definition exactly
    when it reads NAME=VALUE with NAME a non-empty run of letters, digits
    and underscores; the name is the text before the first equals sign and
    the value is everything after it. *)
Theorem scan_parameter_spec (s name value : string) :
  scan_parameter "" s = Some (name, value) <->
  s = name +:+ String "=" value
  /\ Str.nonempty name = true
  /\ string_forallb name_char name = true.
Proof.
  rewrite scan_parameter_Some. split.
  - intros (n' & -> & -> & Hall & Hne). rewrite append_nil_l in *. auto.
  - intros (-> & Hne & Hall). exists name. rewrite append_nil_l. auto.
Qed.


(** Case analysis of one turn of the option loop that went on. *)
Ltac option_step_cases H :=
  simpl in H; unfold router_file_case in H;
  repeat case_match; simplify_eq.

(** The [-h] requests of a command line, in its order; likewise the Unix
    sockets. *)
Definition handler_requests (argv : list Clp_option) : list string :=
  omap (fun opt => match opt with HANDLER_OPT v => Some v | _ => None end) argv.

Definition unix_socket_requests (argv : list Clp_option) : list string :=
  omap (fun opt => match opt with UNIX_SOCKET_OPT v => Some v | _ => None end) argv.

(** X2: when the option loop runs to the end, the handlers to call are
    those already there followed by the values of the handler options in
    command-line order, and the Unix control sockets likewise: no request
    is dropped, repeated or reordered by the other options. *)
Theorem option_loop_requests (argv : list Clp_option) (o o' : Options)
    (eh eh' : Errh.t) :
  option_loop argv o eh = inl (o', eh') ->
  handlers o' = handlers o ++ handler_requests argv
  /\ cs_unix_sockets (sockets o')
     = cs_unix_sockets (sockets o) ++ unix_socket_requests argv.
Proof.
  revert o eh. induction argv as [|opt argv IH]; intros o eh; simpl.
  - intros [= <- _]. now rewrite !app_nil_r.
  - destruct (option_step o eh opt) as [[o1 eh1]|] eqn:Hs; [|discriminate].
    intros H. destruct (IH _ _ H) as [-> ->]. clear IH H.
    unfold handler_requests, unix_socket_requests.
    destruct opt; option_step_cases Hs; simpl;
      rewrite <- ?app_assoc; auto.
Qed.

(** What an option says about the router configuration, if anything: the
    file or expression, and whether it is an expression. *)
Definition router_spec (opt : Clp_option) : option (string * bool) :=
  match opt with
  | ROUTER_OPT v => Some (v, false)
  | EXPRESSION_OPT v => Some (v, true)
  | Clp_NotOption v =>
      match scan_parameter "" v with
      | Some _ => None
      | None => Some (v, false)
      end
  | _ => None
  end.

Lemma option_step_router_file (o o1 : Options) (eh eh1 : Errh.t) (opt : Clp_option) :
  option_step o eh opt = inl (o1, eh1) ->
  match router_spec opt with
  | Some (f, e) =>
      router_file o = None /\ router_file o1 = Some f /\ file_is_expr o1 = e
  | None => router_file o1 = router_file o /\ file_is_expr o1 = file_is_expr o
  end.
Proof.
  intros Hs. unfold router_spec.
  destruct opt; option_step_cases Hs; simpl; auto.
Qed.

(** X3: the router configuration can be given once. When the option loop
    runs to the end from a state without a configuration, the command line
    held at most one file, expression or plain argument naming it, and that
    one is what [router_file] and [file_is_expr] record; an option naming a
    configuration when one is recorded ends the program with status 1 and
    the error "router configuration specified twice". *)
Theorem option_loop_router_file (argv : list Clp_option) (o o' : Options)
    (eh eh' : Errh.t) :
  router_file o = None ->
  option_loop argv o eh = inl (o', eh') ->
  omap router_spec argv
  = match router_file o' with
    | Some f => [(f, file_is_expr o')]
    | None => []
    end
  /\ forall opt eh2,
       is_Some (router_file o') ->
       is_Some (router_spec opt) ->
       option_step o' eh2 opt
       = inr (1, Errh.mk (Errh.errors eh2 ++ ["router configuration specified twice"])
                         (Errh.warnings eh2)).
Proof.
  intros Hnone Hloop. split.
  - assert (Hset : forall argv o eh,
              is_Some (router_file o) ->
              option_loop argv o eh = inl (o', eh') ->
              omap router_spec argv = []
              /\ router_file o' = router_file o
              /\ file_is_expr o' = file_is_expr o).
    { clear. intros argv. induction argv as [|opt argv IH]; intros o eh Hsome; cbn [option_loop].
      - intros [= <- _]. auto.
      - destruct (option_step o eh opt) as [[o1 eh1]|] eqn:Hs; [|discriminate].
        intros H. apply option_step_router_file in Hs.
        change (omap router_spec (opt :: argv))
          with (match router_spec opt with
                | Some y => y :: omap router_spec argv
                | None => omap router_spec argv
                end).
        destruct (router_spec opt) as [[f e]|].
        + destruct Hs as (Hn & _). rewrite Hn in Hsome. destruct Hsome. discriminate.
        + destruct Hs as [Hf He]. rewrite <- Hf in Hsome.
          destruct (IH _ _ Hsome H) as (-> & -> & ->). auto. }
    revert o eh Hnone Hloop.
    induction argv as [|opt argv IH]; intros o eh Hnone; cbn [option_loop].
    + intros [= <- _]. now rewrite Hnone.
    + destruct (option_step o eh opt) as [[o1 eh1]|] eqn:Hs; [|discriminate].
      intros H. apply option_step_router_file in Hs.
      change (omap router_spec (opt :: argv))
        with (match router_spec opt with
              | Some y => y :: omap router_spec argv
              | None => omap router_spec argv
              end).
      destruct (router_spec opt) as [[f e]|].
      * destruct Hs as (_ & Hf & He).
        destruct (Hset argv o1 eh1) as (-> & -> & ->); [rewrite Hf; eauto | exact H|].
        rewrite Hf, He. reflexivity.
      * destruct Hs as [Hf He]. rewrite Hnone in Hf. exact (IH _ _ Hf H).
  - intros opt eh2 [f Hf] [spec Hspec]. unfold router_spec in Hspec.
    destruct opt; simpl in Hspec |- *; try discriminate;
      unfold router_file_case; rewrite ?Hf; try reflexivity.
    destruct (scan_parameter "" vstr) as [[n v]|]; [discriminate|].
    reflexivity.
Qed.

(** The values of the thread options of a command line, in its order. *)
Definition thread_requests (argv : list Clp_option) : list Z :=
  omap (fun opt => match opt with THREADS_OPT i => Some i | _ => None end) argv.

(** X4: when the option loop runs to the end, the number of threads is the
    value of the last thread option, raised to 1 when it is lower; without
    such an option it is what it was.  So it never goes below 1. *)
Theorem option_loop_nthreads (argv : list Clp_option) (o o' : Options)
    (eh eh' : Errh.t) :
  option_loop argv o eh = inl (o', eh') ->
  nthreads o' = match last (thread_requests argv) with
                | Some i => Z.max 1 i
                | None => nthreads o
                end
  /\ (1 <= nthreads o -> 1 <= nthreads o').
Proof.
  intros H.
  assert (Heq : nthreads o' = match last (thread_requests argv) with
                              | Some i => Z.max 1 i
                              | None => nthreads o
                              end).
  { revert o eh H. induction argv as [|opt argv IH]; intros o eh; cbn [option_loop].
    - now intros [= <- _].
    - destruct (option_step o eh opt) as [[o1 eh1]|] eqn:Hs; [|discriminate].
      intros H. rewrite (IH _ _ H). clear IH H.
      assert (Hstep : nthreads o1 = match opt with
                                    | THREADS_OPT i => Z.max 1 i
                                    | _ => nthreads o
                                    end).
      { destruct opt; simpl; option_step_cases Hs; simpl; try reflexivity; lia. }
      rewrite Hstep. clear Hs Hstep.
      destruct opt; try reflexivity.
      match goal with
      | |- context [thread_requests (THREADS_OPT ?i :: argv)] =>
          change (thread_requests (THREADS_OPT i :: argv))
            with (i :: thread_requests argv)
      end.
      rewrite last_cons. destruct (last (thread_requests argv)); reflexivity. }
  split; [exact Heq|].
  intros Hn. rewrite Heq. destruct (last (thread_requests argv)); lia.
Qed.


(** ** The running driver never follows a dead pointer *)

(** The pointers of the driver are sound: [router] points to a live router,
    a staged [hotswap_router] points to another live router, and the
    hot-swap task is only scheduled while a router is staged. *)
Definition driver_wf (st : Driver) : Prop :=
  exists a,
    router st = Some a
    /\ is_Some (heap st !! a)
    /\ match hotswap_router st with
       | Some p => p <> a /\ is_Some (heap st !! p)
       | None => hotswap_task_scheduled st = false
       end.

Lemma driver_wf_upd_started (b : bool) (st : Driver) :
  driver_wf st -> driver_wf (upd_started b st).
Proof. intros H. exact H. Qed.

Lemma hotconfig_handler_wf (cs : ControlSockets) (text : string) (errh : Errh.t)
    (st : Driver) :
  driver_wf st ->
  exists rc errh' st',
    hotconfig_handler cs text errh st = Some (rc, errh', st')
    /\ driver_wf st' /\ nmasters st' = nmasters st
    /\ terminated_by st' = terminated_by st
    /\ sig_disposition st' = sig_disposition st.
Proof.
  intros Hwf. pose proof Hwf as (a & Hr & [Ra Ha] & Hp).
  unfold hotconfig_handler.
  rewrite (parse_configuration_hotswap cs text errh st a Ra Hr Ha).
  pose proof (fresh_not_live st) as Hfresh.
  set (q := fresh (dom (heap st))) in *.
  assert (Hqa : q <> a) by (intros ->; congruence).
  destruct (click_read_router text true (r_master Ra)) as [[R0|] msgs];
    simpl; [|eauto 14].
  destruct (0 <? Errh.nerrors (Errh.report msgs errh)); simpl; [eauto 14|].
  destruct (Router_initialize _) as [[status Rq] msgs'].
  destruct (status <? 0); simpl; [eauto 14|].
  destruct (hotswap_router st) as [p|] eqn:Hhp.
  - destruct Hp as [Hpa [Rp HRp]].
    assert (Hpq : p <> q) by (intros ->; congruence).
    unfold Router_unuse. simpl.
    rewrite lookup_insert_ne, HRp by congruence. simpl.
    destruct (r_refcount Rp - 1 =? 0); simpl;
      (eexists _, _, _; split; [reflexivity|]);
      (split; [|repeat split; reflexivity]);
      exists a; simpl; (split; [exact Hr|]).
    + rewrite !lookup_delete_ne, lookup_insert_ne, lookup_insert_eq by congruence.
      rewrite Ha. eauto.
    + rewrite (lookup_insert_ne _ p a), (lookup_insert_ne _ q a) by congruence.
      rewrite (lookup_insert_ne _ p q), lookup_insert_eq by congruence.
      rewrite Ha. eauto.
  - simpl. eexists _, _, _. split; [reflexivity|].
    split; [|repeat split; reflexivity].
    exists a. simpl. split; [exact Hr|].
    rewrite lookup_insert_ne, lookup_insert_eq, Ha by congruence. eauto.
Qed.

Lemma run_hotswap_task_wf (st : Driver) :
  driver_wf st ->
  exists st',
    run_hotswap_task st = Some st'
    /\ driver_wf st' /\ nmasters st' = nmasters st
    /\ terminated_by st' = terminated_by st
    /\ sig_disposition st' = sig_disposition st.
Proof.
  intros Hwf. pose proof Hwf as (a & Hr & [Ra Ha] & Hp).
  unfold run_hotswap_task.
  destruct (hotswap_task_scheduled st) eqn:Hts; [|eauto 10].
  destruct (hotswap_router st) as [q|] eqn:Hq; [|congruence].
  destruct Hp as [Hqa [Rq HRq]].
  assert (Hhook : exists st2,
    hotswap_hook (upd_hotswap_task false st) = Some (true, st2)
    /\ router st2 = Some q /\ hotswap_router st2 = None
    /\ hotswap_task_scheduled st2 = false
    /\ is_Some (heap st2 !! q)
    /\ nmasters st2 = nmasters st /\ terminated_by st2 = terminated_by st
    /\ sig_disposition st2 = sig_disposition st).
  { unfold hotswap_hook, Router_unuse, Router_use. simpl.
    rewrite Hq. simpl. rewrite HRq. simpl. rewrite Hr. simpl.
    rewrite (lookup_insert_ne _ q a), Ha by congruence. simpl.
    destruct (r_refcount Ra - 1 =? 0); simpl; rewrite Hq; simpl.
    - rewrite lookup_delete_ne, lookup_insert_eq by congruence. simpl.
      eexists. split; [reflexivity|]. simpl.
      rewrite lookup_insert_eq. eauto 14.
    - rewrite lookup_insert_ne, lookup_insert_eq by congruence. simpl.
      eexists. split; [reflexivity|]. simpl.
      rewrite lookup_insert_eq. eauto 14. }
  destruct Hhook as (st2 & -> & Hr2 & Hh2 & Ht2 & Hl2 & Hn2 & Htb2 & Hsd2). simpl.
  exists st2. split; [reflexivity|]. split; [|auto].
  exists q. rewrite Hh2. auto.
Qed.

Lemma deliver_signal_wf (sig : Signal) (st : Driver) :
  driver_wf st ->
  exists st',
    deliver_signal sig st = Some st'
    /\ driver_wf st' /\ nmasters st' = nmasters st.
Proof.
  intros Hwf. pose proof Hwf as (a & Hr & [Ra Ha] & Hp).
  assert (Hdisp : forall s d, driver_wf (upd_disposition s d st)
                              /\ nmasters (upd_disposition s d st) = nmasters st)
    by (intros; split; [exact Hwf | reflexivity]).
  assert (Hstop : forall st0,
            router st0 = router st -> heap st0 = heap st ->
            hotswap_router st0 = hotswap_router st ->
            hotswap_task_scheduled st0 = hotswap_task_scheduled st ->
            nmasters st0 = nmasters st ->
            exists st', stop_signal_handler sig st0 = Some st'
                        /\ driver_wf st' /\ nmasters st' = nmasters st).
  { intros st0 H1 H2 H3 H4 H5. unfold stop_signal_handler.
    assert (Hgoal : forall st1,
              router st1 = router st -> heap st1 = heap st ->
              hotswap_router st1 = hotswap_router st ->
              hotswap_task_scheduled st1 = hotswap_task_scheduled st ->
              nmasters st1 = nmasters st ->
              exists st',
                (if negb (started st1)
                 then Some (upd_self_signals (self_signals st1 ++ [sig]) st1)
                 else router st1 ≫= λ a0, heap st1 !! a0 ≫= λ R,
                        Some (upd_heap <[a0:=RouterOps.set_runcount STOP_RUNCOUNT R]> st1))
                = Some st'
                /\ driver_wf st' /\ nmasters st' = nmasters st).
    { intros st1 G1 G2 G3 G4 G5. destruct (started st1); simpl.
      - rewrite G1, Hr. simpl. rewrite G2, Ha. simpl.
        eexists. split; [reflexivity|]. split; [|exact G5].
        exists a. simpl. rewrite G1, G2, G3, G4, lookup_insert_eq.
        split; [exact Hr|]. split; [eauto|].
        destruct (hotswap_router st) as [p|]; [|exact Hp].
        destruct Hp as [Hpa Hlive]. split; [exact Hpa|].
        now rewrite lookup_insert_ne by congruence.
      - eexists. split; [reflexivity|]. split; [|exact G5].
        exists a. simpl. rewrite G1, G2, G3, G4. auto. }
    destruct HAVE_SIGACTION; apply Hgoal; assumption. }
  unfold deliver_signal.
  destruct (sig_disposition st sig) as [| |[|] reset].
  - eexists. split; [reflexivity|]. split; [exact Hwf | reflexivity].
  - eauto.
  - destruct reset; apply Hstop; reflexivity.
  - eexists. split; [reflexivity|]. unfold ignore_signal_handler.
    destruct HAVE_SIGACTION, reset; split; (exact Hwf || reflexivity).
Qed.

Lemma driver_event_wf (cs : ControlSockets) (st : Driver) (ev : Event) :
  driver_wf st ->
  exists st',
    driver_event cs st ev = Some st'
    /\ driver_wf st' /\ nmasters st' = nmasters st.
Proof.
  intros Hwf. unfold driver_event.
  destruct (terminated_by st); [eauto|].
  destruct ev as [sig|name text errh|].
  - apply deliver_signal_wf, Hwf.
  - unfold write_global_handler, call_write.
    destruct (global_handlers st !! name) as [h|]; simpl; [|eauto].
    destruct (write_visible h); simpl; [|eauto].
    destruct (h_write_hook h) as [[|tag]|]; simpl; [| |eauto].
    + destruct (hotconfig_handler_wf cs text errh st Hwf)
        as (rc & errh' & st' & -> & Hwf' & Hn & _).
      simpl. eauto.
    + destruct (element_write_hook tag text errh). simpl. eauto.
  - destruct (run_hotswap_task_wf st Hwf) as (st' & -> & Hwf' & Hn & _). eauto.
Qed.

Lemma driver_run_wf (cs : ControlSockets) (events : list Event) (st : Driver) :
  driver_wf st ->
  exists st',
    driver_run cs events st = Some st'
    /\ driver_wf st'
    /\ nmasters st' = nmasters st.
Proof.
  revert st. induction events as [|ev events IH]; intros st Hwf; simpl.
  - eauto.
  - destruct (driver_event_wf cs st ev Hwf) as (st1 & -> & Hwf1 & Hn1). simpl.
    destruct (IH st1 Hwf1) as (st' & -> & Hwf' & Hn').
    exists st'. split; [reflexivity|]. split; [exact Hwf' | congruence].
Qed.



(** ** The stop handler is installed for one delivery *)

Lemma deliver_signal_other (sig s' : Signal) (st st' : Driver) :
  s' <> sig ->
  deliver_signal s' st = Some st' ->
  sig_disposition st' sig = sig_disposition st sig.
Proof.
  intros Hne H.
  assert (Hupd : forall d st0,
            sig_disposition (upd_disposition s' d st0) sig = sig_disposition st0 sig).
  { intros d st0. simpl. now rewrite decide_False by congruence. }
  assert (Hstop : forall st0,
            stop_signal_handler s' st0 = Some st' ->
            sig_disposition st' sig = sig_disposition st0 sig).
  { intros st0 Hs. unfold stop_signal_handler in Hs.
    assert (Hgoal : forall st1,
              sig_disposition st1 sig = sig_disposition st0 sig ->
              (if negb (started st1)
               then Some (upd_self_signals (self_signals st1 ++ [s']) st1)
               else router st1 ≫= λ a0, heap st1 !! a0 ≫= λ R,
                      Some (upd_heap <[a0:=RouterOps.set_runcount STOP_RUNCOUNT R]> st1))
              = Some st' ->
              sig_disposition st' sig = sig_disposition st0 sig).
    { intros st1 Hd Hr. destruct (started st1); simpl in Hr.
      - destruct (router st1) as [a|]; simpl in Hr; [|discriminate].
        destruct (heap st1 !! a) as [R|]; simpl in Hr; [|discriminate].
        injection Hr as <-. exact Hd.
      - injection Hr as <-. exact Hd. }
    destruct HAVE_SIGACTION; (eapply Hgoal; [|exact Hs]); [reflexivity|apply Hupd]. }
  unfold deliver_signal in H.
  destruct (sig_disposition st s') as [| |[|] reset].
  - now injection H as <-.
  - now injection H as <-.
  - apply Hstop in H. rewrite H. destruct reset; [apply Hupd | reflexivity].
  - injection H as <-. unfold ignore_signal_handler.
    destruct HAVE_SIGACTION, reset; rewrite ?Hupd; reflexivity.
Qed.

Lemma deliver_signal_caught (sig : Signal) (st st' : Driver) :
  sig_disposition st sig = SIG_CATCH fn_stop_signal_handler true ->
  deliver_signal sig st = Some st' ->
  sig_disposition st' sig = SIG_DFL.
Proof.
  intros Hd H. unfold deliver_signal in H. rewrite Hd in H.
  unfold stop_signal_handler in H.
  assert (Hgoal : forall st1,
            sig_disposition st1 sig = SIG_DFL ->
            (if negb (started st1)
             then Some (upd_self_signals (self_signals st1 ++ [sig]) st1)
             else router st1 ≫= λ a0, heap st1 !! a0 ≫= λ R,
                    Some (upd_heap <[a0:=RouterOps.set_runcount STOP_RUNCOUNT R]> st1))
            = Some st' ->
            sig_disposition st' sig = SIG_DFL).
  { intros st1 Hd1 Hr. destruct (started st1); simpl in Hr.
    - destruct (router st1) as [a|]; simpl in Hr; [|discriminate].
      destruct (heap st1 !! a) as [R|]; simpl in Hr; [|discriminate].
      injection Hr as <-. exact Hd1.
    - injection Hr as <-. exact Hd1. }
  assert (Hupd : forall st0, sig_disposition (upd_disposition sig SIG_DFL st0) sig
                             = SIG_DFL)
    by (intros st0; simpl; now rewrite decide_True).
  destruct HAVE_SIGACTION; (eapply Hgoal; [|exact H]); rewrite ?Hupd; reflexivity.
Qed.

(** Once the disposition of [sig] is the default one, it stays so until the
    signal ends the process. *)
Definition stop_pending (sig : Signal) (st : Driver) : Prop :=
  is_Some (terminated_by st) \/ sig_disposition st sig = SIG_DFL.

Lemma driver_event_stop_pending (cs : ControlSockets) (sig : Signal)
    (st st' : Driver) (ev : Event) :
  driver_wf st -> stop_pending sig st ->
  driver_event cs st ev = Some st' ->
  stop_pending sig st'
  /\ (ev = ev_signal sig -> is_Some (terminated_by st')).
Proof.
  intros Hwf HJ H. unfold driver_event in H.
  destruct (terminated_by st) as [t|] eqn:Ht.
  { injection H as <-. rewrite Ht. split; [left|]; eauto. }
  destruct HJ as [[t Hsome]|Hdfl]; [congruence|].
  destruct ev as [s'|name text errh|].
  - destruct (decide (s' = sig)) as [->|Hne].
    + unfold deliver_signal in H. rewrite Hdfl in H. injection H as <-.
      split; [left|]; simpl; eauto.
    + split; [|congruence]. right.
      now rewrite (deliver_signal_other sig s' st st' Hne H).
  - split; [|discriminate]. right.
    unfold write_global_handler, call_write in H.
    destruct (global_handlers st !! name) as [h|]; simpl in H;
      [|now injection H as <-].
    destruct (write_visible h); simpl in H; [|now injection H as <-].
    destruct (h_write_hook h) as [[|tag]|]; simpl in H;
      [| |now injection H as <-].
    + destruct (hotconfig_handler_wf cs text errh st Hwf)
        as (rc & errh' & st1 & Hh & _ & _ & _ & Hsd).
      rewrite Hh in H. simpl in H. injection H as <-. now rewrite Hsd.
    + destruct (element_write_hook tag text errh). simpl in H.
      now injection H as <-.
  - split; [|discriminate]. right.
    destruct (run_hotswap_task_wf st Hwf) as (st1 & Hh & _ & _ & _ & Hsd).
    rewrite Hh in H. injection H as <-. now rewrite Hsd.
Qed.

Lemma driver_run_stop_pending (cs : ControlSockets) (sig : Signal)
    (evs : list Event) (st st' : Driver) :
  driver_wf st -> stop_pending sig st ->
  driver_run cs (evs ++ [ev_signal sig]) st = Some st' ->
  is_Some (terminated_by st').
Proof.
  revert st. induction evs as [|ev evs IH]; intros st Hwf HJ H; simpl in H.
  - destruct (driver_event cs st (ev_signal sig)) as [st1|] eqn:He;
      simpl in H; [|discriminate].
    injection H as <-.
    now apply (driver_event_stop_pending cs sig st st1 _ Hwf HJ He).
  - destruct (driver_event cs st ev) as [st1|] eqn:He; simpl in H; [|discriminate].
    destruct (driver_event_wf cs st ev Hwf) as (st1' & He' & Hwf1 & _).
    rewrite He in He'. injection He' as <-.
    apply (IH st1 Hwf1); [|exact H].
    now apply (driver_event_stop_pending cs sig st st1 ev Hwf HJ He).
Qed.

(** X19: the stop handler serves one delivery.  When a signal is caught by
    [stop_signal_handler] as [parse_configuration] installs it, then after
    one delivery of that signal a second delivery ends the process,
    whatever signals, handler writes and hot-swaps happen in between: no
    hot-swap installs the handler again. *)
Theorem second_stop_signal_ends_process (cs : ControlSockets) (sig : Signal)
    (evs : list Event) (st : Driver) :
  driver_wf st ->
  sig_disposition st sig = SIG_CATCH fn_stop_signal_handler true ->
  exists st',
    driver_run cs (ev_signal sig :: evs ++ [ev_signal sig]) st = Some st'
    /\ is_Some (terminated_by st').
Proof.
  intros Hwf Hd.
  destruct (driver_run_wf cs (ev_signal sig :: evs ++ [ev_signal sig]) st Hwf)
    as (st' & Hrun & _).
  exists st'. split; [exact Hrun|].
  simpl in Hrun.
  destruct (driver_event cs st (ev_signal sig)) as [st1|] eqn:He;
    simpl in Hrun; [|discriminate].
  destruct (driver_event_wf cs st (ev_signal sig) Hwf) as (st1' & He' & Hwf1 & _).
  rewrite He in He'. injection He' as <-.
  apply (driver_run_stop_pending cs sig evs st1 st' Hwf1); [|exact Hrun].
  unfold driver_event in He.
  destruct (terminated_by st) as [t|] eqn:Ht.
  - injection He as <-. left. rewrite Ht. eauto.
  - right. exact (deliver_signal_caught sig st st1 Hd He).
Qed.

(** ** main as a whole *)

Lemma heap_upd_heap (f : gmap addr Router -> gmap addr Router) (st : Driver) :
  heap (upd_heap f st) = f (heap st).
Proof. reflexivity. Qed.

Lemma install_signal_handlers_frame (st : Driver) :
  let st' := install_signal_handlers st in
  heap st' = heap st
  /\ hotswap_router st' = hotswap_router st
  /\ hotswap_task_scheduled st' = hotswap_task_scheduled st
  /\ global_handlers st' = global_handlers st
  /\ terminated_by st' = terminated_by st.
Proof.
  unfold install_signal_handlers. destruct HAVE_MULTITHREAD; simpl; repeat split.
Qed.

(** The first call of [parse_configuration] never faults. *)
Lemma parse_configuration_first_total (cs : ControlSockets) (text : string)
    (text_is_expr : bool) (errh : Errh.t) (st : Driver) :
  router st = None ->
  exists r errh' st',
    parse_configuration cs text text_is_expr false errh st = Some (r, errh', st')
    /\ match r with
       | Some a =>
           exists R',
             st' = upd_heap <[a := R']>
                     (install_signal_handlers (upd_nmasters (S (nmasters st)) st))
       | None => True
       end.
Proof.
  intros Hr. unfold parse_configuration. rewrite Hr.
  cbn [mbind option_bind negb].
  destruct (click_read_router text text_is_expr (nmasters st)) as [[R0|] msgs];
    [|eexists _, _, _; split; [reflexivity | exact I]].
  rewrite !install_signal_handlers_upd_heap.
  cbn [mbind option_bind negb].
  destruct (0 <? Errh.nerrors (Errh.report msgs errh));
    [eexists _, _, _; split; [reflexivity | exact I]|].
  rewrite !heap_upd_heap, !alter_insert_eq, lookup_insert_eq.
  cbn [mbind option_bind].
  destruct (Router_initialize _) as [[status R'] msgs'].
  destruct (status <? 0); [eexists _, _, _; split; [reflexivity | exact I]|].
  eexists _, _, _. split; [reflexivity|]. exists R'.
  set (st0 := install_signal_handlers (upd_nmasters (S (nmasters st)) st)).
  apply (upd_heap_ext
           (fun hp => <[_ := R']> (alter _ _ (alter _ _ (<[_ := R0]> hp))))
           <[_ := R']> st0).
  now rewrite !alter_insert_eq, insert_insert_eq.
Qed.

Lemma provide_hotconfig_frame (o : Options) (st : Driver) :
  let st' := provide_hotconfig o st in
  heap st' = heap st /\ router st' = router st
  /\ hotswap_router st' = hotswap_router st
  /\ hotswap_task_scheduled st' = hotswap_task_scheduled st
  /\ terminated_by st' = terminated_by st
  /\ forall name, name <> "hotconfig" ->
       global_handlers st' !! name = global_handlers st !! name.
Proof.
  unfold provide_hotconfig, add_write_handler.
  destruct (allow_reconfigure o); simpl; repeat split; intros name Hne.
  now rewrite lookup_insert_ne by congruence.
Qed.

(** The installation at the start of [main]: either the exit status 1, or
    a driver whose pointers are sound. *)
Lemma main_install_first (o : Options) (eh : Errh.t) (st : Driver) :
  router st = None -> hotswap_router st = None ->
  hotswap_task_scheduled st = false ->
  exists res,
    main_install o eh st = Some res
    /\ match res with
       | inr (status, _) => status = 1
       | inl (_, st') =>
           driver_wf st'
           /\ global_handlers st' = global_handlers (provide_hotconfig o st)
           /\ terminated_by st' = terminated_by st
       end.
Proof.
  intros Hr Hh Ht. unfold main_install.
  destruct (provide_hotconfig_frame o st) as (_ & Hr1 & Hh1 & Ht1 & Htb1 & _).
  cbv zeta in Hr1, Hh1, Ht1, Htb1.
  set (st1 := provide_hotconfig o st) in *.
  rewrite Hr in Hr1. rewrite Hh in Hh1. rewrite Ht in Ht1.
  destruct (parse_configuration_first_total (sockets o)
              (default "" (router_file o)) (file_is_expr o) eh st1 Hr1)
    as (r & eh' & st2 & -> & Hst2).
  cbn [mbind option_bind].
  destruct r as [a|]; [|eexists; split; [reflexivity|reflexivity]].
  destruct Hst2 as [R' ->].
  unfold Router_use.
  destruct (install_signal_handlers_frame (upd_nmasters (S (nmasters st1)) st1))
    as (Hheap & Hhs & Hts & Hg & Htb).
  cbv zeta in Hheap, Hhs, Hts, Hg, Htb.
  set (st0 := install_signal_handlers (upd_nmasters (S (nmasters st1)) st1)) in *.
  change (heap (upd_router (Some a) (upd_heap <[a:=R']> st0)) !! a)
    with (<[a:=R']> (heap st0) !! a).
  rewrite lookup_insert_eq. cbn [mbind option_bind].
  eexists. split; [reflexivity|]. cbn beta iota.
  split; [|split].
  - exists a. split; [reflexivity|]. split.
    + change (is_Some (<[a:=RouterOps.set_refcount (r_refcount R' + 1) R']>
                         (<[a:=R']> (heap st0)) !! a)).
      rewrite lookup_insert_eq. eauto.
    + change (match hotswap_router st0 with
              | Some p => p <> a /\ is_Some
                   (<[a:=RouterOps.set_refcount (r_refcount R' + 1) R']>
                      (<[a:=R']> (heap st0)) !! p)
              | None => hotswap_task_scheduled st0 = false
              end).
      rewrite Hhs. simpl. rewrite Hh1. rewrite Hts. exact Ht1.
  - exact Hg.
  - change (terminated_by st0 = terminated_by st). rewrite Htb. exact Htb1.
Qed.



Lemma option_step_exit_status (o : Options) (eh eh' : Errh.t)
    (opt : Clp_option) (status : Z) :
  option_step o eh opt = inr (status, eh') -> status = 0 \/ status = 1.
Proof. intros H. destruct opt; option_step_cases H; auto. Qed.

Lemma option_loop_exit_status (argv : list Clp_option) (o : Options)
    (eh eh' : Errh.t) (status : Z) :
  option_loop argv o eh = inr (status, eh') -> status = 0 \/ status = 1.
Proof.
  revert o eh. induction argv as [|opt argv IH]; intros o eh H;
    cbn [option_loop] in H; [discriminate|].
  destruct (option_step o eh opt) as [[o1 eh1]|[s e]] eqn:Hs.
  - eauto.
  - injection H as -> ->. eapply option_step_exit_status, Hs.
Qed.

Lemma option_loop_no_exit_handler (argv : list Clp_option) (o o' : Options)
    (eh eh' : Errh.t) :
  (forall v, In (EXIT_HANDLER_OPT v) argv -> v = "") ->
  exit_handler o = "" ->
  option_loop argv o eh = inl (o', eh') ->
  exit_handler o' = "".
Proof.
  revert o eh. induction argv as [|opt argv IH]; intros o eh Hno He H;
    cbn [option_loop] in H.
  - now injection H as <- _.
  - destruct (option_step o eh opt) as [[o1 eh1]|[s e]] eqn:Hs; [|discriminate].
    apply (IH o1 eh1); [intros v Hv; apply Hno; now right| |exact H].
    assert (Hhd : forall v, opt = EXIT_HANDLER_OPT v -> v = "")
      by (intros v ->; apply Hno; now left).
    clear IH H Hno. destruct opt; option_step_cases Hs; simpl; auto.
Qed.

Lemma main_report_no_exit_handler (o : Options) (G : gmap string Handler)
    (R : Router) (exit_value status : Z) (out out' : Out) :
  exit_handler o = "" ->
  exit_value = 0 \/ exit_value = 1 ->
  main_report o G R exit_value out = (status, out') ->
  status = 0 \/ status = 1.
Proof.
  intros He Hev H. unfold main_report in H. rewrite He in H.
  change (Str.nonempty "") with false in H. cbv iota in H.
  destruct (negb (Nat.eqb (length (handlers o)) 0)).
  - destruct (call_read_handlers G R (handlers o) out) as [rc out1].
    destruct (rc <? 0); injection H as <- _; auto.
  - injection H as <- _; auto.
Qed.

(** X7: unless the command line gives a non-empty exit handler, a process
    that exits does so with status 0 or 1, whatever the configuration, the
    handlers called and the events of the run. *)
Theorem main_exit_status (builtin : gmap string Handler)
    (argv : list Clp_option) (fopen_error : option string) (events : list Event)
    (status : Z) (out : Out) :
  (forall v, In (EXIT_HANDLER_OPT v) argv -> v = "") ->
  main builtin argv fopen_error events = Some (Exited status out) ->
  status = 0 \/ status = 1.
Proof.
  intros Hno H. unfold main in H.
  destruct (option_loop argv default_options Errh.empty)
    as [[o eh]|[s eh]] eqn:Hloop.
  2:{ injection H as <- _. eapply option_loop_exit_status, Hloop. }
  pose proof (option_loop_no_exit_handler argv default_options o Errh.empty eh
                Hno eq_refl Hloop) as He.
  destruct (main_install_first o eh (initial_driver builtin) eq_refl eq_refl eq_refl)
    as (res & Hres & Hshape).
  rewrite Hres in H. cbn [mbind option_bind] in H.
  destruct res as [[eh1 st]|[s eh']].
  2:{ injection H as <- _. auto. }
  destruct (main_output o (global_handlers st) fopen_error (mkOut "" eh1))
    as [[ev out1]|] eqn:Hout; [|discriminate].
  assert (Hev : ev = 0 \/ ev = 1).
  { unfold main_output in Hout. clear H.
    destruct (output_file o) as [f|]; [|injection Hout as <- _; auto].
    destruct (String.eqb f "-").
    - destruct (global_handlers st !! "flatconfig"); [|discriminate].
      injection Hout as <- _; auto.
    - destruct fopen_error; [injection Hout as <- _; auto|].
      destruct (global_handlers st !! "flatconfig"); [|discriminate].
      injection Hout as <- _; auto. }
  cbn [mbind option_bind] in H.
  destruct (main_run o events st out1) as [[st' out2]|]; [|discriminate].
  cbn [mbind option_bind] in H.
  destruct (terminated_by st'); [discriminate|].
  destruct (router st') as [a|]; [|discriminate]. cbn [mbind option_bind] in H.
  destruct (heap st' !! a) as [Ra|]; [|discriminate]. cbn [mbind option_bind] in H.
  destruct (main_report _ _ _ _ _) as [s out4] eqn:Hrep.
  injection H as <- _.
  eapply main_report_no_exit_handler; [exact He | exact Hev | exact Hrep].
Qed.

Lemma option_loop_quit (argv : list Clp_option) (o o' : Options)
    (eh eh' : Errh.t) :
  quit_immediately o = true \/ In QUIT_OPT argv ->
  option_loop argv o eh = inl (o', eh') ->
  quit_immediately o' = true.
Proof.
  revert o eh. induction argv as [|opt argv IH]; intros o eh Hq H;
    cbn [option_loop] in H.
  - injection H as <- _. destruct Hq as [Hq|[]]. exact Hq.
  - destruct (option_step o eh opt) as [[o1 eh1]|[s e]] eqn:Hs; [|discriminate].
    apply (IH o1 eh1); [|exact H].
    destruct Hq as [Hq|[->|Hin]]; [left|left|now right].
    + clear IH H. destruct opt; option_step_cases Hs; simpl; auto.
    + simpl in Hs. now injection Hs as <- _.
Qed.

(** X8: with [-q] on the command line the driver is not run: what [main]
    does is the same whatever would have happened during a run. *)
Theorem main_quit_ignores_events (builtin : gmap string Handler)
    (argv : list Clp_option) (fopen_error : option string)
    (events events' : list Event) :
  In QUIT_OPT argv ->
  main builtin argv fopen_error events = main builtin argv fopen_error events'.
Proof.
  intros Hq. unfold main.
  destruct (option_loop argv default_options Errh.empty)
    as [[o eh]|[s eh]] eqn:Hloop; [|reflexivity].
  assert (Hquit : quit_immediately o = true)
    by (eapply option_loop_quit; [right; exact Hq | exact Hloop]).
  destruct (main_install o eh (initial_driver builtin)) as [[[eh1 st]|[s e]]|];
    try reflexivity.
  cbn [mbind option_bind].
  destruct (main_output o (global_handlers st) fopen_error (mkOut "" eh1))
    as [[ev out1]|]; [|reflexivity].
  cbn [mbind option_bind].
  assert (Hrun : forall evs, main_run o evs st out1
                   = (a ← router st; R ← heap st !! a; Some (st, out1))).
  { intros evs. unfold main_run. rewrite Hquit. simpl.
    destruct (router st); [|reflexivity]. simpl.
    destruct (heap st !! _); reflexivity. }
  now rewrite !Hrun.
Qed.


(** ** Requests for handlers are served one by one *)

(** What has been written so far, followed by what a further step wrote. *)
Definition Out_app (o d : Out) : Out :=
  mkOut (stdout o +:+ stdout d)
        (Errh.mk (Errh.errors (out_errh o) ++ Errh.errors (out_errh d))
                 (Errh.warnings (out_errh o) ++ Errh.warnings (out_errh d))).

Definition Out_empty : Out := mkOut "" Errh.empty.

(** What the request [h] alone writes. *)
Definition request_output (G : gmap string Handler) (R : Router)
    (print_names : bool) (h : string) : Out :=
  call_read_handlers_step G R print_names Out_empty h.

Lemma Out_app_empty_r (o : Out) : Out_app o Out_empty = o.
Proof.
  destruct o as [s [e w]]. unfold Out_app. simpl.
  now rewrite append_empty_r, !app_nil_r.
Qed.

Lemma Out_app_assoc (o a b : Out) :
  Out_app (Out_app o a) b = Out_app o (Out_app a b).
Proof.
  unfold Out_app. simpl. now rewrite append_assoc, <- !app_assoc.
Qed.

Lemma fputs_app (s : string) (o : Out) :
  fputs s o = Out_app o (fputs s Out_empty).
Proof.
  destruct o as [so [e w]]. unfold fputs, Out_app. simpl.
  now rewrite append_nil_l, !app_nil_r.
Qed.

Lemma errh_error_app (msg : string) (o : Out) :
  errh_error msg o
  = (fst (errh_error msg Out_empty), Out_app o (snd (errh_error msg Out_empty))).
Proof.
  destruct o as [so [e w]]. unfold errh_error, Out_app. simpl.
  now rewrite append_empty_r, app_nil_r.
Qed.

Lemma call_read_handler_app (G : gmap string Handler) (R : Router)
    (e : ElementRef) (hname : string) (print_name : bool) (o : Out) :
  snd (call_read_handler G R e hname print_name o)
  = Out_app o (snd (call_read_handler G R e hname print_name Out_empty)).
Proof.
  unfold call_read_handler.
  destruct (Router_handler G R e hname) as [rh|];
    [|now rewrite errh_error_app].
  destruct (negb (visible rh)); [now rewrite errh_error_app|].
  destruct (negb (read_visible rh)); [now rewrite errh_error_app|].
  cbn [snd].
  destruct print_name.
  - rewrite (fputs_app _ (fputs _ (fputs _ o))), (fputs_app _ (fputs _ o)),
      (fputs_app _ o).
    rewrite (fputs_app _ (fputs _ (fputs _ Out_empty))),
      (fputs_app _ (fputs _ Out_empty)).
    now rewrite !Out_app_assoc.
  - apply fputs_app.
Qed.

Lemma call_each_app (G : gmap string Handler) (R : Router)
    (hname : string) (print_name : bool) (els : list ElementRef) (o : Out) :
  call_each G R hname print_name els o
  = Out_app o (call_each G R hname print_name els Out_empty).
Proof.
  unfold call_each. revert o.
  induction els as [|e els IH]; intros o; simpl.
  - now rewrite Out_app_empty_r.
  - rewrite IH, call_read_handler_app, Out_app_assoc.
    f_equal. symmetry. apply IH.
Qed.

Lemma expand_app (G : gmap string Handler) (R : Router)
    (pattern hname : string) (els : list ElementRef) (o : Out) :
  expand_handler_elements G R pattern hname els o
  = (fst (expand_handler_elements G R pattern hname els Out_empty),
     Out_app o (snd (expand_handler_elements G R pattern hname els Out_empty))).
Proof.
  destruct (RouterOps.find R pattern) as [i|] eqn:Hf.
  - unfold expand_handler_elements. rewrite Hf. simpl.
    now rewrite Out_app_empty_r.
  - rewrite !(expand_not_found _ _ _ _ _ _ Hf).
    destruct (existsb _ _); simpl.
    + now rewrite Out_app_empty_r.
    + destruct o as [so [e w]]. unfold Out_app. simpl.
      now rewrite append_empty_r, app_nil_r.
Qed.

Lemma call_read_handlers_step_app (G : gmap string Handler) (R : Router)
    (print_names : bool) (o : Out) (h : string) :
  call_read_handlers_step G R print_names o h
  = Out_app o (request_output G R print_names h).
Proof.
  unfold request_output, call_read_handlers_step.
  destruct (Str.split_at "." h) as [[element_name handler_name]|];
    [|apply call_read_handler_app].
  rewrite (expand_app _ _ _ _ _ o).
  destruct (expand_handler_elements G R element_name handler_name [] Out_empty)
    as [[retval elements] d]. simpl.
  destruct (0 <=? retval); [|reflexivity].
  rewrite call_each_app, (call_each_app _ _ _ _ _ d).
  now rewrite Out_app_assoc.
Qed.

Lemma call_read_handlers_fold_app (G : gmap string Handler) (R : Router)
    (print_names : bool) (hs : list string) (o : Out) :
  fold_left (call_read_handlers_step G R print_names) hs o
  = fold_left Out_app (map (request_output G R print_names) hs) o.
Proof.
  revert o. induction hs as [|h hs IH]; intros o; simpl; [reflexivity|].
  now rewrite call_read_handlers_step_app, IH.
Qed.

Lemma fold_Out_app_errors (ds : list Out) (o : Out) :
  Errh.errors (out_errh (fold_left Out_app ds o))
  = Errh.errors (out_errh o)
    ++ concat (map (fun d => Errh.errors (out_errh d)) ds).
Proof.
  revert o. induction ds as [|d ds IH]; intros o; simpl.
  - now rewrite app_nil_r.
  - rewrite IH. simpl. now rewrite <- app_assoc.
Qed.

Lemma concat_nil_Forall {A : Type} (ls : list (list A)) :
  concat ls = [] <-> Forall (fun l => l = []) ls.
Proof.
  induction ls as [|l ls IH]; simpl.
  - split; [constructor | reflexivity].
  - split.
    + intros H. apply app_eq_nil in H as [-> H]. constructor; [reflexivity|].
      now apply IH.
    + intros H. inversion H as [|? ? Hl Hls]; subst. simpl. now apply IH.
Qed.

(** X9: the requests of [call_read_handlers] are served independently of
    one another: what is written is what was there before followed by what
    each request writes on its own, in their order, a failed request not
    stopping the later ones; and the result is 0 exactly when no request
    reported an error, whatever errors had been counted before, else -1. *)
Theorem call_read_handlers_by_request (G : gmap string Handler) (R : Router)
    (hs : list string) (o : Out) :
  snd (call_read_handlers G R hs o)
  = fold_left Out_app
      (map (request_output G R (1 <? length hs)%nat) hs) o
  /\ (fst (call_read_handlers G R hs o) = 0 <->
      Forall (fun h => Errh.errors
                         (out_errh (request_output G R (1 <? length hs)%nat h))
                       = []) hs)
  /\ (fst (call_read_handlers G R hs o) = 0
      \/ fst (call_read_handlers G R hs o) = -1).
Proof.
  unfold call_read_handlers. cbn [fst snd].
  rewrite call_read_handlers_fold_app.
  split; [reflexivity|].
  set (ds := map (request_output G R (1 <? length hs)%nat) hs).
  unfold Errh.nerrors. rewrite fold_Out_app_errors, length_app.
  set (more := concat (map (fun d => Errh.errors (out_errh d)) ds)).
  assert (Hmore : more = [] <->
            Forall (fun h => Errh.errors
                      (out_errh (request_output G R (1 <? length hs)%nat h))
                    = []) hs).
  { unfold more, ds. rewrite concat_nil_Forall, map_map, List.Forall_map.
    reflexivity. }
  split.
  - rewrite <- Hmore.
    destruct (Z.eqb_spec (Z.of_nat (length (Errh.errors (out_errh o)) + length more))
                (Z.of_nat (length (Errh.errors (out_errh o))))) as [E|E].
    + split; [intros _|reflexivity].
      destruct more; [reflexivity | simpl in E; lia].
    + split; [discriminate|]. intros ->. simpl in E. lia.
  - destruct (_ =? _); auto.
Qed.

Lemma filter_none {A : Type} (f : A -> bool) (l : list A) :
  (forall x, In x l -> f x = false) -> List.filter f l = [].
Proof.
  induction l as [|x l IH]; intros H; simpl; [reflexivity|].
  rewrite (H x) by now left. apply IH. intros y Hy. apply H. now right.
Qed.

(** X10: a request [E.H] whose element part names no instance but matches
    some element, by glob or by class, none of which has a readable handler
    [H], is served in silence: nothing is printed, no error is reported,
    and alone on the command line it gives the result 0. *)
Theorem unreadable_match_is_silent (G : gmap string Handler) (R : Router)
    (h E H : string) (print_names : bool) (o : Out) :
  Str.split_at "." h = Some (E, H) ->
  RouterOps.find R E = None ->
  existsb (element_matches R (Str.has_glob_char E) E)
          (seq 0 (RouterOps.nelements R)) = true ->
  (forall i, (i < RouterOps.nelements R)%nat ->
             element_matches R (Str.has_glob_char E) E i = true ->
             has_read_handler G R H i = false) ->
  call_read_handlers_step G R print_names o h = o
  /\ call_read_handlers G R [h] o = (0, o).
Proof.
  intros Hsplit Hfind Hany Hnone.
  assert (Hstep : forall pn, call_read_handlers_step G R pn o h = o).
  { intros pn. unfold call_read_handlers_step. rewrite Hsplit.
    rewrite (expand_not_found _ _ _ _ _ _ Hfind). cbv zeta. rewrite Hany.
    rewrite filter_none; [reflexivity|].
    intros i Hi. apply in_seq in Hi.
    destruct (element_matches R (Str.has_glob_char E) E i) eqn:Hm;
      [|reflexivity].
    simpl. apply Hnone; [lia | exact Hm]. }
  split; [apply Hstep|].
  unfold call_read_handlers. simpl fold_left. rewrite Hstep.
  now rewrite Z.eqb_refl.
Qed.


(** ** Rounding the reported times *)

(** X11: for a normalized [timeval] and a divider that divides a second,
    [round_timeval] gives the time in units of the divider rounded to the
    nearest, halves upwards, with the carry into the seconds: the new
    fraction is below the number of units in a second, and seconds and
    fraction together are the rounded time exactly. *)
Theorem round_timeval_spec (tv : timeval) (d : Z) :
  0 <= tv_usec tv < 1000000 ->
  0 < d ->
  (d | 1000000) ->
  0 <= tv_usec (round_timeval tv d) < 1000000 / d
  /\ tv_sec (round_timeval tv d) * (1000000 / d) + tv_usec (round_timeval tv d)
     = (tv_sec tv * 1000000 + tv_usec tv + d / 2) / d.
Proof.
  intros Hu Hd [M HM].
  assert (HMpos : 0 < M) by nia.
  unfold round_timeval.
  rewrite (Z.quot_div_nonneg d 2), (Z.quot_div_nonneg 1000000 d) by lia.
  pose proof (Z.div_pos d 2 ltac:(lia) ltac:(lia)) as Hh0.
  pose proof (Z.mul_div_le d 2 ltac:(lia)) as Hh1.
  set (h := d / 2) in *.
  rewrite (Z.quot_div_nonneg (tv_usec tv + h) d) by lia.
  replace (1000000 / d) with M by (rewrite HM; symmetry; apply Z.div_mul; lia).
  replace (tv_sec tv * 1000000 + tv_usec tv + h)
    with (tv_sec tv * M * d + (tv_usec tv + h)) by (rewrite HM; ring).
  rewrite Z.div_add_l by lia.
  pose proof (Z.div_mod (tv_usec tv + h) d ltac:(lia)) as Hdm.
  pose proof (Z.mod_pos_bound (tv_usec tv + h) d Hd) as Hmod.
  set (q := (tv_usec tv + h) / d) in *.
  destruct (Z.leb_spec M q) as [Hq|Hq]; simpl.
  - assert (q = M) by nia. split; [lia | nia].
  - split; [|lia]. split; [nia | lia].
Qed.

(** ** The driver's control sockets *)

Lemma append_inv_head (s a b : string) : s +:+ a = s +:+ b -> a = b.
Proof.
  induction s as [|c s IH]; [auto|].
  rewrite !append_cons. intros [= H]. auto.
Qed.

Lemma click_driver_control_socket_name_inj (i j : nat) :
  click_driver_control_socket_name i = click_driver_control_socket_name j ->
  i = j.
Proof.
  unfold click_driver_control_socket_name.
  destruct i as [|i], j as [|j]; [reflexivity| | |].
  - change "click_driver@@ControlSocket"
      with ("click_driver@@ControlSocket" +:+ "").
    change ("click_driver@@ControlSocket@" +:+ pretty (S j))
      with ("click_driver@@ControlSocket" +:+ String "@" (pretty (S j))).
    intros H. apply append_inv_head in H. discriminate.
  - change "click_driver@@ControlSocket"
      with ("click_driver@@ControlSocket" +:+ "").
    change ("click_driver@@ControlSocket@" +:+ pretty (S i))
      with ("click_driver@@ControlSocket" +:+ String "@" (pretty (S i))).
    intros H. apply append_inv_head in H. discriminate.
  - intros H. apply append_inv_head in H. now apply pretty_nat_inj in H.
Qed.

Lemma NoDup_map_injective {A B : Type} (f : A -> B) (l : list A) :
  (forall x y, f x = f y -> x = y) -> NoDup l -> NoDup (map f l).
Proof.
  intros Hf. induction 1 as [|x l Hx Hl IH]; simpl; constructor; [|exact IH].
  rewrite list_elem_of_In, in_map_iff. intros (y & Hy & Hin).
  apply Hf in Hy. subst y. apply Hx. now apply list_elem_of_In.
Qed.

Lemma add_control_sockets_names (number : nat) (confs : list string)
    (R : Router) :
  map e_name (r_elements (add_control_sockets number confs R))
  = map e_name (r_elements R)
    ++ map click_driver_control_socket_name (seq number (length confs)).
Proof.
  revert number R. induction confs as [|conf confs IH]; intros number R; simpl.
  - now rewrite app_nil_r.
  - rewrite IH. simpl. rewrite map_app. simpl. now rewrite <- app_assoc.
Qed.

Lemma add_control_sockets_configurations (number : nat) (confs : list string)
    (R : Router) :
  map e_configuration (r_elements (add_control_sockets number confs R))
  = map e_configuration (r_elements R) ++ confs.
Proof.
  revert number R. induction confs as [|conf confs IH]; intros number R; simpl.
  - now rewrite app_nil_r.
  - rewrite IH. simpl. rewrite map_app. simpl. now rewrite <- app_assoc.
Qed.

(** The control sockets of the router [parse_configuration] stages. *)
Lemma staged_router_control_sockets (cs : ControlSockets) (hotswap : bool)
    (hotswap_from : option addr) (R0 : Router) :
  map e_name (r_elements (staged_router cs hotswap hotswap_from R0))
  = map e_name (r_elements R0)
    ++ map click_driver_control_socket_name
         (seq 0 (length (cs_ports cs) + length (cs_unix_sockets cs)))
  /\ map e_configuration (r_elements (staged_router cs hotswap hotswap_from R0))
     = map e_configuration (r_elements R0)
       ++ map (fun p => "tcp, " +:+ p
                        +:+ (if hotswap
                             then ", RETRIES 1, RETRY_WARNINGS false" else ""))
              (cs_ports cs)
       ++ map (fun u => "unix, " +:+ cp_quote u
                        +:+ (if hotswap
                             then ", RETRIES 1, RETRY_WARNINGS false" else ""))
              (cs_unix_sockets cs)
  /\ NoDup (map click_driver_control_socket_name
              (seq 0 (length (cs_ports cs) + length (cs_unix_sockets cs)))).
Proof.
  split; [|split].
  - unfold staged_router.
    assert (Hnames : forall R, map e_name
              (r_elements (match hotswap_from with
                           | Some old => RouterOps.set_hotswap_router (Some old) R
                           | None => R
                           end)) = map e_name (r_elements R))
      by (intros R; destruct hotswap_from; reflexivity).
    cbv zeta. rewrite Hnames, !add_control_sockets_names, !length_map.
    rewrite seq_app, map_app, <- app_assoc. reflexivity.
  - unfold staged_router.
    assert (Hconfs : forall R, map e_configuration
              (r_elements (match hotswap_from with
                           | Some old => RouterOps.set_hotswap_router (Some old) R
                           | None => R
                           end)) = map e_configuration (r_elements R))
      by (intros R; destruct hotswap_from; reflexivity).
    cbv zeta. rewrite Hconfs, !add_control_sockets_configurations.
    now rewrite <- app_assoc.
  - apply NoDup_map_injective; [|apply NoDup_seq].
    intros i j. apply click_driver_control_socket_name_inj.
Qed.

(** Whenever [parse_configuration] returns a router, first installation or
    hot-swap, that router is what [Router::initialize] made of the parsed
    router with the control sockets added (and the hot-swap router set when
    hot-swapping from an initialized router), stored at a fresh address. *)
Lemma parse_configuration_installs (cs : ControlSockets) (text : string)
    (text_is_expr hotswap : bool) (errh errh' : Errh.t) (st st' : Driver)
    (r : addr) :
  parse_configuration cs text text_is_expr hotswap errh st
  = Some (Some r, errh', st') ->
  exists master R0 msgs hotswap_from,
    click_read_router text text_is_expr master = (Some R0, msgs)
    /\ heap st !! r = None
    /\ heap st' !! r
       = Some (snd (fst (Router_initialize
                           (staged_router cs hotswap hotswap_from R0)))).
Proof.
  intros H. pose proof (fresh_not_live st) as Hfresh.
  unfold parse_configuration in H.
  assert (Hmaster : exists master st0,
            match router st with
            | Some a => R ← heap st !! a; Some (r_master R, st)
            | None => Some (nmasters st, upd_nmasters (S (nmasters st)) st)
            end = Some (master, st0)
            /\ heap st0 = heap st /\ router st0 = router st).
  { destruct (router st) as [old|] eqn:Hr.
    - destruct (heap st !! old) as [Rold|] eqn:Hold; [|discriminate H].
      exists (r_master Rold), st. auto.
    - exists (nmasters st), (upd_nmasters (S (nmasters st)) st). auto. }
  destruct Hmaster as (master & st0 & Hm & Hheap & Hrouter).
  rewrite Hm in H. cbn [mbind option_bind] in H.
  destruct (click_read_router text text_is_expr master) as [[R0|] msgs] eqn:Hp;
    [|discriminate].
  rewrite Hheap in H. 
  set (q := fresh (dom (heap st))) in *.
  exists master, R0, msgs.
  assert (Hstaged : forall hotswap_from Rs st5,
            Rs = staged_router cs hotswap hotswap_from R0 ->
            heap st5 !! q = Some Rs ->
            (if 0 <? Errh.nerrors (Errh.report msgs errh)
             then Some (None, Errh.report msgs errh, upd_heap (delete q) st5)
             else
               heap st5 !! q ≫= λ Rr : Router,
                 let '(status, Rr', msgs') := Router_initialize Rr in
                 if status <? 0
                 then Some (None, Errh.report msgs' (Errh.report msgs errh),
                            upd_heap (delete q) (upd_heap <[q:=Rr']> st5))
                 else Some (Some q, Errh.report msgs' (Errh.report msgs errh),
                            upd_heap <[q:=Rr']> st5))
            = Some (Some r, errh', st') ->
            click_read_router text text_is_expr master = (Some R0, msgs)
            /\ heap st !! r = None
            /\ heap st' !! r
               = Some (snd (fst (Router_initialize
                                   (staged_router cs hotswap hotswap_from R0))))).
  { intros hotswap_from Rs st5 -> Hq H5.
    destruct (0 <? Errh.nerrors (Errh.report msgs errh)); [discriminate|].
    rewrite Hq in H5. cbn [mbind option_bind] in H5.
    destruct (Router_initialize (staged_router cs hotswap hotswap_from R0))
      as [[status0 Rr0] msgs0].
    destruct (status0 <? 0); [discriminate|].
    injection H5 as <- _ <-.
    split; [exact Hp|]. split; [exact Hfresh|].
    rewrite heap_upd_heap, lookup_insert_eq. reflexivity. }
  assert (Hst3 : forall (f g : Router -> Router) (stb : Driver),
            heap (upd_heap (alter f q) (upd_heap (alter g q)
                    (upd_heap <[q:=R0]> stb))) !! q = Some (f (g R0))).
  { intros f g stb. rewrite !heap_upd_heap, !alter_insert_eq, lookup_insert_eq.
    reflexivity. }
  destruct hotswap; cbn [negb] in H.
  - cbn [router upd_heap] in H. rewrite Hrouter in H.
    destruct (router st) as [old|] eqn:Hr; cbn [mbind option_bind] in H.
    + rewrite !heap_upd_heap, !alter_insert_eq in H.
      destruct (<[q:=_]> (heap st0) !! old) as [Rold|]; [|discriminate].
      cbn [mbind option_bind] in H.
      destruct (RouterOps.is_initialized Rold).
      * exists (Some old). eapply Hstaged; [reflexivity | | exact H].
        rewrite !heap_upd_heap, !alter_insert_eq, lookup_insert_eq. reflexivity.
      * exists None. eapply Hstaged; [reflexivity | | exact H]. apply Hst3.
    + exists None. eapply Hstaged; [reflexivity | | exact H]. apply Hst3.
  - cbn [mbind option_bind] in H. exists None.
    eapply Hstaged; [reflexivity | | exact H].
    rewrite !install_signal_handlers_upd_heap. apply Hst3.
Qed.

(** X12: whenever [parse_configuration] returns a router, at the first
    installation as in a hot-swap, the router it handed to the
    initialization has the parsed elements followed by one control socket
    for each port and then one for each Unix socket of the command line, in
    their order, TCP first, with the retry settings when hot-swapping; the
    names the driver gives them are the names of the numbers 0, 1, 2, ...
    and are pairwise different. The router returned is what the
    initialization made of that router. *)
Theorem control_sockets_added (cs : ControlSockets) (text : string)
    (text_is_expr hotswap : bool) (errh errh' : Errh.t) (st st' : Driver)
    (r : addr) :
  parse_configuration cs text text_is_expr hotswap errh st
  = Some (Some r, errh', st') ->
  exists master R0 msgs Rs,
    click_read_router text text_is_expr master = (Some R0, msgs)
    /\ heap st !! r = None
    /\ heap st' !! r = Some (snd (fst (Router_initialize Rs)))
    /\ map e_name (r_elements Rs)
       = map e_name (r_elements R0)
         ++ map click_driver_control_socket_name
              (seq 0 (length (cs_ports cs) + length (cs_unix_sockets cs)))
    /\ map e_configuration (r_elements Rs)
       = map e_configuration (r_elements R0)
         ++ map (fun p => "tcp, " +:+ p
                          +:+ (if hotswap
                               then ", RETRIES 1, RETRY_WARNINGS false" else ""))
                (cs_ports cs)
         ++ map (fun u => "unix, " +:+ cp_quote u
                          +:+ (if hotswap
                               then ", RETRIES 1, RETRY_WARNINGS false" else ""))
                (cs_unix_sockets cs)
    /\ NoDup (map click_driver_control_socket_name
                (seq 0 (length (cs_ports cs) + length (cs_unix_sockets cs)))).
Proof.
  intros H.
  destruct (parse_configuration_installs _ _ _ _ _ _ _ _ _ H)
    as (master & R0 & msgs & hotswap_from & Hp & Hfresh & Hr).
  exists master, R0, msgs, (staged_router cs hotswap hotswap_from R0).
  split; [exact Hp|]. split; [exact Hfresh|]. split; [exact Hr|].
  apply staged_router_control_sockets.
Qed.

(** ** SetTXPower: the power handlers together *)

(** X13: a successful write of the [power] handler is what the read
    handler then returns, in decimal and ended by a newline, and what the
    driver prints for it is that text with no further newline, raw or not;
    a rejected write leaves what the read handler returns as it was. *)
Theorem power_write_read_round_trip (in_s : string) (f : SetTXPower)
    (errh : Errh.t) (rh : Handler) :
  h_call_read rh = power_read_handler (snd (fst (power_write_handler in_s f errh))) ->
  match cp_unsigned (cp_uncomment in_s) with
  | Some m =>
      power_read_handler (snd (fst (power_write_handler in_s f errh)))
      = pretty m +:+ String Str.LF EmptyString
      /\ read_body rh = pretty m +:+ String Str.LF EmptyString
  | None =>
      power_read_handler (snd (fst (power_write_handler in_s f errh)))
      = power_read_handler f
  end.
Proof.
  intros Hrh.
  unfold power_write_handler, SetTXPower_write_param in *.
  rewrite Z.eqb_refl in *.
  destruct (cp_unsigned (cp_uncomment in_s)) as [m|]; simpl in *.
  - split; [reflexivity|].
    unfold read_body. rewrite Hrh.
    change (power_read_handler {| _power := m |})
      with (pretty m +:+ String Str.LF EmptyString).
    rewrite back_append_char.
    rewrite bool_decide_true by reflexivity.
    now rewrite andb_false_r.
  - reflexivity.
Qed.

End ClickDriver.

(** * Ethernet addresses *)

Section EtherAddressProperties.

Import EtherAddress.

Variable big_endian : bool.

Lemma testbit_above (w k l : Z) :
  0 <= k -> 0 <= w < 2 ^ k -> k <= l -> Z.testbit w l = false.
Proof.
  intros Hk [Hw0 Hw] Hl.
  now apply (proj1 (Z.bounded_iff_bits_nonneg k w Hk Hw0) Hw).
Qed.

Lemma lor_shiftl_high (k hi lo : Z) :
  0 <= k -> 0 <= lo < 2 ^ k -> Z.shiftr (Z.lor (Z.shiftl hi k) lo) k = hi.
Proof.
  intros Hk Hlo.
  rewrite Z.shiftr_lor, Z.shiftr_shiftl_l, Z.sub_diag, Z.shiftl_0_r by lia.
  rewrite (Z.shiftr_div_pow2 lo) by lia.
  rewrite Z.div_small by lia. apply Z.lor_0_r.
Qed.

Lemma lor_shiftl_low (k hi lo : Z) :
  0 <= k -> 0 <= lo < 2 ^ k -> Z.land (Z.lor (Z.shiftl hi k) lo) (Z.ones k) = lo.
Proof.
  intros Hk Hlo.
  rewrite Z.land_lor_distr_l, !Z.land_ones by lia.
  rewrite Z.shiftl_mul_pow2, Z.mod_mul by lia.
  rewrite Z.mod_small by lia. apply Z.lor_0_l.
Qed.

Lemma lor_shiftl_recompose (k w : Z) :
  0 <= k -> Z.lor (Z.shiftl (Z.shiftr w k) k) (Z.land w (Z.ones k)) = w.
Proof.
  intros Hk. apply Z.bits_inj'. intros n Hn.
  rewrite Z.lor_spec, Z.land_spec, Z.testbit_ones_nonneg by lia.
  destruct (Z.ltb_spec n k) as [Hlt|Hge].
  - rewrite Z.shiftl_spec_low by lia. simpl. apply andb_true_r.
  - rewrite Z.shiftl_spec_high, Z.shiftr_spec by lia.
    rewrite andb_false_r, orb_false_r. f_equal. lia.
Qed.

Lemma lor_shiftl_bound (k hi lo : Z) :
  0 <= k -> 0 <= hi < 2 ^ k -> 0 <= lo < 2 ^ k ->
  0 <= Z.lor (Z.shiftl hi k) lo < 2 ^ (k + k).
Proof.
  intros Hk Hhi Hlo.
  assert (H0 : 0 <= Z.lor (Z.shiftl hi k) lo)
    by (apply Z.lor_nonneg; split; [apply Z.shiftl_nonneg|]; lia).
  split; [exact H0|].
  apply Z.bounded_iff_bits_nonneg; [lia | exact H0|].
  intros l Hl. rewrite Z.lor_spec, Z.shiftl_spec by lia.
  rewrite (testbit_above hi k (l - k)), (testbit_above lo k l) by lia.
  reflexivity.
Qed.

Lemma byte_of_word_of (b0 b1 : Z) :
  0 <= b0 < 256 -> 0 <= b1 < 256 ->
  byte_of big_endian (word_of big_endian b0 b1) 0 = b0
  /\ byte_of big_endian (word_of big_endian b0 b1) 1 = b1
  /\ 0 <= word_of big_endian b0 b1 < 65536.
Proof.
  intros H0 H1. unfold byte_of, word_of. cbv zeta.
  change 255 with (Z.ones 8).
  destruct big_endian.
  - rewrite lor_shiftl_high, lor_shiftl_low by lia.
    split; [reflexivity|]. split; [reflexivity|].
    apply (lor_shiftl_bound 8); lia.
  - rewrite lor_shiftl_high, lor_shiftl_low by lia.
    split; [reflexivity|]. split; [reflexivity|].
    apply (lor_shiftl_bound 8); lia.
Qed.

Lemma word_of_byte_of (w : Z) :
  word_of big_endian (byte_of big_endian w 0) (byte_of big_endian w 1) = w.
Proof.
  unfold byte_of, word_of. cbv zeta. change 255 with (Z.ones 8).
  destruct big_endian; apply lor_shiftl_recompose; lia.
Qed.

(** The words of an address are determined by its six bytes. *)
Lemma words_of_bytes (a : t) :
  a = of_data big_endian (data big_endian a).
Proof.
  destruct a as [w0 w1 w2].
  change (mk w0 w1 w2
          = mk (word_of big_endian (byte_of big_endian w0 0) (byte_of big_endian w0 1))
               (word_of big_endian (byte_of big_endian w1 0) (byte_of big_endian w1 1))
               (word_of big_endian (byte_of big_endian w2 0) (byte_of big_endian w2 1))).
  now rewrite !word_of_byte_of.
Qed.

(** X14: an address made from six bytes gives those six bytes back through
    [data()], whatever the byte order of the host, and its words are
    16-bit values. *)
Theorem of_data_round_trip (bs : nat -> Z) :
  (forall i, (i < 6)%nat -> 0 <= bs i < 256) ->
  wf (of_data big_endian bs)
  /\ forall i, (i < 6)%nat -> data big_endian (of_data big_endian bs) i = bs i.
Proof.
  intros Hbs.
  destruct (byte_of_word_of (bs 0%nat) (bs 1%nat)) as (A0 & A1 & A2);
    [apply Hbs; lia..|].
  destruct (byte_of_word_of (bs 2%nat) (bs 3%nat)) as (B0 & B1 & B2);
    [apply Hbs; lia..|].
  destruct (byte_of_word_of (bs 4%nat) (bs 5%nat)) as (C0 & C1 & C2);
    [apply Hbs; lia..|].
  split; [repeat split; simpl; lia|].
  intros i Hi. do 6 (destruct i as [|i]; [assumption|]). lia.
Qed.

(** X15: [operator==] holds exactly when the two addresses have the same
    six bytes, which is when they are the same address; [operator!=] holds
    exactly when they differ. *)
Theorem eqb_bytewise (a b : t) :
  (eqb a b = true <->
   forall i, (i < 6)%nat -> data big_endian a i = data big_endian b i)
  /\ (eqb a b = true <-> a = b)
  /\ (neqb a b = true <-> a <> b).
Proof.
  assert (Heq : eqb a b = true <-> a = b).
  { unfold eqb. destruct a as [a0 a1 a2], b as [b0 b1 b2]. simpl.
    rewrite !andb_true_iff, !Z.eqb_eq. split.
    - intros [[-> ->] ->]. reflexivity.
    - intros [= -> -> ->]. auto. }
  split; [|split; [exact Heq|]].
  - rewrite Heq. split; [now intros ->|].
    intros Hbytes.
    rewrite (words_of_bytes a), (words_of_bytes b). unfold of_data.
    now rewrite !Hbytes by lia.
  - unfold neqb. rewrite negb_true_iff, <- Heq.
    destruct (eqb a b); split; (congruence || discriminate || auto).
Qed.

Lemma land_1_odd (x : Z) : negb (Z.land x 1 =? 0) = Z.odd x.
Proof.
  change 1 with (Z.ones 1) at 1. rewrite Z.land_ones by lia.
  change (2 ^ 1) with 2. rewrite Zmod_odd. now destruct (Z.odd x).
Qed.

Lemma land_2_testbit (x : Z) : negb (Z.land x 2 =? 0) = Z.testbit x 1.
Proof.
  assert (H : Z.land x 2 = if Z.testbit x 1 then 2 else 0).
  { apply Z.bits_inj'. intros n Hn.
    rewrite Z.land_spec. change 2 with (2 ^ 1) at 1.
    rewrite Z.pow2_bits_eqb by lia.
    destruct (Z.eqb_spec 1 n) as [<-|Hne].
    - rewrite andb_true_r. now destruct (Z.testbit x 1).
    - rewrite andb_false_r. destruct (Z.testbit x 1).
      + change 2 with (2 ^ 1). rewrite Z.pow2_bits_eqb by lia.
        symmetry. now apply Z.eqb_neq.
      + symmetry. apply Z.bits_0. }
  rewrite H. now destruct (Z.testbit x 1).
Qed.

(** X16: the group and local flags of an address made from bytes are the
    two lowest bits of its first byte, on a host of either byte order. *)
Theorem group_local_first_byte (bs : nat -> Z) :
  (forall i, (i < 6)%nat -> 0 <= bs i < 256) ->
  is_group big_endian (of_data big_endian bs) = Z.odd (bs 0%nat)
  /\ is_local big_endian (of_data big_endian bs) = Z.testbit (bs 0%nat) 1.
Proof.
  intros Hbs.
  destruct (byte_of_word_of (bs 0%nat) (bs 1%nat)) as (A0 & _);
    [apply Hbs; lia..|].
  unfold is_group, is_local.
  change (data big_endian (of_data big_endian bs) 0)
    with (byte_of big_endian (word_of big_endian (bs 0%nat) (bs 1%nat)) 0).
  rewrite A0. split; [apply land_1_odd | apply land_2_testbit].
Qed.

Lemma all_bytes (a : t) (v : Z) :
  0 <= v < 256 ->
  (forall i, (i < 6)%nat -> data big_endian a i = v)
  <-> a = of_uint16 (word_of big_endian v v).
Proof.
  intros Hv. split.
  - intros H. rewrite (words_of_bytes a). unfold of_data, of_uint16.
    now rewrite !H by lia.
  - intros -> i Hi. unfold of_uint16, data.
    destruct (byte_of_word_of v v Hv Hv) as (H0 & H1 & _).
    do 6 (destruct i as [|i]; [assumption|]). lia.
Qed.

(** X17: [is_broadcast] holds exactly for the address whose six bytes are
    all FF, which is the one [make_broadcast] returns, and that address is
    a group and a local address; the conversion to [bool] is false exactly
    for the address whose six bytes are all 00, which is the one the
    default constructor makes. *)
Theorem broadcast_and_zero (a : t) :
  (is_broadcast a = true <->
   forall i, (i < 6)%nat -> data big_endian a i = 255)
  /\ (is_broadcast a = true <-> a = make_broadcast)
  /\ (to_bool a = false <->
      forall i, (i < 6)%nat -> data big_endian a i = 0)
  /\ (to_bool a = false <-> a = default)
  /\ is_group big_endian make_broadcast = true
  /\ is_local big_endian make_broadcast = true.
Proof.
  assert (Hb : is_broadcast a = true <-> a = make_broadcast).
  { unfold is_broadcast, make_broadcast, of_uint16.
    destruct a as [a0 a1 a2]. simpl.
    rewrite !andb_true_iff, !Z.eqb_eq. split.
    - intros [[-> ->] ->]. reflexivity.
    - intros [= -> -> ->]. auto. }
  assert (Hz : to_bool a = false <-> a = default).
  { unfold to_bool, default. destruct a as [a0 a1 a2]. simpl.
    rewrite !orb_false_iff, !negb_false_iff, !Z.eqb_eq. split.
    - intros [[-> ->] ->]. reflexivity.
    - intros [= -> -> ->]. auto. }
  assert (H255 : word_of big_endian 255 255 = 65535)
    by (unfold word_of; now destruct big_endian).
  assert (H0 : word_of big_endian 0 0 = 0)
    by (unfold word_of; now destruct big_endian).
  split; [|split; [exact Hb|split; [|split; [exact Hz|]]]].
  - rewrite Hb, (all_bytes a 255), H255 by lia. reflexivity.
  - rewrite Hz, (all_bytes a 0), H0 by lia. reflexivity.
  - unfold is_group, is_local, data, byte_of. simpl.
    now destruct big_endian.
Qed.

(** X18: the hash code of an address is below 2^32, so that no [size_t]
    cuts it, and among addresses with the same first word different
    addresses have different hash codes. *)
Theorem hashcode_spec (a b : t) :
  wf a -> wf b ->
  0 <= hashcode a < 2 ^ 32
  /\ (_data0 a = _data0 b -> hashcode a = hashcode b -> a = b).
Proof.
  intros (Ha0 & Ha1 & Ha2) (Hb0 & Hb1 & Hb2).
  unfold hashcode. split.
  - assert (Hnn : 0 <= Z.lxor (Z.lor (_data2 a) (Z.shiftl (_data1 a) 16))
                                (Z.shiftl (_data0 a) 9)).
    { apply Z.lxor_nonneg. split; intros _.
      - apply Z.shiftl_nonneg. lia.
      - apply Z.lor_nonneg. split; [lia | apply Z.shiftl_nonneg; lia]. }
    split; [exact Hnn|].
    apply Z.bounded_iff_bits_nonneg; [lia | exact Hnn|].
    intros l Hl.
    rewrite Z.lxor_spec, Z.lor_spec, !Z.shiftl_spec by lia.
    rewrite (testbit_above (_data2 a) 16 l),
      (testbit_above (_data1 a) 16 (l - 16)),
      (testbit_above (_data0 a) 16 (l - 9)) by lia.
    reflexivity.
  - intros H0 Hh. rewrite H0 in Hh.
    assert (Hl : Z.lor (_data2 a) (Z.shiftl (_data1 a) 16)
                 = Z.lor (_data2 b) (Z.shiftl (_data1 b) 16)).
    { apply (f_equal (fun v => Z.lxor v (Z.shiftl (_data0 b) 9))) in Hh.
      now rewrite !Z.lxor_assoc, !Z.lxor_nilpotent, !Z.lxor_0_r in Hh. }
    rewrite !(Z.lor_comm (_data2 _)) in Hl.
    pose proof (f_equal (fun v => Z.shiftr v 16) Hl) as Hhi.
    pose proof (f_equal (fun v => Z.land v (Z.ones 16)) Hl) as Hlo.
    cbv beta in Hhi, Hlo.
    rewrite !lor_shiftl_high in Hhi by lia.
    rewrite !lor_shiftl_low in Hlo by lia.
    destruct a, b. simpl in *. congruence.
Qed.

End EtherAddressProperties.

(** * A sample installation

    Concrete flag values, a small glob matcher and decimal parser standing
    in for the library routines, and a router with three elements: the
    theorems above are applied to them below. *)

Module Sample.

Definition OP_READ : Z := 1.
Definition OP_WRITE : Z := 2.
Definition NONEXCLUSIVE : Z := 32.
Definition RAW : Z := 64.

(** Globbing with [?] and [*]. *)
Fixpoint glob_from (pattern : string) : string -> bool :=
  match pattern with
  | EmptyString => fun name => negb (Str.nonempty name)
  | String c rest =>
      if Ascii.eqb c "*" then
        fix star (name : string) : bool :=
          glob_from rest name
          || match name with
             | EmptyString => false
             | String _ name' => star name'
             end
      else
        fun name =>
          match name with
          | EmptyString => false
          | String a name' =>
              (Ascii.eqb c "?" || Ascii.eqb a c) && glob_from rest name'
          end
  end.

Definition glob_match (name pattern : string) : bool := glob_from pattern name.

(** Unsigned decimal numerals. *)
Fixpoint digits (acc : Z) (s : string) : option Z :=
  match s with
  | EmptyString => Some acc
  | String c rest =>
      let n := nat_of_ascii c in
      if ((48 <=? n) && (n <=? 57))%nat
      then digits (10 * acc + Z.of_nat (n - 48)) rest
      else None
  end.

Definition cp_unsigned (s : string) : option Z :=
  if Str.nonempty s then digits 0 s else None.

Definition cp_integer (s : string) : option Z := cp_unsigned s.

Definition cp_integer_base (s : string) (base : Z) : option Z := cp_unsigned s.

Definition cp_tcpudp_port (s : string) : option Z :=
  match cp_unsigned s with
  | Some n => if n <? 65536 then Some n else None
  | None => None
  end.

Definition cp_bool (s : string) : option bool :=
  if String.eqb s "true" then Some true
  else if String.eqb s "false" then Some false
  else None.

(** Dropping one trailing newline. *)
Fixpoint cp_uncomment (s : string) : string :=
  match s with
  | EmptyString => EmptyString
  | String c rest =>
      if Ascii.eqb c Str.LF && negb (Str.nonempty rest) then EmptyString
      else String c (cp_uncomment rest)
  end.

Definition cp_quote (s : string) : string := s.

Definition class (name : string) : string -> bool := String.eqb name.

Definition line (s : string) : string := s +:+ String Str.LF EmptyString.

Definition value_handler : Handler := mkHandler OP_READ (line "7") None.
Definition empty_handler : Handler := mkHandler OP_READ "" None.
Definition power_handler : Handler := mkHandler OP_WRITE "" (Some (hook_element 0)).
Definition length_handler : Handler := mkHandler OP_READ (line "0") None.

Definition x : Element :=
  mkElement "x" (class "SetTXPower") "POWER 1"
    (<["value" := value_handler]>
       (<["note" := empty_handler]> {["power" := power_handler]})).

Definition q1 : Element :=
  mkElement "q1" (class "Queue") "2" {["length" := length_handler]}.

Definition q2 : Element := mkElement "q2" (class "Queue") "2" ∅.

Definition R : Router := mkRouter 0 running 1 1 [x; q1; q2] None.

Definition flatconfig : Handler := mkHandler OP_READ (line "c :: Counter;") None.

Definition builtin : gmap string Handler := {["flatconfig" := flatconfig]}.

Definition out0 : Out := mkOut "" Errh.empty.

(** The parser: the empty text is a syntax error, any other text gives a
    router with one element named after the text. *)
Definition click_read_router (text : string) (is_expr : bool) (master : nat)
    : option Router * list string :=
  if Str.nonempty text
  then (Some (mkRouter master parsed 0 0
                [mkElement text (class "Counter") "" ∅] None), [])
  else (None, ["syntax error"]).

(** Initialization fails on an element named [bad]. *)
Definition Router_initialize (r : Router) : Z * Router * list string :=
  match RouterOps.find r "bad" with
  | Some _ => (-1, r, ["bad: initialization failed"])
  | None => (0, RouterOps.set_state initialized r, [])
  end.

Definition ControlSocket : Element :=
  mkElement "" (class "ControlSocket") "" ∅.

Definition element_write_hook (tag : nat) (text : string) (errh : Errh.t)
    : Z * Errh.t := (0, errh).

(** Reading a router-scope handler by name. *)
Definition HandlerCall_call_read (name : string) (G : gmap string Handler)
    (r : Router) : string * list string :=
  match G !! name with
  | Some h => (h_call_read h, [])
  | None => ("", ["no '" +:+ name +:+ "' handler"])
  end.

Definition no_sockets : ControlSockets := mkControlSockets [] [].

(** A driver running the sample router, stored at address 0. *)
Definition st0 : Driver :=
  mkDriver {[0%nat := R]} (Some 0%nat) None false true builtin
           (fun _ => SIG_DFL) [] [] None 1.

Definition hotconfig (text : string) (st : Driver)
    : option (Z * Errh.t * Driver) :=
  hotconfig_handler false click_read_router Router_initialize ControlSocket
                    cp_quote no_sockets text Errh.empty st.

(** The driver after a successful write of [c] to [hotconfig]. *)
Definition st1 : Driver :=
  match hotconfig "c" st0 with
  | Some (_, _, st) => st
  | None => st0
  end.

Definition options_R : Options :=
  set_router_file "c" true (set_allow_reconfigure true default_options).

Definition install : option (Errh.t * Driver + Z * Errh.t) :=
  main_install OP_WRITE RAW NONEXCLUSIVE false click_read_router
               Router_initialize ControlSocket cp_quote options_R Errh.empty
               (initial_driver builtin).

Definition installed : Driver :=
  match install with
  | Some (inl (_, st)) => st
  | _ => initial_driver builtin
  end.

(** The whole program on a command line and the events of its run. *)
Definition run (argv : list Clp_option) (events : list Event) : option ProcessEnd :=
  main OP_READ OP_WRITE RAW NONEXCLUSIVE glob_match (-2147483648) true false
       click_read_router Router_initialize ControlSocket cp_quote
       element_write_hook cp_uncomment cp_integer cp_integer_base cp_bool
       cp_tcpudp_port HandlerCall_call_read (fun _ _ => "config") "0.00u"
       builtin argv None events.

End Sample.

(** * The theorems at the sample installation *)

(** [click -e c -h c.nope]: the missing handler is reported and the exit
    status is 1. *)
Example run_missing_handler :
  Sample.run [EXPRESSION_OPT "c"; HANDLER_OPT "c.nope"] []
  = Some (Exited 1 (mkOut "" (Errh.mk ["no 'c.nope' handler"] []))).
Proof. vm_compute. reflexivity. Qed.

(** [click -R -e c], a hot-swap to [d] while running, then two interrupts:
    the second one ends the process. *)
Example run_interrupted_twice :
  Sample.run [ALLOW_RECONFIG_OPT false; EXPRESSION_OPT "c"]
             [ev_write "hotconfig" "d" Errh.empty; ev_task;
              ev_signal SIGINT; ev_signal SIGINT]
  = Some (Signalled SIGINT).
Proof. vm_compute. reflexivity. Qed.

(** [click -e c -x flatconfig -o -]: the flat configuration goes to standard
    output, and its text is neither an integer nor a boolean. *)
Example run_exit_handler_not_a_number :
  Sample.run [EXPRESSION_OPT "c"; EXIT_HANDLER_OPT "flatconfig"; OUTPUT_OPT "-"] []
  = Some (Exited (-1)
            (mkOut (Sample.line "c :: Counter;")
                   (Errh.mk ["exit handler value should be integer"] []))).
Proof. vm_compute. reflexivity. Qed.

(** A raw handler whose result holds a NUL byte: what follows the NUL is
    not printed. *)
Example call_read_handler_nul :
  stdout (snd (call_read_handler Sample.OP_READ Sample.OP_WRITE Sample.RAW
                 {["bytes" := mkHandler (Z.lor Sample.OP_READ Sample.RAW)
                                        (String "a" (String Ascii.zero "b")) None]}
                 Sample.R ERoot "bytes" false Sample.out0))
  = "a".
Proof. vm_compute. reflexivity. Qed.

(** Reading [x.value] with its name printed: the result already ends in a
    newline. *)
Lemma call_read_handler_body_witness :
  exists text,
    call_read_handler Sample.OP_READ Sample.OP_WRITE Sample.RAW ∅ Sample.R
                      (EIdx 0) "value" true Sample.out0
    = (0, mkOut (stdout Sample.out0
                 +:+ ((unparse_name Sample.R (EIdx 0) "value" +:+ ":"
                       +:+ String Str.LF EmptyString)
                      +:+ Str.c_str text +:+ String Str.LF EmptyString))
                (out_errh Sample.out0))
    /\ text = Sample.line "7".
Proof.
  destruct (call_read_handler_body Sample.OP_READ Sample.OP_WRITE Sample.RAW
              ∅ Sample.R (EIdx 0) "value" true Sample.out0 Sample.value_handler
              eq_refl eq_refl eq_refl)
    as (text & Hcall & _ & _ & Hlf & _).
  exists text. split; [exact Hcall | apply Hlf; reflexivity].
Defined.

(** Counterexample to C4 as stated: [x.note] is a visible read handler that
    is not raw and whose result is empty; nothing is printed for it, so no
    newline was added to the result. *)
Lemma call_read_handler_newline_counterexample :
  Router_handler ∅ Sample.R (EIdx 0) "note" = Some Sample.empty_handler
  /\ visible Sample.OP_READ Sample.OP_WRITE Sample.empty_handler = true
  /\ read_visible Sample.OP_READ Sample.empty_handler = true
  /\ raw Sample.RAW Sample.empty_handler = false
  /\ stdout (snd (call_read_handler Sample.OP_READ Sample.OP_WRITE Sample.RAW ∅
                    Sample.R (EIdx 0) "note" false Sample.out0)) = ""
  /\ stdout (snd (call_read_handler Sample.OP_READ Sample.OP_WRITE Sample.RAW ∅
                    Sample.R (EIdx 0) "note" false Sample.out0))
     <> h_call_read Sample.empty_handler +:+ String Str.LF EmptyString.
Proof. repeat split; try reflexivity. vm_compute. discriminate. Qed.

(** The command lines [click -q -e c -x status], where the core provides a
    handler [status] whose value is the line [7], and
    [click -q -e c -h c.nope]. *)
Module SampleExit.

Definition builtin : gmap string Handler :=
  <["status" := Sample.value_handler]> Sample.builtin.

Definition argv_status : list Clp_option :=
  [QUIT_OPT; EXPRESSION_OPT "c"; EXIT_HANDLER_OPT "status"].

Definition options_status : Options :=
  set_exit_handler "status"
    (set_router_file "c" true (set_quit_immediately true default_options)).

Definition argv_nope : list Clp_option :=
  [QUIT_OPT; EXPRESSION_OPT "c"; HANDLER_OPT "c.nope"].

Definition options_nope : Options :=
  push_handler "c.nope"
    (set_router_file "c" true (set_quit_immediately true default_options)).

(** The driver once [main] has installed the configuration. *)
Definition installed (b : gmap string Handler) (o : Options) : Driver :=
  match main_install Sample.OP_WRITE Sample.RAW Sample.NONEXCLUSIVE false
               Sample.click_read_router Sample.Router_initialize
               Sample.ControlSocket Sample.cp_quote o Errh.empty (initial_driver b) with
  | Some (inl (_, st)) => st
  | _ => initial_driver b
  end.

End SampleExit.

(** [click -q -e c -x status] exits with the status 7. *)
Lemma exit_handler_status_witness :
  exists exit_value out1 st' out2 a R exit_string msgs,
    main_output SampleExit.options_status
      (global_handlers
         (SampleExit.installed SampleExit.builtin SampleExit.options_status))
      None (mkOut "" Errh.empty)
    = Some (exit_value, out1)
    /\ main_run Sample.OP_WRITE (-2147483648) true false
         Sample.click_read_router Sample.Router_initialize
         Sample.ControlSocket Sample.cp_quote Sample.element_write_hook
         (fun _ _ => "config") SampleExit.options_status []
         (SampleExit.installed SampleExit.builtin SampleExit.options_status)
         out1
       = Some (st', out2)
    /\ router st' = Some a
    /\ heap st' !! a = Some R
    /\ Sample.HandlerCall_call_read (exit_handler SampleExit.options_status)
         (global_handlers st') R
       = (exit_string, msgs)
    /\ (msgs <> [] -> 7 = -1)
    /\ (msgs = [] ->
        (forall n, Sample.cp_integer (Sample.cp_uncomment exit_string) = Some n ->
                   7 = n)
        /\ (Sample.cp_integer (Sample.cp_uncomment exit_string) = None ->
            Sample.cp_bool (Sample.cp_uncomment exit_string) = Some true -> 7 = 0)
        /\ (Sample.cp_integer (Sample.cp_uncomment exit_string) = None ->
            Sample.cp_bool (Sample.cp_uncomment exit_string) = Some false -> 7 = 1)
        /\ (Sample.cp_integer (Sample.cp_uncomment exit_string) = None ->
            Sample.cp_bool (Sample.cp_uncomment exit_string) = None ->
            7 = -1
            /\ last (Errh.errors (out_errh (mkOut "" Errh.empty)))
               = Some "exit handler value should be integer")
        /\ (forall exit_value',
              fst (main_report Sample.OP_READ Sample.OP_WRITE Sample.RAW
                     Sample.glob_match Sample.cp_uncomment Sample.cp_integer
                     Sample.cp_bool Sample.HandlerCall_call_read
                     SampleExit.options_status (global_handlers st') R
                     exit_value'
                     (if report_time SampleExit.options_status
                      then fputs "0.00u" out2 else out2))
              = 7)).
Proof.
  assert (Hloop : option_loop false Sample.cp_integer_base Sample.cp_tcpudp_port
                    SampleExit.argv_status default_options Errh.empty
                  = inl (SampleExit.options_status, Errh.empty))
    by (vm_compute; reflexivity).
  assert (Hinst : main_install Sample.OP_WRITE Sample.RAW Sample.NONEXCLUSIVE false
               Sample.click_read_router Sample.Router_initialize
               Sample.ControlSocket Sample.cp_quote
                    SampleExit.options_status Errh.empty
                    (initial_driver SampleExit.builtin)
                  = Some (inl (Errh.empty,
                               SampleExit.installed SampleExit.builtin
                                 SampleExit.options_status)))
    by (vm_compute; reflexivity).
  assert (Hmain : main Sample.OP_READ Sample.OP_WRITE Sample.RAW
           Sample.NONEXCLUSIVE Sample.glob_match (-2147483648) true false
           Sample.click_read_router Sample.Router_initialize
           Sample.ControlSocket Sample.cp_quote Sample.element_write_hook
           Sample.cp_uncomment Sample.cp_integer Sample.cp_integer_base
           Sample.cp_bool Sample.cp_tcpudp_port Sample.HandlerCall_call_read
           (fun _ _ => "config") "0.00u" SampleExit.builtin SampleExit.argv_status
                    None []
                  = Some (Exited 7 (mkOut "" Errh.empty)))
    by (vm_compute; reflexivity).
  exact (exit_handler_status Sample.OP_READ Sample.OP_WRITE Sample.RAW
           Sample.NONEXCLUSIVE Sample.glob_match (-2147483648) true false
           Sample.click_read_router Sample.Router_initialize
           Sample.ControlSocket Sample.cp_quote Sample.element_write_hook
           Sample.cp_uncomment Sample.cp_integer Sample.cp_integer_base
           Sample.cp_bool Sample.cp_tcpudp_port Sample.HandlerCall_call_read
           (fun _ _ => "config") "0.00u" SampleExit.builtin
           SampleExit.argv_status None [] SampleExit.options_status
           Errh.empty Errh.empty
           (SampleExit.installed SampleExit.builtin SampleExit.options_status)
           7 (mkOut "" Errh.empty) Hloop eq_refl Hinst Hmain).
Defined.

(** [click -q -e c -h c.nope] reports the missing handler and exits with the
    status 1. *)
Lemma unreadable_handler_reported_witness :
  exists exit_value out1 st' out2 a R,
    main_output SampleExit.options_nope
      (global_handlers
         (SampleExit.installed Sample.builtin SampleExit.options_nope))
      None (mkOut "" Errh.empty)
    = Some (exit_value, out1)
    /\ main_run Sample.OP_WRITE (-2147483648) true false
         Sample.click_read_router Sample.Router_initialize
         Sample.ControlSocket Sample.cp_quote Sample.element_write_hook
         (fun _ _ => "config") SampleExit.options_nope []
         (SampleExit.installed Sample.builtin SampleExit.options_nope) out1
       = Some (st', out2)
    /\ router st' = Some a
    /\ heap st' !! a = Some R
    /\ forall i,
         RouterOps.find R "c" = Some i ->
         let rh := Router_handler (global_handlers st') R (EIdx i) "nope" in
         let result :=
           call_read_handlers Sample.OP_READ Sample.OP_WRITE Sample.RAW
             Sample.glob_match (global_handlers st') R
             (handlers SampleExit.options_nope)
             (if report_time SampleExit.options_nope
              then fputs "0.00u" out2 else out2) in
         ((rh = None
           \/ exists h, rh = Some h
                        /\ visible Sample.OP_READ Sample.OP_WRITE h = false) ->
          In ("no '" +:+ ("c" +:+ "." +:+ "nope") +:+ "' handler")
             (Errh.errors
                (out_errh (mkOut "" (Errh.mk ["no 'c.nope' handler"] []))))
          /\ fst result = -1 /\ 1 = 1)
         /\ ((exists h, rh = Some h
                        /\ visible Sample.OP_READ Sample.OP_WRITE h = true
                        /\ read_visible Sample.OP_READ h = false) ->
             In ("'" +:+ ("c" +:+ "." +:+ "nope") +:+ "' is a write handler")
                (Errh.errors
                   (out_errh (mkOut "" (Errh.mk ["no 'c.nope' handler"] []))))
             /\ fst result = -1 /\ 1 = 1).
Proof.
  assert (Hloop : option_loop false Sample.cp_integer_base Sample.cp_tcpudp_port
                    SampleExit.argv_nope default_options Errh.empty
                  = inl (SampleExit.options_nope, Errh.empty))
    by (vm_compute; reflexivity).
  assert (Hinst : main_install Sample.OP_WRITE Sample.RAW Sample.NONEXCLUSIVE false
               Sample.click_read_router Sample.Router_initialize
               Sample.ControlSocket Sample.cp_quote
                    SampleExit.options_nope Errh.empty
                    (initial_driver Sample.builtin)
                  = Some (inl (Errh.empty,
                               SampleExit.installed Sample.builtin
                                 SampleExit.options_nope)))
    by (vm_compute; reflexivity).
  assert (Hmain : main Sample.OP_READ Sample.OP_WRITE Sample.RAW
           Sample.NONEXCLUSIVE Sample.glob_match (-2147483648) true false
           Sample.click_read_router Sample.Router_initialize
           Sample.ControlSocket Sample.cp_quote Sample.element_write_hook
           Sample.cp_uncomment Sample.cp_integer Sample.cp_integer_base
           Sample.cp_bool Sample.cp_tcpudp_port Sample.HandlerCall_call_read
           (fun _ _ => "config") "0.00u" Sample.builtin SampleExit.argv_nope None []
                  = Some (Exited 1
                            (mkOut "" (Errh.mk ["no 'c.nope' handler"] []))))
    by (vm_compute; reflexivity).
  exact (unreadable_handler_reported Sample.OP_READ Sample.OP_WRITE Sample.RAW
           Sample.NONEXCLUSIVE Sample.glob_match (-2147483648) true false
           Sample.click_read_router Sample.Router_initialize
           Sample.ControlSocket Sample.cp_quote Sample.element_write_hook
           Sample.cp_uncomment Sample.cp_integer Sample.cp_integer_base
           Sample.cp_bool Sample.cp_tcpudp_port Sample.HandlerCall_call_read
           (fun _ _ => "config") "0.00u" Sample.builtin
           SampleExit.argv_nope None [] SampleExit.options_nope
           Errh.empty Errh.empty
           (SampleExit.installed Sample.builtin SampleExit.options_nope)
           1 (mkOut "" (Errh.mk ["no 'c.nope' handler"] [])) "c" "nope"
           Hloop eq_refl (or_introl eq_refl) eq_refl Hinst Hmain).
Defined.

(** The pattern [q*] with the handler [length]. *)
Lemma expand_handler_elements_spec_witness :
  exists invoked,
    expand_handler_elements Sample.OP_READ Sample.glob_match ∅ Sample.R
                            "q*" "length" [] Sample.out0
    = (2, map EIdx invoked, Sample.out0)
    /\ StronglySorted lt invoked.
Proof.
  destruct (expand_handler_elements_spec Sample.OP_READ Sample.glob_match ∅
              Sample.R "q*" "length" Sample.out0 eq_refl)
    as (rc & invoked & o' & Hex & Hsorted & _ & Hsome & _).
  destruct Hsome as [-> ->].
  - exists 1%nat. split; [vm_compute; lia | reflexivity].
  - exists invoked. split; [exact Hex | exact Hsorted].
Defined.

(** Counterexample to C6 as stated: the instance name [q2] glob-matches
    [q*], but [q2] has no [length] handler and is not among the invoked
    elements. *)
Lemma expand_glob_counterexample :
  RouterOps.find Sample.R "q*" = None
  /\ Str.has_glob_char "q*" = true
  /\ (2 < RouterOps.nelements Sample.R)%nat
  /\ Sample.glob_match (RouterOps.ename Sample.R 2) "q*" = true
  /\ expand_handler_elements Sample.OP_READ Sample.glob_match ∅ Sample.R
                             "q*" "length" [] Sample.out0
     = (2, [EIdx 1], Sample.out0)
  /\ ~ In (EIdx 2) [EIdx 1].
Proof.
  repeat split; try reflexivity.
  - vm_compute. lia.
  - intros [H | []]. discriminate.
Qed.

(** The class name [Queue] with the handler [length]; and [x] by name. *)
Lemma expand_exact_name_then_readable_witness :
  expand_handler_elements Sample.OP_READ Sample.glob_match ∅ Sample.R
                          "x" "value" [] Sample.out0
  = (1, [EIdx 0], Sample.out0)
  /\ exists els,
       expand_handler_elements Sample.OP_READ Sample.glob_match ∅ Sample.R
                               "Queue" "length" [] Sample.out0
       = (2, els, Sample.out0)
       /\ out_errh (call_each Sample.OP_READ Sample.OP_WRITE Sample.RAW ∅
                      Sample.R "length" true els Sample.out0)
          = out_errh Sample.out0.
Proof.
  pose proof (expand_exact_name_then_readable Sample.OP_READ Sample.OP_WRITE
                Sample.RAW Sample.glob_match ∅ Sample.R "x" "value" true
                Sample.out0) as [Hname _].
  pose proof (expand_exact_name_then_readable Sample.OP_READ Sample.OP_WRITE
                Sample.RAW Sample.glob_match ∅ Sample.R "Queue" "length" true
                Sample.out0) as [_ Hclass].
  split; [exact (proj1 (Hname 0%nat eq_refl))|].
  destruct (Hclass eq_refl) as (els & Hex & _ & Herr).
  - exists 1%nat. split; [vm_compute; lia | reflexivity].
  - exists els. split; [exact Hex | exact Herr].
Defined.

(** Writing [12] and then [twelve] to the power handler. *)
Lemma power_write_handler_spec_witness :
  power_write_handler Sample.cp_uncomment Sample.cp_unsigned "12"
                      (mkSetTXPower 3) Errh.empty
  = (0, mkSetTXPower 12, Errh.empty)
  /\ exists rc,
       power_write_handler Sample.cp_uncomment Sample.cp_unsigned "twelve"
                           (mkSetTXPower 3) Errh.empty
       = (rc, mkSetTXPower 3,
          Errh.mk ["power parameter must be unsigned"] [])
       /\ rc < 0.
Proof.
  split.
  - exact (proj1 (power_write_handler_spec Sample.cp_uncomment Sample.cp_unsigned
                    "12" (mkSetTXPower 3) Errh.empty)).
  - exact (power_write_handler_spec Sample.cp_uncomment Sample.cp_unsigned
             "twelve" (mkSetTXPower 3) Errh.empty).
Defined.

(** Writing [bad] to [hotconfig]: the new router parses and fails to
    initialize. *)
Lemma hotconfig_rejected_witness :
  exists msgs,
    Sample.hotconfig "bad" Sample.st0
    = Some (- EINVAL, Errh.report msgs Errh.empty, Sample.st0)
    /\ - EINVAL < 0.
Proof.
  apply (hotconfig_rejected false Sample.click_read_router
           Sample.Router_initialize Sample.ControlSocket Sample.cp_quote
           Sample.no_sockets "bad" Errh.empty Sample.st0 0%nat Sample.R).
  - reflexivity.
  - reflexivity.
  - vm_compute. reflexivity.
Defined.

(** Writing [c] to [hotconfig] and running the task: the old router, whose
    only use was the driver's, is torn down. *)
Lemma hotconfig_swaps_witness :
  exists q st2,
    hotswap_router Sample.st1 = Some q
    /\ hotswap_task_scheduled Sample.st1 = true
    /\ run_hotswap_task Sample.st1 = Some st2
    /\ router st2 = Some q
    /\ heap st2 !! 0%nat = None.
Proof.
  assert (Hw : hotconfig_handler false Sample.click_read_router
                 Sample.Router_initialize Sample.ControlSocket Sample.cp_quote
                 Sample.no_sockets "c" Errh.empty Sample.st0
               = Some (0, Errh.empty, Sample.st1))
    by (vm_compute; reflexivity).
  destruct (hotconfig_swaps false Sample.click_read_router
              Sample.Router_initialize Sample.ControlSocket Sample.cp_quote
              Sample.no_sockets "c" Errh.empty Errh.empty Sample.st0 Sample.st1
              0%nat Sample.R eq_refl eq_refl I Hw)
    as (q & Rq & Hsched & Hq & _ & _ & _ & _ & st2 & Hrun & Hr & _ & _ & Hold & _).
  exists q, st2. repeat split; assumption.
Defined.

(** The command line [-R -e c], and a write of [d] to the handler it
    registers while the sample driver runs. *)
Lemma hotconfig_registered_iff_enabled_witness :
  is_Some (global_handlers
             (provide_hotconfig Sample.OP_WRITE Sample.RAW Sample.NONEXCLUSIVE
                                Sample.options_R (initial_driver Sample.builtin))
           !! "hotconfig")
  /\ exists q st2 st3 errh',
       call_write false Sample.click_read_router Sample.Router_initialize
         Sample.ControlSocket Sample.cp_quote Sample.element_write_hook
         Sample.no_sockets
         (mkHandler (Z.lor Sample.OP_WRITE (Z.lor Sample.RAW Sample.NONEXCLUSIVE))
                    "" (Some hook_hotconfig_handler))
         "d" Errh.empty Sample.st0
       = Some (0, errh', st2)
       /\ hotswap_task_scheduled st2 = true
       /\ hotswap_router st2 = Some q
       /\ router st2 = Some 0%nat
       /\ run_hotswap_task st2 = Some st3
       /\ router st3 = Some q.
Proof.
  destruct (hotconfig_registered_iff_enabled Sample.OP_WRITE
              Sample.RAW Sample.NONEXCLUSIVE false
              Sample.click_read_router Sample.Router_initialize
              Sample.ControlSocket Sample.cp_quote
              Sample.element_write_hook Sample.cp_integer_base
              Sample.cp_tcpudp_port Sample.builtin
              [ALLOW_RECONFIG_OPT false; EXPRESSION_OPT "c"]
              Sample.options_R Errh.empty eq_refl eq_refl)
    as (Hiff & Hh & _).
  split; [apply Hiff; reflexivity|].
  assert (Hreg : global_handlers
                   (provide_hotconfig Sample.OP_WRITE Sample.RAW
                      Sample.NONEXCLUSIVE Sample.options_R
                      (initial_driver Sample.builtin)) !! "hotconfig"
                 = Some (mkHandler
                           (Z.lor Sample.OP_WRITE
                                  (Z.lor Sample.RAW Sample.NONEXCLUSIVE))
                           "" (Some hook_hotconfig_handler)))
    by (vm_compute; reflexivity).
  destruct (Hh _ Hreg) as (_ & _ & _ & _ & _ & Hswap).
  edestruct (Hswap Sample.no_sockets "d" Errh.empty Sample.st0 0%nat Sample.R)
    as (q & st2 & st3 & H1 & _ & _ & H4 & H5 & H6 & _ & H8 & H9 & _);
    [reflexivity | reflexivity | exact I | reflexivity | reflexivity
     | reflexivity | |].
  - intros Hgt. discriminate Hgt.
  - exists q, st2, st3. eexists. repeat split; eassumption.
Defined.

(** Installing [c], then a hot-swap to [d] and an interrupt while running. *)
Lemma signal_handlers_installed_once_witness :
  click_signal_calls Sample.installed = installed_handlers false
  /\ (exists s' R',
        deliver_signal (-2147483648) true SIGINT (upd_started true Sample.installed)
        = Some s'
        /\ heap s' !! 0%nat = Some R'
        /\ r_runcount R' = -2147483648)
  /\ forall st',
       driver_run Sample.OP_WRITE (-2147483648) true false
                  Sample.click_read_router Sample.Router_initialize
                  Sample.ControlSocket Sample.cp_quote Sample.element_write_hook
                  Sample.no_sockets
                  [ev_write "hotconfig" "d" Errh.empty; ev_task; ev_signal SIGINT]
                  (upd_started true Sample.installed)
       = Some st' ->
       click_signal_calls st' = installed_handlers false.
Proof.
  assert (Hi : main_install Sample.OP_WRITE Sample.RAW Sample.NONEXCLUSIVE false
                 Sample.click_read_router Sample.Router_initialize
                 Sample.ControlSocket Sample.cp_quote Sample.options_R
                 Errh.empty (initial_driver Sample.builtin)
               = Some (inl (Errh.empty, Sample.installed)))
    by (vm_compute; reflexivity).
  pose proof (signal_handlers_installed_once Sample.OP_WRITE Sample.RAW
                Sample.NONEXCLUSIVE (-2147483648) true false
                Sample.click_read_router Sample.Router_initialize
                Sample.ControlSocket Sample.cp_quote Sample.element_write_hook
                Sample.builtin Sample.options_R Errh.empty Errh.empty
                Sample.installed Hi)
    as (_ & Hlog & (a & R & Hr & Ha) & Hstop & _ & _ & Hrun).
  split; [exact Hlog | split; [|exact (Hrun Sample.no_sockets _)]].
  assert (Ha0 : Some a = Some 0%nat) by (rewrite <- Hr; vm_compute; reflexivity).
  injection Ha0 as ->.
  destruct (upd_started_frame true Sample.installed) as (Hs & Hr' & Hh' & Hd').
  destruct (Hstop SIGINT (upd_started true Sample.installed) 0%nat R)
    as (s' & Hdel & _ & Hh & Hrc).
  - left. reflexivity.
  - now rewrite Hd'.
  - exact Hs.
  - now rewrite Hr'.
  - now rewrite Hh'.
  - exists s', (RouterOps.set_runcount (-2147483648) R).
    split; [exact Hdel | split; [exact Hh | exact Hrc]].
Defined.

(** ** The further properties at the sample installation *)

(** [click -h x.value --unix-socket /tmp/click -h 'q*.length']. *)
Lemma option_loop_requests_witness :
  exists o' eh',
    option_loop false Sample.cp_integer_base Sample.cp_tcpudp_port
      [HANDLER_OPT "x.value"; UNIX_SOCKET_OPT "/tmp/click";
       HANDLER_OPT "q*.length"] default_options Errh.empty
    = inl (o', eh')
    /\ handlers o' = ["x.value"; "q*.length"]
    /\ cs_unix_sockets (sockets o') = ["/tmp/click"].
Proof.
  destruct (option_loop false Sample.cp_integer_base Sample.cp_tcpudp_port
              [HANDLER_OPT "x.value"; UNIX_SOCKET_OPT "/tmp/click";
               HANDLER_OPT "q*.length"] default_options Errh.empty)
    as [[o' eh']|e] eqn:Hloop; [|vm_compute in Hloop; discriminate].
  exists o', eh'. split; [reflexivity|].
  exact (option_loop_requests false Sample.cp_integer_base Sample.cp_tcpudp_port
           [HANDLER_OPT "x.value"; UNIX_SOCKET_OPT "/tmp/click";
            HANDLER_OPT "q*.length"] default_options o' Errh.empty eh' Hloop).
Defined.

(** [click a=1 conf.click], and a further [-e c]. *)
Lemma option_loop_router_file_witness :
  exists o' eh',
    option_loop false Sample.cp_integer_base Sample.cp_tcpudp_port
      [Clp_NotOption "a=1"; Clp_NotOption "conf.click"] default_options Errh.empty
    = inl (o', eh')
    /\ omap router_spec [Clp_NotOption "a=1"; Clp_NotOption "conf.click"]
       = [("conf.click", false)]
    /\ option_step false Sample.cp_integer_base Sample.cp_tcpudp_port o'
         Errh.empty (EXPRESSION_OPT "c")
       = inr (1, Errh.mk ["router configuration specified twice"] []).
Proof.
  destruct (option_loop false Sample.cp_integer_base Sample.cp_tcpudp_port
              [Clp_NotOption "a=1"; Clp_NotOption "conf.click"]
              default_options Errh.empty)
    as [[o' eh']|e] eqn:Hloop; [|vm_compute in Hloop; discriminate].
  exists o', eh'. split; [reflexivity|].
  destruct (option_loop_router_file false Sample.cp_integer_base
              Sample.cp_tcpudp_port
              [Clp_NotOption "a=1"; Clp_NotOption "conf.click"]
              default_options o' Errh.empty eh' eq_refl Hloop) as [Hspec Htwice].
  assert (Hfile : router_file o' = Some "conf.click")
    by (vm_compute in Hloop; now injection Hloop as <- _).
  split; [rewrite Hspec, Hfile; vm_compute in Hloop; now injection Hloop as <- _|].
  apply (Htwice (EXPRESSION_OPT "c") Errh.empty);
    [rewrite Hfile; eexists; reflexivity | eexists; reflexivity].
Defined.

(** [click -j 4 -j 0] with threads compiled in. *)
Lemma option_loop_nthreads_witness :
  exists o' eh',
    option_loop true Sample.cp_integer_base Sample.cp_tcpudp_port
      [THREADS_OPT 4; QUIT_OPT; THREADS_OPT 0] default_options Errh.empty
    = inl (o', eh')
    /\ nthreads o' = 1.
Proof.
  destruct (option_loop true Sample.cp_integer_base Sample.cp_tcpudp_port
              [THREADS_OPT 4; QUIT_OPT; THREADS_OPT 0]
              default_options Errh.empty)
    as [[o' eh']|e] eqn:Hloop; [|vm_compute in Hloop; discriminate].
  exists o', eh'. split; [reflexivity|].
  exact (proj1 (option_loop_nthreads true Sample.cp_integer_base
                  Sample.cp_tcpudp_port
                  [THREADS_OPT 4; QUIT_OPT; THREADS_OPT 0]
                  default_options o' Errh.empty eh' Hloop)).
Defined.




(** [click -e c -h c.nope] with an empty exit handler. *)
Lemma main_exit_status_witness :
  Sample.run [EXPRESSION_OPT "c"; HANDLER_OPT "c.nope"; EXIT_HANDLER_OPT ""] []
  = Some (Exited 1 (mkOut "" (Errh.mk ["no 'c.nope' handler"] [])))
  /\ (1 = 0 \/ 1 = 1).
Proof.
  split; [vm_compute; reflexivity|].
  apply (main_exit_status Sample.OP_READ Sample.OP_WRITE Sample.RAW
           Sample.NONEXCLUSIVE Sample.glob_match (-2147483648) true false
           Sample.click_read_router Sample.Router_initialize
           Sample.ControlSocket Sample.cp_quote Sample.element_write_hook
           Sample.cp_uncomment Sample.cp_integer Sample.cp_integer_base
           Sample.cp_bool Sample.cp_tcpudp_port Sample.HandlerCall_call_read
           (fun _ _ => "config") "0.00u" Sample.builtin
           [EXPRESSION_OPT "c"; HANDLER_OPT "c.nope"; EXIT_HANDLER_OPT ""]
           None [] 1 (mkOut "" (Errh.mk ["no 'c.nope' handler"] []))).
  - intros v [Hv|[Hv|[Hv|[]]]]; [discriminate | discriminate |].
    now injection Hv as <-.
  - vm_compute. reflexivity.
Defined.

(** [click -q -e c]: an interrupt changes nothing. *)
Lemma main_quit_ignores_events_witness :
  Sample.run [QUIT_OPT; EXPRESSION_OPT "c"] [ev_signal SIGINT]
  = Sample.run [QUIT_OPT; EXPRESSION_OPT "c"] [].
Proof.
  unfold Sample.run. apply main_quit_ignores_events. left. reflexivity.
Defined.

(** [click -h Queue.nope]: the class matches [q1] and [q2], neither has the
    handler. *)
Lemma unreadable_match_is_silent_witness :
  call_read_handlers_step Sample.OP_READ Sample.OP_WRITE Sample.RAW
    Sample.glob_match ∅ Sample.R false Sample.out0 "Queue.nope"
  = Sample.out0
  /\ call_read_handlers Sample.OP_READ Sample.OP_WRITE Sample.RAW
       Sample.glob_match ∅ Sample.R ["Queue.nope"] Sample.out0
     = (0, Sample.out0).
Proof.
  apply (unreadable_match_is_silent Sample.OP_READ Sample.OP_WRITE Sample.RAW
           Sample.glob_match ∅ Sample.R "Queue.nope" "Queue" "nope" false
           Sample.out0).
  - reflexivity.
  - reflexivity.
  - reflexivity.
  - intros i Hi _.
    change (RouterOps.nelements Sample.R) with 3%nat in Hi.
    do 3 (destruct i as [|i]; [reflexivity|]). lia.
Defined.

(** 3.9996 s in milliseconds is 4.000 s. *)
Lemma round_timeval_spec_witness :
  round_timeval (mkTimeval 3 999600) 1000 = mkTimeval 4 0
  /\ 0 <= tv_usec (round_timeval (mkTimeval 3 999600) 1000) < 1000000 / 1000
  /\ tv_sec (round_timeval (mkTimeval 3 999600) 1000) * (1000000 / 1000)
     + tv_usec (round_timeval (mkTimeval 3 999600) 1000)
     = (tv_sec (mkTimeval 3 999600) * 1000000
        + tv_usec (mkTimeval 3 999600) + 1000 / 2) / 1000.
Proof.
  split; [reflexivity|].
  apply (round_timeval_spec (mkTimeval 3 999600) 1000).
  - simpl. lia.
  - lia.
  - exists 1000. reflexivity.
Defined.

(** Writing the line [12] to [power] and reading it back. *)
Lemma power_write_read_round_trip_witness :
  power_read_handler
    (snd (fst (power_write_handler Sample.cp_uncomment Sample.cp_unsigned
                 (Sample.line "12") (mkSetTXPower 0) Errh.empty)))
  = Sample.line "12"
  /\ read_body Sample.RAW (mkHandler Sample.OP_READ (Sample.line "12") None)
     = Sample.line "12".
Proof.
  exact (power_write_read_round_trip Sample.RAW Sample.cp_uncomment
           Sample.cp_unsigned (Sample.line "12") (mkSetTXPower 0) Errh.empty
           (mkHandler Sample.OP_READ (Sample.line "12") None) eq_refl).
Defined.

(** The address 00-05-4E-50-3C-1A on a little-endian host. *)
Lemma of_data_round_trip_witness :
  EtherAddress.wf
    (EtherAddress.of_data false (fun i => nth i [0; 5; 78; 80; 60; 26] 0))
  /\ EtherAddress.data false
       (EtherAddress.of_data false (fun i => nth i [0; 5; 78; 80; 60; 26] 0))
       3 = 80.
Proof.
  destruct (of_data_round_trip false (fun i => nth i [0; 5; 78; 80; 60; 26] 0))
    as [Hwf Hbytes].
  - intros i Hi. do 6 (destruct i as [|i]; [simpl; lia|]). lia.
  - split; [exact Hwf|]. apply (Hbytes 3%nat). lia.
Defined.

(** The multicast address 01-00-5E-00-00-01 on a big-endian host. *)
Lemma group_local_first_byte_witness :
  EtherAddress.is_group true
    (EtherAddress.of_data true (fun i => nth i [1; 0; 94; 0; 0; 1] 0)) = true
  /\ EtherAddress.is_local true
       (EtherAddress.of_data true (fun i => nth i [1; 0; 94; 0; 0; 1] 0)) = false.
Proof.
  apply (group_local_first_byte true (fun i => nth i [1; 0; 94; 0; 0; 1] 0)).
  intros i Hi. do 6 (destruct i as [|i]; [simpl; lia|]). lia.
Defined.

(** Two addresses with the same first word. *)
Lemma hashcode_spec_witness :
  0 <= EtherAddress.hashcode (EtherAddress.mk 1280 20558 6716) < 2 ^ 32
  /\ (EtherAddress._data0 (EtherAddress.mk 1280 20558 6716)
      = EtherAddress._data0 (EtherAddress.mk 1280 1 2) ->
      EtherAddress.hashcode (EtherAddress.mk 1280 20558 6716)
      = EtherAddress.hashcode (EtherAddress.mk 1280 1 2) ->
      EtherAddress.mk 1280 20558 6716 = EtherAddress.mk 1280 1 2).
Proof.
  apply (hashcode_spec (EtherAddress.mk 1280 20558 6716)
           (EtherAddress.mk 1280 1 2));
    unfold EtherAddress.wf; simpl; lia.
Defined.

Lemma sample_installed_wf : driver_wf Sample.installed.
Proof.
  exists 0%nat. split; [vm_compute; reflexivity|].
  split; [|vm_compute; reflexivity].
  assert (H : exists R, heap Sample.installed !! 0%nat = Some R)
    by (vm_compute; eexists; reflexivity).
  exact H.
Qed.

(** Two interrupts with a hot-swap in between, after installing [c]. *)
Lemma second_stop_signal_ends_process_witness :
  exists st',
    driver_run Sample.OP_WRITE (-2147483648) true false
               Sample.click_read_router Sample.Router_initialize
               Sample.ControlSocket Sample.cp_quote Sample.element_write_hook
               Sample.no_sockets
               (ev_signal SIGINT
                :: [ev_write "hotconfig" "d" Errh.empty; ev_task]
                   ++ [ev_signal SIGINT])
               (upd_started true Sample.installed)
    = Some st'
    /\ is_Some (terminated_by st').
Proof.
  apply second_stop_signal_ends_process.
  - apply driver_wf_upd_started, sample_installed_wf.
  - vm_compute. reflexivity.
Defined.

(** Installing [c] with the control sockets [-p 80 --unix-socket /tmp/click]. *)
Lemma control_sockets_added_witness :
  exists r errh' st' R0 Rs,
    parse_configuration false Sample.click_read_router Sample.Router_initialize
      Sample.ControlSocket Sample.cp_quote
      (mkControlSockets ["80"] ["/tmp/click"]) "c" true false Errh.empty
      (initial_driver Sample.builtin)
    = Some (Some r, errh', st')
    /\ heap st' !! r = Some (snd (fst (Sample.Router_initialize Rs)))
    /\ map e_name (r_elements Rs)
       = map e_name (r_elements R0)
         ++ ["click_driver@@ControlSocket"; "click_driver@@ControlSocket@1"]
    /\ map e_configuration (r_elements Rs)
       = map e_configuration (r_elements R0) ++ ["tcp, 80"; "unix, /tmp/click"].
Proof.
  destruct (parse_configuration false Sample.click_read_router
              Sample.Router_initialize Sample.ControlSocket Sample.cp_quote
              (mkControlSockets ["80"] ["/tmp/click"]) "c" true false Errh.empty
              (initial_driver Sample.builtin))
    as [[[[r|] errh'] st']|] eqn:H;
    [|vm_compute in H; discriminate|vm_compute in H; discriminate].
  destruct (control_sockets_added false Sample.click_read_router
              Sample.Router_initialize Sample.ControlSocket Sample.cp_quote
              (mkControlSockets ["80"] ["/tmp/click"]) "c" true false
              Errh.empty errh' (initial_driver Sample.builtin) st' r H)
    as (master & R0 & msgs & Rs & _ & _ & Hr & Hnames & Hconfs & _).
  exists r, errh', st', R0, Rs.
  split; [reflexivity|]. split; [exact Hr|]. split; [exact Hnames | exact Hconfs].
Defined.
